(** * xVPN backend: session registry, kill-switch monitor and no-logs store

    A shallow embedding of the core of [backend/main.py] and
    [backend/no_logs.py]: the two process-wide registries
    [active_sessions] and [kill_switch_registry], the request handlers
    that mutate them, the monitor pass [kill_switch_check_all], and the
    retention table [server_logs] with [create_minimal_log] and
    [purge_expired_logs].

    Conventions of the embedding.
    - A Python [dict] keeps its keys in insertion order and the code
      depends on it ([list(active_sessions.keys())[-1]], the order of the
      list returned by [kill_switch_check_all]), so a dict is an
      association list with the oldest key first.
    - [time.time()] is a float number of seconds; it is embedded as a
      rational [Q] (float rounding is not modelled).  [datetime.now(utc)]
      is embedded as a record of calendar fields with microsecond
      resolution, as the class stores it.
    - Every handler is [async def] without an inner [await], and the
      monitor calls [kill_switch_check_all] between two [await]s, so on
      the event loop each of them runs to completion: an interleaving of
      requests and monitor passes is a sequence of whole operations.
    - Clock readings, [uuid.uuid4()] draws and [random.randint] draws are
      arguments of the operation that makes them. *)

From Stdlib Require Import ZArith QArith Qround List String Ascii Bool Lia Lqa.
Import ListNotations.

Local Open Scope Z_scope.

(* ------------------------------------------------------------------ *)
(** ** Python dictionaries with string keys *)

Module PyDict.
Section Ops.
Context {V : Type}.

Definition dict := list (string * V).

Definition keys (d : dict) : list string := map fst d.

  (** [d.get(k)] *)
Fixpoint get (k : string) (d : dict) : option V :=
    match d with
    | [] => None
    | (k', v) :: d' => if String.eqb k k' then Some v else get k d'
    end.

  (** [k in d] *)
Definition contains (k : string) (d : dict) : bool :=
    match get k d with Some _ => true | None => false end.

  (** [d[k] = v]: an existing key keeps its position, a new key goes last. *)
Fixpoint set (k : string) (v : V) (d : dict) : dict :=
    match d with
    | [] => [(k, v)]
    | (k', v') :: d' =>
        if String.eqb k k' then (k', v) :: d' else (k', v') :: set k v d'
    end.

  (** [d.pop(k, None)], keeping the remaining dict. *)
Fixpoint pop (k : string) (d : dict) : dict :=
    match d with
    | [] => []
    | (k', v') :: d' =>
        if String.eqb k k' then pop k d' else (k', v') :: pop k d'
    end.

  (** [list(d.keys())[-1]] on a non-empty dict. *)
Definition last_key (d : dict) : option string :=
    match rev d with
    | [] => None
    | (k, _) :: _ => Some k
    end.
End Ops.
Arguments dict V : clear implicits.
End PyDict.

Abbreviation dict := PyDict.dict.

(* ------------------------------------------------------------------ *)
(** ** Numbers *)

(** [int(x)] on a float: truncation toward zero. *)
Definition py_int (x : Q) : Z := Z.quot (Qnum x) (Zpos (Qden x)).

(** Nearest integer, ties to the even one. *)
Definition round_half_even (x : Q) : Z :=
  let f := Qfloor x in
  let r := (x - inject_Z f)%Q in
  match (r ?= 1 # 2)%Q with
  | Lt => f
  | Gt => f + 1
  | Eq => if Z.even f then f else f + 1
  end.

(** [round(x, 2)] *)
Definition py_round2 (x : Q) : Q :=
  (inject_Z (round_half_even (x * inject_Z 100)) / inject_Z 100)%Q.

(** [x or 0] on an optional integer column. *)
Definition or_zero (x : option Z) : Z :=
  match x with Some n => n | None => 0 end.

(* ------------------------------------------------------------------ *)
(** ** Strings *)

(** [str.upper()] on ASCII text, the text of the catalog's region
    flags.  Unicode case mapping beyond ASCII is not modelled. *)
Definition upper_char (c : ascii) : ascii :=
  let n := nat_of_ascii c in
  if (97 <=? n)%nat && (n <=? 122)%nat then ascii_of_nat (n - 32) else c.

Fixpoint upper (s : string) : string :=
  match s with
  | EmptyString => EmptyString
  | String c s' => String (upper_char c) (upper s')
  end.

(** The characters on which [upper] above is Python's [str.upper]. *)
Fixpoint is_ascii (s : string) : bool :=
  match s with
  | EmptyString => true
  | String c s' => (nat_of_ascii c <? 128)%nat && is_ascii s'
  end.

(** A string is truthy when it is not empty. *)
Definition truthy (s : string) : bool :=
  match s with EmptyString => false | _ => true end.

Definition opt_truthy (s : option string) : bool :=
  match s with Some x => truthy x | None => false end.

(* ------------------------------------------------------------------ *)
(** ** [datetime] in UTC *)

Module DateTime.

(** The date part is kept as the proleptic ordinal of the day
    ([date.toordinal()]); no code here reads year, month or day apart. *)
Record t := mk {
  ordinal : Z;
  hour : Z;
  minute : Z;
  second : Z;
  microsecond : Z
}.

Definition valid (d : t) : Prop :=
  0 <= hour d < 24 /\ 0 <= minute d < 60 /\ 0 <= second d < 60 /\
  0 <= microsecond d < 1000000.

(** [d.replace(minute=0, second=0, microsecond=0)] *)
Definition replace_minute_second_microsecond_0 (d : t) : t :=
  {| ordinal := ordinal d; hour := hour d;
     minute := 0; second := 0; microsecond := 0 |}.

(** Position on the time line, in microseconds. *)
Definition to_us (d : t) : Z :=
  (((ordinal d * 24 + hour d) * 60 + minute d) * 60 + second d) * 1000000
  + microsecond d.

Definition of_us (n : Z) : t :=
  let secs := n / 1000000 in
  let sod := secs mod 86400 in
  {| ordinal := secs / 86400;
     hour := sod / 3600;
     minute := (sod mod 3600) / 60;
     second := (sod mod 3600) mod 60;
     microsecond := n mod 1000000 |}.

(** [timedelta(minutes=m)], as a number of microseconds. *)
Definition timedelta_minutes (m : Z) : Z := m * 60 * 1000000.

(** [d + delta]: the fields are summed and normalised with [divmod]. *)
Definition add (d : t) (delta : Z) : t := of_us (to_us d + delta).

(** [a <= b]: comparison of the field tuples, most significant first. *)
Definition leb (a b : t) : bool :=
  if ordinal a <? ordinal b then true
  else if ordinal b <? ordinal a then false
  else if hour a <? hour b then true
  else if hour b <? hour a then false
  else if minute a <? minute b then true
  else if minute b <? minute a then false
  else if second a <? second b then true
  else if second b <? second a then false
  else microsecond a <=? microsecond b.

(** [a > b] *)
Definition gtb (a b : t) : bool := negb (leb a b).

End DateTime.

Abbreviation datetime := DateTime.t.

(* ------------------------------------------------------------------ *)
(** ** [backend/models.py] *)

Module ServerLog.
(** A row of table [server_logs]. *)
Record t := mk {
  id : string;
  event_type : string;
  server_id : option string;
  timestamp : datetime;
  duration_seconds : option Z;
  bytes_transferred : option Z;
  protocol : option string;
  anonymized_region : option string;
  purge_after : datetime;
  is_purged : bool;
  no_logs_compliant : bool
}.
End ServerLog.

Module User.
(** The columns of [users] that the session handlers touch. *)
Record t := mk {
  id : string;
  total_data_transferred_bytes : option Z;
  total_sessions : option Z
}.
End User.

(* ------------------------------------------------------------------ *)
(** ** [backend/no_logs.py] *)

Definition NO_LOGS_RETENTION_MINUTES : Z := 5.
Definition PURGE_INTERVAL_SECONDS : Z := 60.

(** The table, oldest row first.  [db.add(row); db.commit()] appends. *)
Definition table := list ServerLog.t.

(** [region[:2].upper()] when [region] is present and has two characters
    or more, else [None]. *)
Definition anonymize_region (region : option string) : option string :=
  match region with
  | Some r =>
      if truthy r && (2 <=? String.length r)%nat
      then Some (upper (substring 0 2 r))
      else None
  | None => None
  end.

(** [create_minimal_log].  [now1] and [now2] are its two readings of
    [datetime.now(timezone.utc)], in program order: the first one feeds
    [purge_at], the second one the rounded [timestamp].  [new_id] is the
    [uuid4] drawn by the column default of [id].  The [server_id]
    argument is accepted and dropped. *)
Definition create_minimal_log
    (now1 now2 : datetime) (new_id : string) (db : table)
    (event_type : string) (server_id : option string)
    (duration_seconds bytes_transferred : option Z)
    (protocol region : option string) : ServerLog.t * table :=
  let anonymized_region := anonymize_region region in
  let purge_at :=
    DateTime.add now1 (DateTime.timedelta_minutes NO_LOGS_RETENTION_MINUTES) in
  let now := now2 in
  let rounded_timestamp := DateTime.replace_minute_second_microsecond_0 now in
  let log :=
    {| ServerLog.id := new_id;
       ServerLog.event_type := event_type;
       ServerLog.server_id := None;
       ServerLog.timestamp := rounded_timestamp;
       ServerLog.duration_seconds := duration_seconds;
       ServerLog.bytes_transferred := bytes_transferred;
       ServerLog.protocol := protocol;
       ServerLog.anonymized_region := anonymized_region;
       ServerLog.purge_after := purge_at;
       ServerLog.is_purged := false;
       ServerLog.no_logs_compliant := true |} in
  (log, db ++ [log]).

(** The filter of the query in [purge_expired_logs]:
    [purge_after <= now] and [is_purged == False]. *)
Definition expired_at (now : datetime) (r : ServerLog.t) : bool :=
  DateTime.leb (ServerLog.purge_after r) now && negb (ServerLog.is_purged r).

(** [db.delete(log)]: [DELETE FROM server_logs WHERE id = log.id]. *)
Definition db_delete (log : ServerLog.t) (db : table) : table :=
  filter (fun r => negb (String.eqb (ServerLog.id r) (ServerLog.id log))) db.

(** [purge_expired_logs]: the rows selected by the query are deleted one
    by one and counted; [now] is the function's clock reading. *)
Definition purge_expired_logs (now : datetime) (db : table) : Z * table :=
  let expired := filter (expired_at now) db in
  fold_left
    (fun '(count, db') log => (count + 1, db_delete log db'))
    expired (0, db).

(** The primary key of [server_logs]. *)
Definition pk_unique (db : table) : Prop := NoDup (map ServerLog.id db).

(* ------------------------------------------------------------------ *)
(** ** [backend/main.py]: data *)

Module Server.
(** An entry of the catalog [SERVERS]: the identifier, the region flag
    and the address.  The descriptive and randomised fields ([name],
    [city], [load], [ping], ...) feed only cosmetic response fields
    and are left out. *)
Record t := mk {
  id : string;
  flag : string;
  ip : string
}.
End Server.

Module Session.
(** A value of [active_sessions].  [kill_switch] and [user_id] are
    keys added after the dict is built, so they may be missing.  The
    cosmetic attachments ([virtual_ip], [residential_ip],
    [stealth_config], the multi-hop route) are not read by the handlers
    modelled here and are left out. *)
Record t := mk {
  session_id : string;
  server_id : string;
  server : Server.t;
  protocol : string;
  connected_at : Q;
  stealth_mode : option string;
  kill_switch : option bool;
  user_id : option string
}.

Definition with_kill_switch (b : option bool) (s : t) : t :=
  {| session_id := session_id s; server_id := server_id s;
     server := server s; protocol := protocol s;
     connected_at := connected_at s; stealth_mode := stealth_mode s;
     kill_switch := b; user_id := user_id s |}.

Definition with_user_id (u : string) (s : t) : t :=
  {| session_id := session_id s; server_id := server_id s;
     server := server s; protocol := protocol s;
     connected_at := connected_at s; stealth_mode := stealth_mode s;
     kill_switch := kill_switch s; user_id := Some u |}.
End Session.

Inductive ks_status : Type := active | warning | triggered.

Module KillSwitch.
Record firewall_rule := mk_rule {
  rule : string;
  action : string;
  priority : Z
}.

(** A value of [kill_switch_registry]. *)
Record t := mk {
  session_id : string;
  enabled : bool;
  last_heartbeat : Q;
  heartbeat_interval_sec : Z;
  timeout_sec : Z;
  missed_heartbeats : Z;
  max_missed_heartbeats : Z;
  status : ks_status;
  created_at : datetime;
  network_lock : bool;
  block_ipv6 : bool;
  block_non_vpn_traffic : bool;
  firewall_rules : list firewall_rule
}.

Definition with_last_heartbeat (x : Q) (k : t) : t :=
  {| session_id := session_id k; enabled := enabled k;
     last_heartbeat := x;
     heartbeat_interval_sec := heartbeat_interval_sec k;
     timeout_sec := timeout_sec k;
     missed_heartbeats := missed_heartbeats k;
     max_missed_heartbeats := max_missed_heartbeats k;
     status := status k; created_at := created_at k;
     network_lock := network_lock k; block_ipv6 := block_ipv6 k;
     block_non_vpn_traffic := block_non_vpn_traffic k;
     firewall_rules := firewall_rules k |}.

Definition with_missed_heartbeats (x : Z) (k : t) : t :=
  {| session_id := session_id k; enabled := enabled k;
     last_heartbeat := last_heartbeat k;
     heartbeat_interval_sec := heartbeat_interval_sec k;
     timeout_sec := timeout_sec k;
     missed_heartbeats := x;
     max_missed_heartbeats := max_missed_heartbeats k;
     status := status k; created_at := created_at k;
     network_lock := network_lock k; block_ipv6 := block_ipv6 k;
     block_non_vpn_traffic := block_non_vpn_traffic k;
     firewall_rules := firewall_rules k |}.

Definition with_status (x : ks_status) (k : t) : t :=
  {| session_id := session_id k; enabled := enabled k;
     last_heartbeat := last_heartbeat k;
     heartbeat_interval_sec := heartbeat_interval_sec k;
     timeout_sec := timeout_sec k;
     missed_heartbeats := missed_heartbeats k;
     max_missed_heartbeats := max_missed_heartbeats k;
     status := x; created_at := created_at k;
     network_lock := network_lock k; block_ipv6 := block_ipv6 k;
     block_non_vpn_traffic := block_non_vpn_traffic k;
     firewall_rules := firewall_rules k |}.
End KillSwitch.

(** The process-wide state: the two registries of [main.py] and the
    table behind the [db] handle. *)
Record State := mkState {
  active_sessions : dict Session.t;
  kill_switch_registry : dict KillSwitch.t;
  server_logs : table
}.

Definition KILL_SWITCH_HEARTBEAT_INTERVAL : Z := 10.
Definition KILL_SWITCH_TIMEOUT : Z := 30.

Definition initial_state : State :=
  {| active_sessions := []; kill_switch_registry := []; server_logs := [] |}.

(** What a handler hands back: a response body, or [HTTPException]. *)
Inductive result (A : Type) : Type :=
| Ok (body : A)
| HTTPException (status_code : Z) (detail : string).
Arguments Ok {A} body.
Arguments HTTPException {A} status_code detail.

Open Scope string_scope.

Definition SERVERS : list Server.t :=
  [ Server.mk "us-east-1" "US" "198.51.100.1";
    Server.mk "us-west-1" "US" "198.51.100.2";
    Server.mk "uk-london-1" "GB" "203.0.113.1";
    Server.mk "jp-tokyo-1" "JP" "203.0.113.10";
    Server.mk "de-frankfurt-1" "DE" "203.0.113.20";
    Server.mk "sg-singapore-1" "SG" "203.0.113.30";
    Server.mk "au-sydney-1" "AU" "203.0.113.40";
    Server.mk "ca-toronto-1" "CA" "203.0.113.50";
    Server.mk "nl-amsterdam-1" "NL" "203.0.113.60";
    Server.mk "ch-zurich-1" "CH" "203.0.113.70";
    Server.mk "fr-paris-1" "FR" "203.0.113.80";
    Server.mk "kr-seoul-1" "KR" "203.0.113.90";
    Server.mk "br-saopaulo-1" "BR" "203.0.113.100";
    Server.mk "in-mumbai-1" "IN" "203.0.113.110";
    Server.mk "se-stockholm-1" "SE" "203.0.113.120" ].

(** The keys of [STEALTH_PROTOCOLS]. *)
Definition STEALTH_PROTOCOLS : list string := ["shadowsocks"; "v2ray"; "obfs4"].

(** [next((s for s in SERVERS if s["id"] == server_id), None)] *)
Definition find_server (server_id : string) : option Server.t :=
  find (fun s => String.eqb (Server.id s) server_id) SERVERS.

Definition in_stealth_protocols (m : string) : bool :=
  existsb (String.eqb m) STEALTH_PROTOCOLS.

(* ------------------------------------------------------------------ *)
(** ** [backend/main.py]: the kill switch *)

Definition firewall_rules_default : list KillSwitch.firewall_rule :=
  [ KillSwitch.mk_rule "BLOCK_ALL_NON_TUNNEL" "drop" 1;
    KillSwitch.mk_rule "ALLOW_VPN_GATEWAY" "accept" 2;
    KillSwitch.mk_rule "ALLOW_LOCAL_DHCP" "accept" 3;
    KillSwitch.mk_rule "BLOCK_DNS_LEAK" "drop" 4;
    KillSwitch.mk_rule "BLOCK_IPv6" "drop" 5 ].

Inductive register_result : Type :=
| RegisterDisabled (session_id : string)
| Registered (entry : KillSwitch.t).

(** [kill_switch_register]; [now] is [time.time()], [dnow] is
    [datetime.now(timezone.utc)]. *)
Definition kill_switch_register
    (now : Q) (dnow : datetime) (session_id : string) (enabled : bool)
    (registry : dict KillSwitch.t) : register_result * dict KillSwitch.t :=
  if negb enabled then (RegisterDisabled session_id, registry)
  else
    let entry :=
      {| KillSwitch.session_id := session_id;
         KillSwitch.enabled := true;
         KillSwitch.last_heartbeat := now;
         KillSwitch.heartbeat_interval_sec := KILL_SWITCH_HEARTBEAT_INTERVAL;
         KillSwitch.timeout_sec := KILL_SWITCH_TIMEOUT;
         KillSwitch.missed_heartbeats := 0;
         KillSwitch.max_missed_heartbeats := 3;
         KillSwitch.status := active;
         KillSwitch.created_at := dnow;
         KillSwitch.network_lock := true;
         KillSwitch.block_ipv6 := true;
         KillSwitch.block_non_vpn_traffic := true;
         KillSwitch.firewall_rules := firewall_rules_default |} in
    (Registered entry, PyDict.set session_id entry registry).

Module HeartbeatAck.
(** The dict returned by a successful [kill_switch_heartbeat]. *)
Record t := mk {
  session_id : string;
  status : ks_status;
  heartbeat_received : bool;
  time_since_last_heartbeat_sec : Q;
  next_heartbeat_due_sec : Z;
  timestamp : datetime
}.
End HeartbeatAck.

Inductive heartbeat_result : Type :=
| HeartbeatError (error : string) (session_id : string)
| HeartbeatOk (ack : HeartbeatAck.t).

(** [kill_switch_heartbeat]: the entry is updated in place. *)
Definition kill_switch_heartbeat
    (now : Q) (dnow : datetime) (session_id : string)
    (registry : dict KillSwitch.t) : heartbeat_result * dict KillSwitch.t :=
  match PyDict.get session_id registry with
  | None =>
      (HeartbeatError "Kill switch not registered for this session" session_id,
       registry)
  | Some ks =>
      let time_since_last := (now - KillSwitch.last_heartbeat ks)%Q in
      let ks := KillSwitch.with_last_heartbeat now ks in
      let ks := KillSwitch.with_missed_heartbeats 0 ks in
      let ks := KillSwitch.with_status active ks in
      (HeartbeatOk
         {| HeartbeatAck.session_id := session_id;
            HeartbeatAck.status := active;
            HeartbeatAck.heartbeat_received := true;
            HeartbeatAck.time_since_last_heartbeat_sec :=
              py_round2 time_since_last;
            HeartbeatAck.next_heartbeat_due_sec :=
              KILL_SWITCH_HEARTBEAT_INTERVAL;
            HeartbeatAck.timestamp := dnow |},
       PyDict.set session_id ks registry)
  end.

Module Terminated.
(** An element of the list returned by [kill_switch_check_all]. *)
Record t := mk {
  session_id : string;
  reason : string;
  missed_heartbeats : Z;
  elapsed_since_last_heartbeat_sec : Q;
  server_id : string;
  terminated_at : datetime
}.
End Terminated.

(** What one turn of the loop of [kill_switch_check_all] leaves behind:
    the entry as mutated in place, the session registry, the report
    appended to [terminated] if any, and whether the key was appended to
    [expired_sessions]. *)
Definition check_entry
    (now : Q) (dnow : datetime) (sid : string) (ks : KillSwitch.t)
    (sessions : dict Session.t)
  : KillSwitch.t * dict Session.t * option Terminated.t * bool :=
  if negb (KillSwitch.enabled ks) then (ks, sessions, None, false)
  else
    let elapsed := (now - KillSwitch.last_heartbeat ks)%Q in
    let missed := py_int (elapsed / inject_Z KILL_SWITCH_HEARTBEAT_INTERVAL) in
    let ks := KillSwitch.with_missed_heartbeats missed ks in
    if Qle_bool (inject_Z KILL_SWITCH_TIMEOUT) elapsed then
      let ks := KillSwitch.with_status triggered ks in
      match PyDict.get sid sessions with
      | Some session =>
          (ks, PyDict.pop sid sessions,
           Some {| Terminated.session_id := sid;
                   Terminated.reason := "heartbeat_timeout";
                   Terminated.missed_heartbeats := missed;
                   Terminated.elapsed_since_last_heartbeat_sec :=
                     py_round2 elapsed;
                   Terminated.server_id := Session.server_id session;
                   Terminated.terminated_at := dnow |},
           true)
      | None => (ks, sessions, None, true)
      end
    else if (1 <=? missed)%Z then
      (KillSwitch.with_status warning ks, sessions, None, false)
    else (ks, sessions, None, false).

(** The loop [for sid, ks in kill_switch_registry.items()], in insertion
    order.  It returns the registry with every entry as the loop left
    it, the session registry, [terminated] and [expired_sessions]. *)
Fixpoint check_loop
    (now : Q) (dnow : datetime) (items : dict KillSwitch.t)
    (sessions : dict Session.t)
  : dict KillSwitch.t * dict Session.t * list Terminated.t * list string :=
  match items with
  | [] => ([], sessions, [], [])
  | (sid, ks) :: rest =>
      let '(ks', sessions1, report, is_expired) :=
        check_entry now dnow sid ks sessions in
      let '(rest', sessions2, terminated, expired_sessions) :=
        check_loop now dnow rest sessions1 in
      ((sid, ks') :: rest', sessions2,
       match report with Some r => r :: terminated | None => terminated end,
       if is_expired then sid :: expired_sessions else expired_sessions)
  end.

(** [kill_switch_check_all].  [now] is its single [time.time()] reading;
    the [datetime.now] readings behind [terminated_at] are taken as one
    reading [dnow].  The retention table is not an argument of the
    Python function: it comes back as it went in. *)
Definition kill_switch_check_all
    (now : Q) (dnow : datetime) (st : State) : list Terminated.t * State :=
  let '(registry, sessions, terminated, expired_sessions) :=
    check_loop now dnow (kill_switch_registry st) (active_sessions st) in
  let registry :=
    fold_left (fun reg sid => PyDict.pop sid reg) expired_sessions registry in
  (terminated,
   {| active_sessions := sessions;
      kill_switch_registry := registry;
      server_logs := server_logs st |}).

(* ------------------------------------------------------------------ *)
(** ** [backend/main.py]: the request handlers *)

Definition with_sessions (sessions : dict Session.t) (st : State) : State :=
  {| active_sessions := sessions;
     kill_switch_registry := kill_switch_registry st;
     server_logs := server_logs st |}.

Definition with_registry (registry : dict KillSwitch.t) (st : State) : State :=
  {| active_sessions := active_sessions st;
     kill_switch_registry := registry;
     server_logs := server_logs st |}.

Definition with_logs (db : table) (st : State) : State :=
  {| active_sessions := active_sessions st;
     kill_switch_registry := kill_switch_registry st;
     server_logs := db |}.

(** [session[key] = value] on the dict that [active_sessions] holds: the
    registry sees the change, at the same position. *)
Definition update_session
    (sid : string) (f : Session.t -> Session.t) (sessions : dict Session.t)
  : dict Session.t :=
  match PyDict.get sid sessions with
  | Some s => PyDict.set sid (f s) sessions
  | None => sessions
  end.

Module ConnectRequest.
(** The fields of the request body that the core reads. *)
Record t := mk {
  server_id : string;
  protocol : option string;
  stealth_mode : option string;
  kill_switch : option bool
}.
End ConnectRequest.

Module ConnectResponse.
Record kill_switch_info := mk_info {
  enabled : bool;
  heartbeat_interval_sec : Z;
  timeout_sec : Z;
  network_lock : bool;
  firewall_rules : nat
}.

Record t := mk {
  session_id : string;
  status : string;
  kill_switch : option kill_switch_info
}.
End ConnectResponse.

Definition is_true (b : option bool) : bool :=
  match b with Some true => true | _ => false end.

Definition unknown_stealth_detail (m : string) : string :=
  "Unknown stealth protocol: " ++ m
  ++ ". Available: ['shadowsocks', 'v2ray', 'obfs4']".

(** [if stealth_mode and stealth_mode not in STEALTH_PROTOCOLS]: the
    detail of the 400 to raise, if any. *)
Definition check_stealth_mode (stealth_mode : option string) : option string :=
  match stealth_mode with
  | Some m =>
      if truthy m && negb (in_stealth_protocols m)
      then Some (unknown_stealth_detail m) else None
  | None => None
  end.

(** [POST /api/connect].  [session_id] and [log_id] are the two [uuid4]
    draws, [t_conn] and [t_ks] the two [time.time()] readings (session
    creation, kill-switch registration), [d_ks], [now1], [now2] the
    [datetime.now] readings of [kill_switch_register] and
    [create_minimal_log]. *)
Definition connect
    (req : ConnectRequest.t) (current_user : User.t)
    (session_id log_id : string) (t_conn t_ks : Q) (d_ks now1 now2 : datetime)
    (st : State) : result (ConnectResponse.t * User.t) * State :=
  match find_server (ConnectRequest.server_id req) with
  | None => (HTTPException 404 "Server not found", st)
  | Some server =>
      match check_stealth_mode (ConnectRequest.stealth_mode req) with
      | Some detail => (HTTPException 400 detail, st)
      | None =>
          let protocol :=
            match ConnectRequest.protocol req with
            | Some p => if truthy p then p else "WireGuard"
            | None => "WireGuard"
            end in
          let session :=
            {| Session.session_id := session_id;
               Session.server_id := ConnectRequest.server_id req;
               Session.server := server;
               Session.protocol := protocol;
               Session.connected_at := t_conn;
               Session.stealth_mode := ConnectRequest.stealth_mode req;
               Session.kill_switch := None;
               Session.user_id := None |} in
          let sessions := PyDict.set session_id session (active_sessions st) in
          let '(ks_resp, registry, sessions) :=
            if is_true (ConnectRequest.kill_switch req) then
              let '(_, registry) :=
                kill_switch_register t_ks d_ks session_id true
                  (kill_switch_registry st) in
              (Some {| ConnectResponse.enabled := true;
                       ConnectResponse.heartbeat_interval_sec :=
                         KILL_SWITCH_HEARTBEAT_INTERVAL;
                       ConnectResponse.timeout_sec := KILL_SWITCH_TIMEOUT;
                       ConnectResponse.network_lock := true;
                       ConnectResponse.firewall_rules :=
                         List.length firewall_rules_default |},
               registry,
               update_session session_id
                 (Session.with_kill_switch (Some true)) sessions)
            else (None, kill_switch_registry st, sessions) in
          let user :=
            {| User.id := User.id current_user;
               User.total_data_transferred_bytes :=
                 User.total_data_transferred_bytes current_user;
               User.total_sessions :=
                 Some (or_zero (User.total_sessions current_user) + 1) |} in
          let sessions :=
            update_session session_id
              (Session.with_user_id (User.id current_user)) sessions in
          let '(_, db) :=
            create_minimal_log now1 now2 log_id (server_logs st)
              "session_start" None None None
              (ConnectRequest.protocol req) (Some (Server.flag server)) in
          (Ok ({| ConnectResponse.session_id := session_id;
                  ConnectResponse.status := "connected";
                  ConnectResponse.kill_switch := ks_resp |}, user),
           {| active_sessions := sessions;
              kill_switch_registry := registry;
              server_logs := db |})
      end
  end.

(** [POST /api/connect/multi-hop].  The draws are those of [connect]. *)
Definition connect_multi_hop
    (entry_server_id exit_server_id : string) (stealth_mode : option string)
    (kill_switch : option bool) (current_user : User.t)
    (session_id log_id : string) (t_conn t_ks : Q) (d_ks now1 now2 : datetime)
    (st : State) : result (ConnectResponse.t * User.t) * State :=
  match find_server entry_server_id, find_server exit_server_id with
  | None, _ =>
      (HTTPException 404 ("Entry server not found: " ++ entry_server_id), st)
  | Some _, None =>
      (HTTPException 404 ("Exit server not found: " ++ exit_server_id), st)
  | Some entry_server, Some exit_server =>
      if String.eqb entry_server_id exit_server_id then
        (HTTPException 400 "Entry and exit servers must be different", st)
      else
        match check_stealth_mode stealth_mode with
        | Some detail => (HTTPException 400 detail, st)
        | None =>
            let session :=
              {| Session.session_id := session_id;
                 Session.server_id := exit_server_id;
                 Session.server := exit_server;
                 Session.protocol := "WireGuard";
                 Session.connected_at := t_conn;
                 Session.stealth_mode := None;
                 Session.kill_switch := kill_switch;
                 Session.user_id := None |} in
            let sessions :=
              PyDict.set session_id session (active_sessions st) in
            let registry :=
              if is_true kill_switch then
                snd (kill_switch_register t_ks d_ks session_id true
                       (kill_switch_registry st))
              else kill_switch_registry st in
            let sessions :=
              if opt_truthy stealth_mode then
                update_session session_id
                  (fun s =>
                     {| Session.session_id := Session.session_id s;
                        Session.server_id := Session.server_id s;
                        Session.server := Session.server s;
                        Session.protocol := Session.protocol s;
                        Session.connected_at := Session.connected_at s;
                        Session.stealth_mode := stealth_mode;
                        Session.kill_switch := Session.kill_switch s;
                        Session.user_id := Session.user_id s |})
                  sessions
              else sessions in
            let user :=
              {| User.id := User.id current_user;
                 User.total_data_transferred_bytes :=
                   User.total_data_transferred_bytes current_user;
                 User.total_sessions :=
                   Some (or_zero (User.total_sessions current_user) + 1) |} in
            let sessions :=
              update_session session_id
                (Session.with_user_id (User.id current_user)) sessions in
            let '(_, db) :=
              create_minimal_log now1 now2 log_id (server_logs st)
                "multi_hop_session_start" None None None
                (Some "WireGuard (Double-encrypted)") None in
            (Ok ({| ConnectResponse.session_id := session_id;
                    ConnectResponse.status := "connected";
                    ConnectResponse.kill_switch := None |}, user),
             {| active_sessions := sessions;
                kill_switch_registry := registry;
                server_logs := db |})
        end
  end.

Inductive status_response : Type :=
| StatusDisconnected (status : string) (active_sessions : nat)
    (message : string)
| StatusConnected (session_id : string) (status : string)
    (uptime_seconds : Z) (server : Server.t)
    (bytes_sent bytes_received : Z).

(** [GET /api/status].  [now] is [time.time()], [r_sent] and
    [r_received] the two [random.randint] draws behind the byte
    counters.  The function holds no [raise] and writes nothing.  The
    cosmetic fields of the answer ([latency_ms], [encryption],
    [visible_ip], [residential_mask], [proxy_chaining]) are left out. *)
Definition status
    (session_id : option string) (now : Q) (r_sent r_received : Z)
    (st : State) : result status_response * State :=
  let session_id :=
    if negb (opt_truthy session_id)
       && negb (Nat.eqb (List.length (active_sessions st)) 0)
    then PyDict.last_key (active_sessions st)
    else session_id in
  let disconnected :=
    StatusDisconnected "disconnected" (List.length (active_sessions st))
      "No active VPN session" in
  match session_id with
  | None => (Ok disconnected, st)
  | Some sid =>
      if negb (truthy sid) then (Ok disconnected, st)
      else
        match PyDict.get sid (active_sessions st) with
        | None => (Ok disconnected, st)
        | Some session =>
            let uptime := py_int (now - Session.connected_at session) in
            (Ok (StatusConnected sid "connected" uptime
                   (Session.server session)
                   (uptime * r_sent) (uptime * r_received)),
             st)
        end
  end.

Module DisconnectResponse.
Record t := mk {
  status : string;
  session_id : string;
  uptime_seconds : Z;
  kill_switch_disarmed : bool;
  timestamp : datetime
}.
End DisconnectResponse.

(** [DELETE /api/disconnect].  [now] is [time.time()], [rnd] the
    [random.randint(100000, 500000)] draw, [now1], [now2], [log_id] the
    draws of [create_minimal_log], [dnow] the reading behind the
    response's [timestamp].  [current_user] is whoever is authenticated;
    the handler never reads the session's [user_id]. *)
Definition disconnect
    (session_id : string) (current_user : User.t)
    (now : Q) (rnd : Z) (now1 now2 dnow : datetime) (log_id : string)
    (st : State) : result (DisconnectResponse.t * User.t) * State :=
  match PyDict.get session_id (active_sessions st) with
  | None => (HTTPException 404 "Session not found", st)
  | Some session =>
      let sessions := PyDict.pop session_id (active_sessions st) in
      let uptime := py_int (now - Session.connected_at session) in
      let registry := PyDict.pop session_id (kill_switch_registry st) in
      let bytes_transferred := uptime * rnd in
      let user :=
        {| User.id := User.id current_user;
           User.total_data_transferred_bytes :=
             Some (or_zero (User.total_data_transferred_bytes current_user)
                   + bytes_transferred);
           User.total_sessions := User.total_sessions current_user |} in
      let '(_, db) :=
        create_minimal_log now1 now2 log_id (server_logs st)
          "session_end" None (Some uptime) (Some bytes_transferred)
          (Some (Session.protocol session))
          (Some (Server.flag (Session.server session))) in
      (Ok ({| DisconnectResponse.status := "disconnected";
              DisconnectResponse.session_id := session_id;
              DisconnectResponse.uptime_seconds := uptime;
              DisconnectResponse.kill_switch_disarmed :=
                match Session.kill_switch session with
                | Some b => b
                | None => false
                end;
              DisconnectResponse.timestamp := dnow |}, user),
       {| active_sessions := sessions;
          kill_switch_registry := registry;
          server_logs := db |})
  end.

(** [POST /api/kill-switch/enable] *)
Definition enable_kill_switch
    (session_id : string) (now : Q) (dnow : datetime) (st : State)
  : result register_result * State :=
  if negb (PyDict.contains session_id (active_sessions st)) then
    (HTTPException 404 "Session not found", st)
  else
    let '(ks_info, registry) :=
      kill_switch_register now dnow session_id true
        (kill_switch_registry st) in
    (Ok ks_info,
     {| active_sessions :=
          update_session session_id (Session.with_kill_switch (Some true))
            (active_sessions st);
        kill_switch_registry := registry;
        server_logs := server_logs st |}).

(** [POST /api/kill-switch/heartbeat] *)
Definition heartbeat
    (session_id : string) (now : Q) (dnow : datetime) (st : State)
  : result HeartbeatAck.t * State :=
  if negb (PyDict.contains session_id (active_sessions st)) then
    let registry :=
      if PyDict.contains session_id (kill_switch_registry st)
      then PyDict.pop session_id (kill_switch_registry st)
      else kill_switch_registry st in
    (HTTPException 404
       "Session not found or already terminated by kill switch",
     with_registry registry st)
  else
    let '(res, registry) :=
      kill_switch_heartbeat now dnow session_id (kill_switch_registry st) in
    match res with
    | HeartbeatError error _ =>
        (HTTPException 400 error, with_registry registry st)
    | HeartbeatOk ack => (Ok ack, with_registry registry st)
    end.

Inductive kill_switch_status_response : Type :=
| KsNotRegistered (session_id : string) (kill_switch_enabled : bool)
    (message : string)
| KsRegistered (session_id : string) (kill_switch_enabled : bool)
    (status : ks_status) (missed_heartbeats : Z)
    (last_heartbeat_sec_ago : Q) (timeout_sec : Z) (network_lock : bool)
    (firewall_rules_active : nat)
| KsSummary (total_monitored_sessions : nat)
    (sessions : list (string * ks_status * Z * Q)).

(** [GET /api/kill-switch/status]; the [time.time()] readings are taken
    as one reading [now].  No [raise], no write. *)
Definition kill_switch_status
    (session_id : option string) (now : Q) (st : State)
  : result kill_switch_status_response * State :=
  let summary :=
    KsSummary (List.length (kill_switch_registry st))
      (map (fun '(sid, ks) =>
              (sid, KillSwitch.status ks, KillSwitch.missed_heartbeats ks,
               py_round2 (now - KillSwitch.last_heartbeat ks)%Q))
         (kill_switch_registry st)) in
  match session_id with
  | Some sid =>
      if truthy sid then
        match PyDict.get sid (kill_switch_registry st) with
        | None =>
            (Ok (KsNotRegistered sid false
                   "Kill switch not registered for this session"), st)
        | Some ks =>
            let elapsed := (now - KillSwitch.last_heartbeat ks)%Q in
            (Ok (KsRegistered sid (KillSwitch.enabled ks)
                   (KillSwitch.status ks) (KillSwitch.missed_heartbeats ks)
                   (py_round2 elapsed) (KillSwitch.timeout_sec ks)
                   (KillSwitch.network_lock ks)
                   (List.length (KillSwitch.firewall_rules ks))), st)
        end
      else (Ok summary, st)
  | None => (Ok summary, st)
  end.

Module CheckResponse.
Record t := mk {
  terminated_sessions : list Terminated.t;
  terminated_count : nat;
  remaining_monitored : nat;
  remaining_active_sessions : nat;
  checked_at : datetime
}.
End CheckResponse.

(** [POST /api/kill-switch/check]: a monitor pass on demand. *)
Definition run_kill_switch_check
    (now : Q) (dnow : datetime) (st : State)
  : result CheckResponse.t * State :=
  let '(terminated, st') := kill_switch_check_all now dnow st in
  (Ok {| CheckResponse.terminated_sessions := terminated;
         CheckResponse.terminated_count := List.length terminated;
         CheckResponse.remaining_monitored :=
           List.length (kill_switch_registry st');
         CheckResponse.remaining_active_sessions :=
           List.length (active_sessions st');
         CheckResponse.checked_at := dnow |},
   st').

(** One turn of [monitor_loop] after its sleep. *)
Definition monitor_tick (now : Q) (dnow : datetime) (st : State) : State :=
  snd (kill_switch_check_all now dnow st).

(** One turn of [auto_purge_loop] after its sleep. *)
Definition purge_tick (dnow : datetime) (st : State) : Z * State :=
  let '(purged, db) := purge_expired_logs dnow (server_logs st) in
  (purged, with_logs db st).

(* ------------------------------------------------------------------ *)
(** ** Runs of the server *)

(** The operations that touch the shared state, each with its draws. *)
Inductive op : Type :=
| Connect (req : ConnectRequest.t) (current_user : User.t)
    (session_id log_id : string) (t_conn t_ks : Q)
    (d_ks now1 now2 : datetime)
| ConnectMultiHop (entry_server_id exit_server_id : string)
    (stealth_mode : option string) (kill_switch : option bool)
    (current_user : User.t) (session_id log_id : string)
    (t_conn t_ks : Q) (d_ks now1 now2 : datetime)
| Status (session_id : option string) (now : Q) (r_sent r_received : Z)
| Disconnect (session_id : string) (current_user : User.t) (now : Q)
    (rnd : Z) (now1 now2 dnow : datetime) (log_id : string)
| EnableKillSwitch (session_id : string) (now : Q) (dnow : datetime)
| Heartbeat (session_id : string) (now : Q) (dnow : datetime)
| KillSwitchStatus (session_id : option string) (now : Q)
| CheckAll (now : Q) (dnow : datetime)
| Purge (dnow : datetime).

Definition step (o : op) (st : State) : State :=
  match o with
  | Connect req u sid lid t1 t2 d n1 n2 =>
      snd (connect req u sid lid t1 t2 d n1 n2 st)
  | ConnectMultiHop e x sm ks u sid lid t1 t2 d n1 n2 =>
      snd (connect_multi_hop e x sm ks u sid lid t1 t2 d n1 n2 st)
  | Status sid now r1 r2 => snd (status sid now r1 r2 st)
  | Disconnect sid u now rnd n1 n2 d lid =>
      snd (disconnect sid u now rnd n1 n2 d lid st)
  | EnableKillSwitch sid now d => snd (enable_kill_switch sid now d st)
  | Heartbeat sid now d => snd (heartbeat sid now d st)
  | KillSwitchStatus sid now => snd (kill_switch_status sid now st)
  | CheckAll now d => snd (kill_switch_check_all now d st)
  | Purge d => snd (purge_tick d st)
  end.

Fixpoint run (ops : list op) (st : State) : State :=
  match ops with
  | [] => st
  | o :: ops' => run ops' (step o st)
  end.

(** The [time.time()] readings of an operation, in program order. *)
Definition readings (o : op) : list Q :=
  match o with
  | Connect _ _ _ _ t1 t2 _ _ _ => [t1; t2]
  | ConnectMultiHop _ _ _ _ _ _ _ t1 t2 _ _ _ => [t1; t2]
  | Status _ now _ _ => [now]
  | Disconnect _ _ now _ _ _ _ _ => [now]
  | EnableKillSwitch _ now _ => [now]
  | Heartbeat _ now _ => [now]
  | KillSwitchStatus _ now => [now]
  | CheckAll now _ => [now]
  | Purge _ => []
  end.

(** The clock does not run backwards: each reading is at least the one
    before, starting from [T]. *)
Fixpoint clock_ok (T : Q) (l : list Q) : Prop :=
  match l with
  | [] => True
  | x :: l' => (T <= x)%Q /\ clock_ok x l'
  end.

Definition last_reading (T : Q) (o : op) : Q := last (readings o) T.

(** The [uuid4] drawn for a new row of [server_logs], if the operation
    can add one. *)
Definition log_id_of (o : op) : option string :=
  match o with
  | Connect _ _ _ lid _ _ _ _ _ => Some lid
  | ConnectMultiHop _ _ _ _ _ _ lid _ _ _ _ _ => Some lid
  | Disconnect _ _ _ _ _ _ _ lid => Some lid
  | _ => None
  end.

Definition fresh_log_id (o : op) (st : State) : Prop :=
  match log_id_of o with
  | Some lid => ~ In lid (map ServerLog.id (server_logs st))
  | None => True
  end.

(** The states the server can be in when the clock last read [T]. *)
Inductive reachable : Q -> State -> Prop :=
| reachable_start : forall T, reachable T initial_state
| reachable_step : forall T st o,
    reachable T st ->
    clock_ok T (readings o) ->
    fresh_log_id o st ->
    reachable (last_reading T o) (step o st).

(** The session identifier an operation inserts under, if any. *)
Definition mints (o : op) : option string :=
  match o with
  | Connect _ _ sid _ _ _ _ _ _ => Some sid
  | ConnectMultiHop _ _ _ _ _ sid _ _ _ _ _ _ => Some sid
  | _ => None
  end.

Definition is_ok {A : Type} (r : result A) : bool :=
  match r with Ok _ => true | HTTPException _ _ => false end.

Definition terminated_ids (l : list Terminated.t) : list string :=
  map Terminated.session_id l.

(** How many times operation [o], run in [st], takes session [sid] out
    of [active_sessions]: a [disconnect] of [sid] that answers, or each
    report for [sid] in the list of a monitor pass. *)
Definition removals_by (sid : string) (o : op) (st : State) : nat :=
  match o with
  | Disconnect sid' u now rnd n1 n2 d lid =>
      if String.eqb sid sid'
         && is_ok (fst (disconnect sid' u now rnd n1 n2 d lid st))
      then 1%nat else 0%nat
  | CheckAll now d =>
      count_occ string_dec
        (terminated_ids (fst (kill_switch_check_all now d st))) sid
  | _ => 0%nat
  end.

Fixpoint removals (sid : string) (ops : list op) (st : State) : nat :=
  match ops with
  | [] => 0%nat
  | o :: ops' => (removals_by sid o st + removals sid ops' (step o st))%nat
  end.

(** The shape of the two registries: keys are unique, as in any dict. *)
Definition registries_wf (st : State) : Prop :=
  NoDup (PyDict.keys (active_sessions st)) /\
  NoDup (PyDict.keys (kill_switch_registry st)).

(** What holds of a registry entry between two operations, when the
    clock last read [T]. *)
Definition entry_ok (T : Q) (ks : KillSwitch.t) : Prop :=
  KillSwitch.enabled ks = true /\
  KillSwitch.status ks <> triggered /\
  (KillSwitch.status ks = warning ->
   (inject_Z KILL_SWITCH_HEARTBEAT_INTERVAL <= T - KillSwitch.last_heartbeat ks)%Q).

Definition logs_ok (db : table) : Prop :=
  pk_unique db /\ Forall (fun r => ServerLog.is_purged r = false) db.

(** Every registered entry is sound and belongs to a live session. *)
Definition entries_ok (T : Q) (st : State) : Prop :=
  forall sid ks,
    In (sid, ks) (kill_switch_registry st) ->
    entry_ok T ks /\ In sid (PyDict.keys (active_sessions st)).

Definition invariant (T : Q) (st : State) : Prop :=
  registries_wf st /\ entries_ok T st /\ logs_ok (server_logs st).

(** A row that keeps only coarse, non-identifying fields. *)
Definition coarse (r : ServerLog.t) : Prop :=
  ServerLog.server_id r = None /\
  match ServerLog.anonymized_region r with
  | None => True
  | Some c => (String.length c <= 2)%nat
  end.

(** The two outputs of one loop turn that depend on the entry alone:
    the entry as the turn leaves it, and whether its key goes to
    [expired_sessions]. *)
Definition entry_after (now : Q) (ks : KillSwitch.t) : KillSwitch.t :=
  let '(ks', _, _, _) :=
    check_entry now (KillSwitch.created_at ks) (KillSwitch.session_id ks)
      ks [] in
  ks'.

Definition timed_out (now : Q) (ks : KillSwitch.t) : bool :=
  let '(_, _, _, is_expired) :=
    check_entry now (KillSwitch.created_at ks) (KillSwitch.session_id ks)
      ks [] in
  is_expired.

(** [for k in ks: d.pop(k, None)] *)
Definition pop_all {V : Type} (ks : list string) (d : dict V) : dict V :=
  fold_left (fun d k => PyDict.pop k d) ks d.

(** The report that the monitor makes for session [sid] when entry [ks]
    has timed out at [now]. *)
Definition report_for
    (now : Q) (dnow : datetime) (sid : string) (ks : KillSwitch.t)
    (session : Session.t) : Terminated.t :=
  let elapsed := (now - KillSwitch.last_heartbeat ks)%Q in
  {| Terminated.session_id := sid;
     Terminated.reason := "heartbeat_timeout";
     Terminated.missed_heartbeats :=
       py_int (elapsed / inject_Z KILL_SWITCH_HEARTBEAT_INTERVAL);
     Terminated.elapsed_since_last_heartbeat_sec := py_round2 elapsed;
     Terminated.server_id := Session.server_id session;
     Terminated.terminated_at := dnow |}.

(** The keys that a monitor pass at [now] collects in
    [expired_sessions], and the reports it makes, read off the registry
    and the sessions it starts from. *)
Definition expired_keys (now : Q) (items : dict KillSwitch.t) : list string :=
  map fst (filter (fun item => timed_out now (snd item)) items).

Definition reports
    (now : Q) (dnow : datetime) (items : dict KillSwitch.t)
    (sessions : dict Session.t) : list Terminated.t :=
  flat_map
    (fun item =>
       if timed_out now (snd item) then
         match PyDict.get (fst item) sessions with
         | Some session => [report_for now dnow (fst item) (snd item) session]
         | None => []
         end
       else [])
    items.

Definition entries_after (now : Q) (items : dict KillSwitch.t)
  : dict KillSwitch.t :=
  map (fun item => (fst item, entry_after now (snd item))) items.

(* ------------------------------------------------------------------ *)
(** ** [backend/main.py]: helpers of the connect handlers *)

Module Route.
(** The dict returned by [build_multi_hop_route], without the
    descriptive texts and without [total_latency_ms], which adds the
    catalog's randomised [ping] values. *)
Record t := mk {
  multi_hop : bool;
  hops : Z;
  entry_node : Server.t;
  exit_node : Server.t;
  inter_node_latency_ms : Z;
  encryption_layers : Z
}.
End Route.

(** [build_multi_hop_route]; [inter_node_latency] is its
    [random.randint(15, 45)] draw. *)
Definition build_multi_hop_route
    (entry_server_id exit_server_id : string) (inter_node_latency : Z)
  : result Route.t :=
  match find_server entry_server_id with
  | None =>
      HTTPException 404 ("Entry server not found: " ++ entry_server_id)
  | Some entry_server =>
      match find_server exit_server_id with
      | None =>
          HTTPException 404 ("Exit server not found: " ++ exit_server_id)
      | Some exit_server =>
          if String.eqb entry_server_id exit_server_id then
            HTTPException 400 "Entry and exit nodes must be different servers"
          else
            Ok {| Route.multi_hop := true;
                  Route.hops := 2;
                  Route.entry_node := entry_server;
                  Route.exit_node := exit_server;
                  Route.inter_node_latency_ms := inter_node_latency;
                  Route.encryption_layers := 2 |}
      end
  end.

(* ------------------------------------------------------------------ *)
(** ** [backend/main.py]: the security check *)

Module SecurityCheckResponse.
(** The fields of the answer that depend on the session; the fixed
    texts, [resolution_time_ms] and [checked_at] are left out, and a
    DNS server is kept as its address. *)
Record t := mk {
  dns_leak_status : string;
  dns_leak_detected : bool;
  dns_servers : list string;
  webrtc_leak_status : string;
  webrtc_leak_detected : bool;
  stun_server_blocked : bool;
  ipv6_leak_status : string;
  ipv6_disabled : bool;
  overall_status : string
}.
End SecurityCheckResponse.

(** [GET /api/security-check] *)
Definition security_check (session_id : option string) (st : State)
  : result SecurityCheckResponse.t * State :=
  let is_connected :=
    match session_id with
    | Some sid => truthy sid && PyDict.contains sid (active_sessions st)
    | None => false
    end in
  let dns_servers_detected :=
    match session_id with
    | Some sid =>
        if is_connected then
          match PyDict.get sid (active_sessions st) with
          | Some session => [Server.ip (Session.server session)]
          | None => []
          end
        else ["8.8.8.8"; "8.8.4.4"]
    | None => ["8.8.8.8"; "8.8.4.4"]
    end in
  (Ok {| SecurityCheckResponse.dns_leak_status :=
           if is_connected then "protected" else "exposed";
         SecurityCheckResponse.dns_leak_detected := negb is_connected;
         SecurityCheckResponse.dns_servers := dns_servers_detected;
         SecurityCheckResponse.webrtc_leak_status :=
           if is_connected then "protected" else "vulnerable";
         SecurityCheckResponse.webrtc_leak_detected := negb is_connected;
         SecurityCheckResponse.stun_server_blocked := is_connected;
         SecurityCheckResponse.ipv6_leak_status :=
           if is_connected then "protected" else "unknown";
         SecurityCheckResponse.ipv6_disabled := is_connected;
         SecurityCheckResponse.overall_status :=
           if is_connected then "secure" else "at_risk" |},
   st).

(* ------------------------------------------------------------------ *)
(** ** [backend/main.py]: stealth headers *)

Module StealthConfig.
(** A value of [STEALTH_PROTOCOLS]: the keys that every protocol has. *)
Record t := mk {
  name : string;
  port : Z;
  fingerprint : string;
  header_size_bytes : Z
}.
End StealthConfig.

Definition STEALTH_PROTOCOL_TABLE : dict StealthConfig.t :=
  [ ("shadowsocks",
     StealthConfig.mk "Shadowsocks" 443 "TLS 1.3 Client Hello" 34);
    ("v2ray",
     StealthConfig.mk "V2Ray (VMess + WebSocket)" 443 "Chrome TLS fingerprint"
       58);
    ("obfs4",
     StealthConfig.mk "obfs4 (Pluggable Transport)" 443
       "None (fully randomized)" 24) ].

Module StealthHeaders.
(** The dict returned by [wrap_stealth_headers] for a known protocol:
    the base keys, and of the keys that [base.update] adds per protocol
    the two numeric ones.  [wrapped_payload_size] is [None] when no
    branch of the [if]/[elif] chain sets it. *)
Record t := mk {
  stealth_protocol : string;
  outer_port : Z;
  inner_protocol : string;
  overhead_bytes : Z;
  effective_mtu : Z;
  fingerprint_mimicry : string;
  wrapped_payload_size : option Z;
  packet_padding : option Z
}.
End StealthHeaders.

Inductive stealth_result : Type :=
| StealthError (error : string)
| StealthOk (headers : StealthHeaders.t).

(** [wrap_stealth_headers]; [r_padding] and [r_extra] are the two
    [random.randint(0, 255)] draws of the obfs4 branch, in program
    order. *)
Definition wrap_stealth_headers
    (protocol : string) (payload_size : Z) (r_padding r_extra : Z)
  : stealth_result :=
  match PyDict.get protocol STEALTH_PROTOCOL_TABLE with
  | None => StealthError ("Unknown stealth protocol: " ++ protocol)
  | Some config =>
      let header := StealthConfig.header_size_bytes config in
      let '(wrapped, padding) :=
        if String.eqb protocol "shadowsocks" then
          (Some (payload_size + header), None)
        else if String.eqb protocol "v2ray" then
          (Some (payload_size + header), None)
        else if String.eqb protocol "obfs4" then
          (Some (payload_size + header + r_extra), Some r_padding)
        else (None, None) in
      StealthOk
        {| StealthHeaders.stealth_protocol := StealthConfig.name config;
           StealthHeaders.outer_port := StealthConfig.port config;
           StealthHeaders.inner_protocol := "WireGuard";
           StealthHeaders.overhead_bytes := header;
           StealthHeaders.effective_mtu := 1500 - header;
           StealthHeaders.fingerprint_mimicry :=
             StealthConfig.fingerprint config;
           StealthHeaders.wrapped_payload_size := wrapped;
           StealthHeaders.packet_padding := padding |}
  end.

(** The list [protocols] of [GET /api/obfuscation/protocols]: per key,
    the name, the port, [overhead_bytes] and [effective_mtu]. *)
Definition obfuscation_protocols : list (string * string * Z * Z * Z) :=
  map (fun '(key, config) =>
         (key, StealthConfig.name config, StealthConfig.port config,
          StealthConfig.header_size_bytes config,
          1500 - StealthConfig.header_size_bytes config))
    STEALTH_PROTOCOL_TABLE.

(* ------------------------------------------------------------------ *)
(** ** [backend/main.py]: residential addresses *)

Module ResidentialIp.
(** An entry of [RESIDENTIAL_IP_POOL].  The last octet of [ip] is drawn
    when the module is loaded; it is kept apart from the fixed
    prefix. *)
Record t := mk {
  ip_prefix : string;
  ip_last_octet : Z;
  isp : string;
  city : string;
  state : string;
  asn : string
}.
End ResidentialIp.




(* ------------------------------------------------------------------ *)
(** ** [backend/auth.py] and the account handlers of [backend/main.py] *)

Module Account.
(** A row of table [users] again, now with the columns that
    registration, login and authentication read or write. *)
Record t := mk {
  id : string;
  username : string;
  email : string;
  password_hash : string;
  display_name : option string;
  is_active : option bool;
  last_login : option datetime
}.

Definition with_last_login (d : datetime) (a : t) : t :=
  {| id := id a; username := username a; email := email a;
     password_hash := password_hash a; display_name := display_name a;
     is_active := is_active a; last_login := Some d |}.
End Account.

(** Table [users], oldest row first. *)
Definition accounts := list Account.t.

Module Payload.
(** The claims of a token.  ["sub"] is read with [payload["sub"]], so
    it is taken to be there, as in every token this server signs. *)
Record t := mk {
  sub : string;
  username : option string;
  type : option string;
  exp : datetime;
  iat : datetime
}.
End Payload.

(** What [jwt.decode] does with a token. *)
Inductive jwt_outcome : Type :=
| Decoded (payload : Payload.t)
| ExpiredSignatureError
| InvalidTokenError.

Definition ACCESS_TOKEN_EXPIRE_MINUTES : Z := 60.
Definition REFRESH_TOKEN_EXPIRE_DAYS : Z := 30.

Module RegisterRequest.
Record t := mk {
  username : string;
  email : string;
  password : string;
  display_name : option string
}.
End RegisterRequest.

Module AuthResponse.
(** The answer of [register], [login] and [refresh_token]: the status,
    the user's columns that it repeats, and the two tokens. *)
Record t := mk {
  status : string;
  user_id : string;
  username : string;
  access_token : string;
  refresh_token : string;
  expires_in : Z
}.
End AuthResponse.

(** ["@" in s] and the like. *)
Fixpoint has_char (c : ascii) (s : string) : bool :=
  match s with
  | EmptyString => false
  | String c' s' => Ascii.eqb c c' || has_char c s'
  end.

(** [db.query(User).filter(cond).first()] *)
Definition first_account (cond : Account.t -> bool) (users : accounts)
  : option Account.t :=
  find cond users.

Section Auth.

(** The two libraries behind [auth.py], taken as they come:
    [bcrypt.hashpw] with the salt that [bcrypt.gensalt()] drew,
    [bcrypt.checkpw], [jwt.encode] and [jwt.decode] under the server's
    secret, the latter at the reading of the clock it checks ["exp"]
    against. *)
Variable hashpw : string -> string -> string.
Variable checkpw : string -> string -> bool.
Variable jwt_encode : Payload.t -> string.
Variable jwt_decode : string -> datetime -> jwt_outcome.

(** [hash_password]; [salt] is the draw of [bcrypt.gensalt()]. *)
Definition hash_password (password salt : string) : string :=
  hashpw password salt.

Definition verify_password (plain_password hashed_password : string) : bool :=
  checkpw plain_password hashed_password.

(** [create_access_token]; [now1] and [now2] are its two clock
    readings. *)
Definition create_access_token
    (user_id username : string) (now1 now2 : datetime) : string :=
  jwt_encode
    {| Payload.sub := user_id;
       Payload.username := Some username;
       Payload.type := Some "access";
       Payload.exp :=
         DateTime.add now1
           (DateTime.timedelta_minutes ACCESS_TOKEN_EXPIRE_MINUTES);
       Payload.iat := now2 |}.

Definition create_refresh_token
    (user_id : string) (now1 now2 : datetime) : string :=
  jwt_encode
    {| Payload.sub := user_id;
       Payload.username := None;
       Payload.type := Some "refresh";
       Payload.exp :=
         DateTime.add now1
           (DateTime.timedelta_minutes (REFRESH_TOKEN_EXPIRE_DAYS * 24 * 60));
       Payload.iat := now2 |}.

Definition decode_token (token : string) (now : datetime) : result Payload.t :=
  match jwt_decode token now with
  | Decoded payload => Ok payload
  | ExpiredSignatureError => HTTPException 401 "Token has expired"
  | InvalidTokenError => HTTPException 401 "Invalid token"
  end.

Definition opt_string_eqb (a : option string) (b : string) : bool :=
  match a with Some x => String.eqb x b | None => false end.

(** [get_current_user]; [credentials] is the bearer token, if the
    request carries one. *)
Definition get_current_user
    (credentials : option string) (now : datetime) (users : accounts)
  : result Account.t :=
  match credentials with
  | None => HTTPException 401 "Authentication required"
  | Some token =>
      match decode_token token now with
      | HTTPException code detail => HTTPException code detail
      | Ok payload =>
          if negb (opt_string_eqb (Payload.type payload) "access") then
            HTTPException 401 "Invalid token type"
          else
            match first_account
                    (fun a => String.eqb (Account.id a) (Payload.sub payload))
                    users with
            | None => HTTPException 401 "User not found"
            | Some user =>
                match Account.is_active user with
                | Some true => Ok user
                | _ => HTTPException 401 "Account is deactivated"
                end
            end
      end
  end.

(** [get_optional_user] *)
Definition get_optional_user
    (credentials : option string) (now : datetime) (users : accounts)
  : option Account.t :=
  match credentials with
  | None => None
  | Some token =>
      match decode_token token now with
      | HTTPException _ _ => None
      | Ok payload =>
          if negb (opt_string_eqb (Payload.type payload) "access") then None
          else
            match first_account
                    (fun a => String.eqb (Account.id a) (Payload.sub payload))
                    users with
            | Some user =>
                match Account.is_active user with
                | Some true => Some user
                | _ => None
                end
            | None => None
            end
      end
  end.

(** [POST /api/auth/register].  Strings are taken as the lists of their
    characters, so [len] is [String.length].  [new_id] is the [uuid4] of the row,
    [salt] the draw of [bcrypt.gensalt()], [n1] to [n4] the clock
    readings of the two token builders. *)
Definition register
    (req : RegisterRequest.t) (new_id salt : string) (n1 n2 n3 n4 : datetime)
    (users : accounts) : result AuthResponse.t * accounts :=
  if (String.length (RegisterRequest.username req) <? 3)%nat then
    (HTTPException 400 "Username must be at least 3 characters", users)
  else if (String.length (RegisterRequest.password req) <? 8)%nat then
    (HTTPException 400 "Password must be at least 8 characters", users)
  else if negb (has_char "@" (RegisterRequest.email req)) then
    (HTTPException 400 "Invalid email address", users)
  else
    match first_account
            (fun a =>
               String.eqb (Account.username a) (RegisterRequest.username req)
               || String.eqb (Account.email a) (RegisterRequest.email req))
            users with
    | Some existing =>
        if String.eqb (Account.username existing)
             (RegisterRequest.username req)
        then (HTTPException 409 "Username already taken", users)
        else (HTTPException 409 "Email already registered", users)
    | None =>
        let user :=
          {| Account.id := new_id;
             Account.username := RegisterRequest.username req;
             Account.email := RegisterRequest.email req;
             Account.password_hash :=
               hash_password (RegisterRequest.password req) salt;
             Account.display_name :=
               Some (if opt_truthy (RegisterRequest.display_name req)
                     then match RegisterRequest.display_name req with
                          | Some d => d
                          | None => RegisterRequest.username req
                          end
                     else RegisterRequest.username req);
             Account.is_active := Some true;
             Account.last_login := None |} in
        (Ok {| AuthResponse.status := "registered";
               AuthResponse.user_id := Account.id user;
               AuthResponse.username := Account.username user;
               AuthResponse.access_token :=
                 create_access_token (Account.id user) (Account.username user)
                   n1 n2;
               AuthResponse.refresh_token :=
                 create_refresh_token (Account.id user) n3 n4;
               AuthResponse.expires_in := 3600 |},
         (users ++ [user])%list)
    end.

(** [user.last_login = now] on the row that the query returned: the
    row with that primary key is updated in place. *)
Definition touch_login (id : string) (now : datetime) (users : accounts)
  : accounts :=
  map (fun a =>
         if String.eqb (Account.id a) id then Account.with_last_login now a
         else a)
    users.

(** [POST /api/auth/login]; [now] is the reading stored in
    [last_login]. *)
Definition login
    (username password : string) (now n1 n2 n3 n4 : datetime)
    (users : accounts) : result AuthResponse.t * accounts :=
  match first_account (fun a => String.eqb (Account.username a) username)
          users with
  | None => (HTTPException 401 "Invalid username or password", users)
  | Some user =>
      if negb (verify_password password (Account.password_hash user)) then
        (HTTPException 401 "Invalid username or password", users)
      else
        match Account.is_active user with
        | Some true =>
            (Ok {| AuthResponse.status := "authenticated";
                   AuthResponse.user_id := Account.id user;
                   AuthResponse.username := Account.username user;
                   AuthResponse.access_token :=
                     create_access_token (Account.id user)
                       (Account.username user) n1 n2;
                   AuthResponse.refresh_token :=
                     create_refresh_token (Account.id user) n3 n4;
                   AuthResponse.expires_in := 3600 |},
             touch_login (Account.id user) now users)
        | _ => (HTTPException 403 "Account is deactivated", users)
        end
  end.

(** [POST /api/auth/refresh]; [now] is the reading of [jwt.decode]. *)
Definition refresh_token
    (token : string) (now n1 n2 n3 n4 : datetime) (users : accounts)
  : result AuthResponse.t * accounts :=
  match decode_token token now with
  | HTTPException code detail => (HTTPException code detail, users)
  | Ok payload =>
      if negb (opt_string_eqb (Payload.type payload) "refresh") then
        (HTTPException 401 "Invalid token type", users)
      else
        match first_account
                (fun a => String.eqb (Account.id a) (Payload.sub payload))
                users with
        | None => (HTTPException 401 "User not found", users)
        | Some user =>
            (Ok {| AuthResponse.status := "refreshed";
                   AuthResponse.user_id := Account.id user;
                   AuthResponse.username := Account.username user;
                   AuthResponse.access_token :=
                     create_access_token (Account.id user)
                       (Account.username user) n1 n2;
                   AuthResponse.refresh_token :=
                     create_refresh_token (Account.id user) n3 n4;
                   AuthResponse.expires_in := 3600 |},
             users)
        end
  end.

End Auth.

(** The constraints of table [users]: primary key [id], and [username]
    and [email] declared [unique]. *)
Definition accounts_unique (users : accounts) : Prop :=
  NoDup (map Account.id users) /\
  NoDup (map Account.username users) /\
  NoDup (map Account.email users).

(* ------------------------------------------------------------------ *)
(** ** Vocabulary for runs: who an operation addresses *)

(** [req.protocol or "WireGuard"] *)
Definition default_protocol (p : option string) : string :=
  match p with
  | Some x => if truthy x then x else "WireGuard"
  | None => "WireGuard"
  end.

(** The session identifier that a request names or mints; the monitor
    pass, the purge and the two reads without a target name none. *)
Definition addressed (o : op) : option string :=
  match o with
  | Connect _ _ sid _ _ _ _ _ _ => Some sid
  | ConnectMultiHop _ _ _ _ _ sid _ _ _ _ _ _ => Some sid
  | Disconnect sid _ _ _ _ _ _ _ => Some sid
  | EnableKillSwitch sid _ _ => Some sid
  | Heartbeat sid _ _ => Some sid
  | Status _ _ _ _ | KillSwitchStatus _ _ | CheckAll _ _ | Purge _ => None
  end.

(** A run that keeps session [sid] alive: every monitor pass comes less
    than one heartbeat interval after the latest heartbeat of [sid]
    ([last] at the start), and no other request names [sid]. *)
Fixpoint kept_alive (sid : string) (last : Q) (ops : list op) : Prop :=
  match ops with
  | [] => True
  | Heartbeat k now _ :: rest =>
      if String.eqb k sid then kept_alive sid now rest
      else kept_alive sid last rest
  | CheckAll now _ :: rest =>
      (now - last < inject_Z KILL_SWITCH_HEARTBEAT_INTERVAL)%Q /\
      kept_alive sid last rest
  | o :: rest => addressed o <> Some sid /\ kept_alive sid last rest
  end.

(** What holds of every stored session between two operations: it sits
    under its own identifier, its server is an entry of the catalog, and
    its owner is recorded. *)
Definition session_ok (sid : string) (s : Session.t) : Prop :=
  Session.session_id s = sid /\ In (Session.server s) SERVERS /\
  Session.user_id s <> None.

Definition sessions_ok (st : State) : Prop :=
  forall sid s, In (sid, s) (active_sessions st) -> session_ok sid s.

(** A row whose region, if any, is the flag of a catalog server. *)
Definition region_from_catalog (r : ServerLog.t) : Prop :=
  match ServerLog.anonymized_region r with
  | None => True
  | Some c => exists server, In server SERVERS /\ c = Server.flag server
  end.

(* ------------------------------------------------------------------ *)
(** ** Sample data *)

Definition sample_time : datetime := DateTime.mk 739560 13 47 12 345678.

Definition sample_row (id : string) (purge_after : datetime) : ServerLog.t :=
  {| ServerLog.id := id;
     ServerLog.event_type := "session_start";
     ServerLog.server_id := None;
     ServerLog.timestamp :=
       DateTime.replace_minute_second_microsecond_0 purge_after;
     ServerLog.duration_seconds := None;
     ServerLog.bytes_transferred := None;
     ServerLog.protocol := Some "WireGuard";
     ServerLog.anonymized_region := Some "US";
     ServerLog.purge_after := purge_after;
     ServerLog.is_purged := false;
     ServerLog.no_logs_compliant := true |}.

Definition sample_table : table :=
  [ sample_row "a" (DateTime.mk 739560 13 40 0 0);
    sample_row "b" (DateTime.mk 739560 13 47 12 345678);
    sample_row "c" (DateTime.mk 739560 13 47 12 345679) ].

Definition alice : User.t := User.mk "alice" None None.
Definition bob : User.t := User.mk "bob" None None.

Definition sample_request (kill_switch : bool) : ConnectRequest.t :=
  ConnectRequest.mk "de-frankfurt-1" (Some "WireGuard") None (Some kill_switch).

(** Alice connects at second 100 with the kill switch armed: session
    ["s1"]. *)
Definition connect_s1 : op :=
  Connect (sample_request true) alice "s1" "row-1" (inject_Z 100)
    (inject_Z 100) sample_time sample_time sample_time.

Definition st_s1 : State := step connect_s1 initial_state.

(** Then she connects at second 101 without the kill switch: session
    ["s2"]. *)
Definition connect_s2 : op :=
  Connect (sample_request false) alice "s2" "row-2" (inject_Z 101)
    (inject_Z 101) sample_time sample_time sample_time.

Definition st_s2 : State := step connect_s2 st_s1.

(** Heartbeats for ["s1"] at seconds 108 and 117 between monitor passes
    at seconds 109, 117 and 126, while Bob ends ["s2"]. *)
Definition heartbeats_on_s1 : list op :=
  [ Heartbeat "s1" (inject_Z 108) sample_time;
    CheckAll (inject_Z 109) sample_time;
    Disconnect "s2" bob (inject_Z 110) 100000 sample_time sample_time
      sample_time "row-8";
    Heartbeat "s1" (inject_Z 117) sample_time;
    CheckAll (inject_Z 117) sample_time;
    CheckAll (inject_Z 126) sample_time ].

(** Stand-ins for the two libraries, enough to run the account
    handlers on examples: a hash that prefixes the salt, and tokens
    that are the subject behind a letter for the type. *)
Definition sample_hashpw (password salt : string) : string :=
  salt ++ "$" ++ password.

Definition sample_checkpw (password hashed : string) : bool :=
  String.eqb hashed ("salt" ++ "$" ++ password).

Definition sample_jwt_encode (p : Payload.t) : string :=
  match Payload.type p with
  | Some "access" => "A" ++ Payload.sub p
  | _ => "R" ++ Payload.sub p
  end.

Definition sample_jwt_decode (token : string) (now : datetime) : jwt_outcome :=
  match token with
  | String c sub =>
      let payload ty :=
        {| Payload.sub := sub; Payload.username := None;
           Payload.type := Some ty;
           Payload.exp := now; Payload.iat := now |} in
      if Ascii.eqb c "A" then Decoded (payload "access")
      else if Ascii.eqb c "R" then Decoded (payload "refresh")
      else InvalidTokenError
  | EmptyString => InvalidTokenError
  end.

Definition carol : Account.t :=
  {| Account.id := "u3"; Account.username := "carol";
     Account.email := "carol@example.org";
     Account.password_hash := "salt$correct horse";
     Account.display_name := Some "Carol";
     Account.is_active := Some true; Account.last_login := None |}.

(** An account that was switched off. *)
Definition dave : Account.t :=
  {| Account.id := "u4"; Account.username := "dave";
     Account.email := "dave@example.org";
     Account.password_hash := "salt$battery staple";
     Account.display_name := None;
     Account.is_active := Some false; Account.last_login := None |}.

Definition sample_accounts : accounts := [carol; dave].

Definition erin_request : RegisterRequest.t :=
  {| RegisterRequest.username := "erin";
     RegisterRequest.email := "erin@example.org";
     RegisterRequest.password := "longenough";
     RegisterRequest.display_name := None |}.

(** A state that no run produces: an entry for ["s9"] lingers in the
    kill-switch registry without a session. *)
Definition st_lingering : State :=
  {| active_sessions := active_sessions st_s1;
     kill_switch_registry :=
       snd (kill_switch_register (inject_Z 100) sample_time "s9" true
              (kill_switch_registry st_s1));
     server_logs := server_logs st_s1 |}.

(** A race on ["s1"]: the monitor passes at seconds 131, 141 and 151,
    and Bob's [disconnect] lands between the first two passes. *)
Definition race_on_s1 : list op :=
  [ CheckAll (inject_Z 131) sample_time;
    Disconnect "s1" bob (inject_Z 132) 100000 sample_time sample_time
      sample_time "row-9";
    CheckAll (inject_Z 141) sample_time;
    CheckAll (inject_Z 151) sample_time ].

(** Bob connects at second 100 too: session ["s3"], a twin of ["s1"]
    under another identifier and another caller. *)
Definition connect_s3 : op :=
  Connect (sample_request true) bob "s3" "row-3" (inject_Z 100)
    (inject_Z 100) sample_time sample_time sample_time.

Definition st_s3 : State := step connect_s3 st_s1.

(* ------------------------------------------------------------------ *)
(** * Properties *)

Open Scope list_scope.
Open Scope Z_scope.

(** ** Dictionaries *)

Section DictFacts.
Context {V : Type}.
Implicit Types (d : dict V) (k : string) (v : V).

Lemma get_none_keys k d : PyDict.get k d = None <-> ~ In k (PyDict.keys d).
Proof.
  induction d as [|[k' v'] d IH]; simpl.
  - tauto.
  - destruct (String.eqb_spec k k') as [->|ne].
    + split; [discriminate | intros H; exfalso; apply H; now left].
    + rewrite IH. split; [intros H [e|i]; [now subst | tauto] | tauto].
Qed.

Lemma get_some_in k v d : PyDict.get k d = Some v -> In (k, v) d.
Proof.
  induction d as [|[k' v'] d IH]; simpl; [discriminate|].
  destruct (String.eqb_spec k k') as [->|ne].
  - intros [= ->]. now left.
  - intros H. right. now apply IH.
Qed.

Lemma in_get k v d : NoDup (PyDict.keys d) -> In (k, v) d -> PyDict.get k d = Some v.
Proof.
  induction d as [|[k' v'] d IH]; simpl; [tauto|].
  intros nd [e|i].
  - injection e as -> ->. now rewrite String.eqb_refl.
  - inversion nd as [|? ? notin nd']; subst.
    destruct (String.eqb_spec k k') as [->|ne].
    + exfalso. apply notin. change k' with (fst (k', v)). now apply in_map.
    + now apply IH.
Qed.

Lemma contains_keys k d : PyDict.contains k d = true <-> In k (PyDict.keys d).
Proof.
  unfold PyDict.contains.
  destruct (PyDict.get k d) eqn:E.
  - split; [intros _|reflexivity].
    apply get_some_in in E. change k with (fst (k, v)). now apply in_map.
  - apply get_none_keys in E. split; [discriminate | tauto].
Qed.

Lemma contains_false_get k d : PyDict.contains k d = false <-> PyDict.get k d = None.
Proof.
  unfold PyDict.contains. destruct (PyDict.get k d); split; congruence.
Qed.

Lemma get_set_same k v d : PyDict.get k (PyDict.set k v d) = Some v.
Proof.
  induction d as [|[k' v'] d IH]; simpl.
  - now rewrite String.eqb_refl.
  - destruct (String.eqb_spec k k') as [->|ne]; simpl.
    + now rewrite String.eqb_refl.
    + destruct (String.eqb_spec k k'); [contradiction | exact IH].
Qed.

Lemma get_set_other k k' v d :
  k <> k' -> PyDict.get k (PyDict.set k' v d) = PyDict.get k d.
Proof.
  intros ne. induction d as [|[k2 v2] d IH]; simpl.
  - destruct (String.eqb_spec k k'); [contradiction | reflexivity].
  - destruct (String.eqb_spec k' k2) as [->|ne2]; simpl.
    + destruct (String.eqb_spec k k2); [contradiction | reflexivity].
    + destruct (String.eqb_spec k k2); [reflexivity | exact IH].
Qed.

Lemma get_pop_same k d : PyDict.get k (PyDict.pop k d) = None.
Proof.
  induction d as [|[k' v'] d IH]; simpl; [reflexivity|].
  destruct (String.eqb_spec k k') as [->|ne]; simpl; [exact IH|].
  destruct (String.eqb_spec k k'); [contradiction | exact IH].
Qed.

Lemma get_pop_other k k' d :
  k <> k' -> PyDict.get k (PyDict.pop k' d) = PyDict.get k d.
Proof.
  intros ne. induction d as [|[k2 v2] d IH]; simpl; [reflexivity|].
  destruct (String.eqb_spec k' k2) as [->|ne2]; simpl.
  - destruct (String.eqb_spec k k2); [contradiction | exact IH].
  - destruct (String.eqb_spec k k2); [reflexivity | exact IH].
Qed.

Lemma pop_absent k d : PyDict.get k d = None -> PyDict.pop k d = d.
Proof.
  induction d as [|[k' v'] d IH]; simpl; [reflexivity|].
  destruct (String.eqb_spec k k'); [discriminate|].
  intros H. now rewrite IH.
Qed.

Lemma keys_set_in k k' v d :
  In k (PyDict.keys (PyDict.set k' v d)) <-> k = k' \/ In k (PyDict.keys d).
Proof.
  induction d as [|[k2 v2] d IH]; simpl.
  - intuition congruence.
  - destruct (String.eqb_spec k' k2) as [->|ne2]; simpl.
    + intuition congruence.
    + rewrite IH. intuition congruence.
Qed.

Lemma keys_pop_in k k' d :
  In k (PyDict.keys (PyDict.pop k' d)) <-> k <> k' /\ In k (PyDict.keys d).
Proof.
  induction d as [|[k2 v2] d IH]; simpl.
  - tauto.
  - destruct (String.eqb_spec k' k2) as [->|ne2]; simpl.
    + rewrite IH. intuition congruence.
    + rewrite IH. intuition congruence.
Qed.

Lemma in_pop k k' v d :
  In (k, v) (PyDict.pop k' d) <-> k <> k' /\ In (k, v) d.
Proof.
  induction d as [|[k2 v2] d IH]; simpl.
  - tauto.
  - destruct (String.eqb_spec k' k2) as [->|ne2]; simpl.
    + rewrite IH. intuition congruence.
    + rewrite IH. intuition congruence.
Qed.

Lemma in_set k k' v v' d :
  In (k, v) (PyDict.set k' v' d) ->
  (k = k' /\ v = v') \/ In (k, v) d.
Proof.
  induction d as [|[k2 v2] d IH]; simpl.
  - intuition congruence.
  - destruct (String.eqb_spec k' k2) as [->|ne2]; simpl.
    + intuition congruence.
    + intros [e|i]; [now right; left | destruct (IH i); tauto].
Qed.

Lemma nodup_set k v d :
  NoDup (PyDict.keys d) -> NoDup (PyDict.keys (PyDict.set k v d)).
Proof.
  induction d as [|[k2 v2] d IH]; simpl; intros nd.
  - constructor; [tauto | constructor].
  - inversion nd as [|? ? notin nd']; subst.
    destruct (String.eqb_spec k k2) as [->|ne2]; simpl.
    + now constructor.
    + constructor; [|now apply IH].
      rewrite keys_set_in. intuition congruence.
Qed.

Lemma nodup_pop k d :
  NoDup (PyDict.keys d) -> NoDup (PyDict.keys (PyDict.pop k d)).
Proof.
  induction d as [|[k2 v2] d IH]; simpl; intros nd; [constructor|].
  inversion nd as [|? ? notin nd']; subst.
  destruct (String.eqb_spec k k2) as [->|ne2]; simpl; [now apply IH|].
  constructor; [|now apply IH].
  rewrite keys_pop_in. tauto.
Qed.

End DictFacts.

Lemma update_session_keys k sid f (d : dict Session.t) :
  In k (PyDict.keys (update_session sid f d)) <-> In k (PyDict.keys d).
Proof.
  unfold update_session. destruct (PyDict.get sid d) eqn:E; [|tauto].
  rewrite keys_set_in. split; [|tauto].
  intros [->|i]; [|exact i].
  apply get_some_in in E. change sid with (fst (sid, t)). now apply in_map.
Qed.

Lemma update_session_nodup sid f (d : dict Session.t) :
  NoDup (PyDict.keys d) -> NoDup (PyDict.keys (update_session sid f d)).
Proof.
  unfold update_session. destruct (PyDict.get sid d); [apply nodup_set | trivial].
Qed.

Lemma update_session_get_other k sid f (d : dict Session.t) :
  k <> sid -> PyDict.get k (update_session sid f d) = PyDict.get k d.
Proof.
  intros ne. unfold update_session.
  destruct (PyDict.get sid d); [now apply get_set_other | reflexivity].
Qed.

Lemma update_session_get_same sid f (d : dict Session.t) :
  PyDict.get sid (update_session sid f d) = option_map f (PyDict.get sid d).
Proof.
  unfold update_session. destruct (PyDict.get sid d) eqn:E; simpl.
  - apply get_set_same.
  - exact E.
Qed.

(** ** Calendar arithmetic *)

Lemma to_us_of_us n : DateTime.to_us (DateTime.of_us n) = n.
Proof.
  unfold DateTime.to_us, DateTime.of_us; simpl.
  Z.to_euclidean_division_equations. lia.
Qed.

Lemma of_us_valid n : DateTime.valid (DateTime.of_us n).
Proof.
  unfold DateTime.valid, DateTime.of_us; simpl.
  Z.to_euclidean_division_equations. lia.
Qed.

Lemma to_us_add d delta :
  DateTime.to_us (DateTime.add d delta) = DateTime.to_us d + delta.
Proof. unfold DateTime.add. apply to_us_of_us. Qed.

Lemma leb_to_us a b :
  DateTime.valid a -> DateTime.valid b ->
  DateTime.leb a b = true <-> DateTime.to_us a <= DateTime.to_us b.
Proof.
  unfold DateTime.valid, DateTime.leb, DateTime.to_us.
  destruct a as [oa ha ma sa ua], b as [ob hb mb sb ub]; simpl.
  intros Va Vb.
  repeat match goal with
         | |- context [Z.ltb ?x ?y] => destruct (Z.ltb_spec x y)
         end;
    try (split; [intros _; nia | reflexivity]);
    try (split; [discriminate | intros; nia]).
  rewrite Z.leb_le.
  assert (oa = ob) by lia. assert (ha = hb) by lia.
  assert (ma = mb) by lia. assert (sa = sb) by lia. subst. lia.
Qed.

Lemma leb_total a b : DateTime.leb a b = false -> DateTime.leb b a = true.
Proof.
  unfold DateTime.leb.
  repeat match goal with
         | |- context [Z.ltb ?x ?y] => destruct (Z.ltb_spec x y)
         end; try discriminate; try reflexivity; lia.
Qed.

Lemma leb_trans a b c :
  DateTime.leb a b = true -> DateTime.leb b c = true -> DateTime.leb a c = true.
Proof.
  unfold DateTime.leb.
  repeat match goal with
         | |- context [Z.ltb ?x ?y] => destruct (Z.ltb_spec x y)
         end; try discriminate; try reflexivity; lia.
Qed.

Lemma to_us_hour_start d :
  DateTime.valid d ->
  DateTime.to_us (DateTime.replace_minute_second_microsecond_0 d)
  = DateTime.to_us d - DateTime.to_us d mod 3600000000.
Proof.
  unfold DateTime.valid, DateTime.to_us; destruct d as [o h m s u]; simpl.
  intros V.
  assert (E : ((((o * 24 + h) * 60 + m) * 60 + s) * 1000000 + u) mod 3600000000
              = (m * 60 + s) * 1000000 + u).
  { replace ((((o * 24 + h) * 60 + m) * 60 + s) * 1000000 + u)
      with (((m * 60 + s) * 1000000 + u) + (o * 24 + h) * 3600000000) by lia.
    rewrite Z_mod_plus_full. apply Z.mod_small. lia. }
  rewrite E. lia.
Qed.

(** ** The retention table *)

Lemma pk_unique_same_row (db : table) r r' :
  pk_unique db -> In r db -> In r' db ->
  ServerLog.id r = ServerLog.id r' -> r = r'.
Proof.
  unfold pk_unique. induction db as [|x db IH]; simpl; [tauto|].
  intros nd i i' e. inversion nd as [|? ? notin nd']; subst.
  destruct i as [->|i], i' as [->|i'].
  - reflexivity.
  - exfalso. apply notin. rewrite e. now apply in_map.
  - exfalso. apply notin. rewrite <- e. now apply in_map.
  - now apply IH.
Qed.

Lemma purge_fold (l : list ServerLog.t) (count : Z) (db : table) :
  fold_left
    (fun '(count, db') log => (count + 1, db_delete log db')) l (count, db)
  = (count + Z.of_nat (List.length l),
     filter (fun r =>
               negb (existsb (fun log =>
                                String.eqb (ServerLog.id r) (ServerLog.id log))
                       l))
       db).
Proof.
  revert count db. induction l as [|x l IH]; intros count db; simpl.
  - f_equal; [lia|]. induction db as [|r db IHdb]; simpl; congruence.
  - rewrite IH. f_equal; [lia|].
    unfold db_delete. clear IH. induction db as [|r db IHdb]; simpl; [reflexivity|].
    destruct (String.eqb (ServerLog.id r) (ServerLog.id x)); simpl; [exact IHdb|].
    destruct (existsb _ l); simpl; [exact IHdb | now rewrite IHdb].
Qed.

Lemma purge_expired_logs_filter now (db : table) :
  pk_unique db ->
  purge_expired_logs now db
  = (Z.of_nat (List.length (filter (expired_at now) db)),
     filter (fun r => negb (expired_at now r)) db).
Proof.
  intros pk. unfold purge_expired_logs. rewrite purge_fold. simpl.
  f_equal. apply filter_ext_in. intros r i. f_equal.
  destruct (expired_at now r) eqn:E.
  - apply existsb_exists. exists r. split.
    + apply filter_In. now split.
    + apply String.eqb_refl.
  - destruct (existsb _ _) eqn:X; [|reflexivity].
    apply existsb_exists in X. destruct X as (r' & i' & e).
    apply filter_In in i'. destruct i' as [i' E'].
    apply String.eqb_eq in e.
    rewrite (pk_unique_same_row db r r' pk i i' e) in E. congruence.
Qed.

Lemma filter_none {A} (f : A -> bool) (l : list A) :
  (forall x, In x l -> f x = false) -> filter f l = [].
Proof.
  induction l as [|x l IH]; simpl; intros H; [reflexivity|].
  rewrite (H x) by now left. apply IH. intros y i. apply H. now right.
Qed.

Lemma filter_all {A} (f : A -> bool) (l : list A) :
  (forall x, In x l -> f x = true) -> filter f l = l.
Proof.
  induction l as [|x l IH]; simpl; intros H; [reflexivity|].
  rewrite (H x) by now left. f_equal. apply IH. intros y i. apply H. now right.
Qed.

Lemma pk_unique_filter (f : ServerLog.t -> bool) (db : table) :
  pk_unique db -> pk_unique (filter f db).
Proof.
  unfold pk_unique. induction db as [|x db IH]; simpl; intros nd; [constructor|].
  inversion nd as [|? ? notin nd']; subst.
  destruct (f x); simpl; [|now apply IH].
  constructor; [|now apply IH].
  intros i. apply notin. apply in_map_iff in i. destruct i as (y & e & i).
  apply filter_In in i. apply in_map_iff. exists y. tauto.
Qed.

Lemma filter_length_split {A} (f : A -> bool) (l : list A) :
  (List.length (filter f l) + List.length (filter (fun x => negb (f x)) l)
   = List.length l)%nat.
Proof.
  induction l as [|x l IH]; simpl; [reflexivity|].
  destruct (f x); simpl; lia.
Qed.

Lemma purge_expired_logs_subset now (db : table) r :
  In r (snd (purge_expired_logs now db)) -> In r db.
Proof.
  unfold purge_expired_logs. rewrite purge_fold. simpl.
  intros i. now apply filter_In in i.
Qed.

Lemma upper_length s : String.length (upper s) = String.length s.
Proof. induction s as [|c s IH]; simpl; congruence. Qed.

Lemma anonymize_region_length region c :
  anonymize_region region = Some c -> String.length c = 2%nat.
Proof.
  unfold anonymize_region. destruct region as [r|]; [|discriminate].
  destruct r as [|a [|b r]]; simpl; try discriminate.
  intros [= <-]. simpl. rewrite upper_length. now destruct r.
Qed.

(** Every region that reaches [create_minimal_log] is a flag of the
    catalog: two ASCII capitals, which [anonymize_region] returns as
    they are. *)
Lemma catalog_flags :
  Forall
    (fun s =>
       is_ascii (Server.flag s) = true /\
       anonymize_region (Some (Server.flag s)) = Some (Server.flag s))
    SERVERS.
Proof. repeat constructor. Qed.

Lemma find_server_in_catalog server_id server :
  find_server server_id = Some server ->
  In server SERVERS /\ Server.id server = server_id.
Proof.
  unfold find_server. intros F. apply find_some in F.
  destruct F as [i e]. split; [exact i | now apply String.eqb_eq].
Qed.

Lemma create_minimal_log_coarse
    now1 now2 new_id db event_type server_id duration bytes protocol region :
  coarse (fst (create_minimal_log now1 now2 new_id db event_type server_id
                 duration bytes protocol region)).
Proof.
  split; simpl; [reflexivity|].
  destruct (anonymize_region region) as [c|] eqn:E; [|exact I].
  apply anonymize_region_length in E. lia.
Qed.

Lemma create_minimal_log_appends
    now1 now2 new_id db event_type server_id duration bytes protocol region :
  snd (create_minimal_log now1 now2 new_id db event_type server_id
         duration bytes protocol region)
  = db ++ [fst (create_minimal_log now1 now2 new_id db event_type server_id
                  duration bytes protocol region)].
Proof. reflexivity. Qed.

(** The table after each handler, spelled out. *)

Lemma connect_logs req u sid lid t1 t2 d n1 n2 st :
  server_logs (snd (connect req u sid lid t1 t2 d n1 n2 st))
  = match find_server (ConnectRequest.server_id req),
          check_stealth_mode (ConnectRequest.stealth_mode req) with
    | Some server, None =>
        snd (create_minimal_log n1 n2 lid (server_logs st) "session_start"
               None None None (ConnectRequest.protocol req)
               (Some (Server.flag server)))
    | _, _ => server_logs st
    end.
Proof.
  unfold connect.
  destruct (find_server _); [|reflexivity].
  destruct (check_stealth_mode _); [reflexivity|].
  destruct (is_true _); reflexivity.
Qed.

Lemma connect_multi_hop_logs e x sm ks u sid lid t1 t2 d n1 n2 st :
  server_logs (snd (connect_multi_hop e x sm ks u sid lid t1 t2 d n1 n2 st))
  = match find_server e, find_server x, String.eqb e x,
          check_stealth_mode sm with
    | Some _, Some _, false, None =>
        snd (create_minimal_log n1 n2 lid (server_logs st)
               "multi_hop_session_start" None None None
               (Some "WireGuard (Double-encrypted)") None)
    | _, _, _, _ => server_logs st
    end.
Proof.
  unfold connect_multi_hop.
  destruct (find_server e); [|reflexivity].
  destruct (find_server x); [|reflexivity].
  destruct (String.eqb e x); [reflexivity|].
  destruct (check_stealth_mode sm); reflexivity.
Qed.

Lemma disconnect_logs sid u now rnd n1 n2 d lid st :
  server_logs (snd (disconnect sid u now rnd n1 n2 d lid st))
  = match PyDict.get sid (active_sessions st) with
    | Some session =>
        let uptime := py_int (now - Session.connected_at session) in
        snd (create_minimal_log n1 n2 lid (server_logs st) "session_end"
               None (Some uptime) (Some (uptime * rnd))
               (Some (Session.protocol session))
               (Some (Server.flag (Session.server session))))
    | None => server_logs st
    end.
Proof. unfold disconnect. destruct (PyDict.get sid _); reflexivity. Qed.

Lemma check_all_logs now d st :
  server_logs (snd (kill_switch_check_all now d st)) = server_logs st.
Proof.
  unfold kill_switch_check_all.
  destruct (check_loop now d _ _) as [[[? ?] ?] ?]. reflexivity.
Qed.

Lemma heartbeat_logs sid now d st :
  server_logs (snd (heartbeat sid now d st)) = server_logs st.
Proof.
  unfold heartbeat. destruct (negb _); [reflexivity|].
  destruct (kill_switch_heartbeat _ _ _ _) as [[] ?]; reflexivity.
Qed.

Lemma enable_kill_switch_logs sid now d st :
  server_logs (snd (enable_kill_switch sid now d st)) = server_logs st.
Proof. unfold enable_kill_switch. destruct (negb _); reflexivity. Qed.

Lemma status_unchanged sid now r1 r2 st : snd (status sid now r1 r2 st) = st.
Proof.
  unfold status.
  match goal with
  | |- context [match ?x with Some _ => _ | None => _ end] =>
      destruct x as [k|]
  end; [|reflexivity].
  destruct (negb (truthy k)); [reflexivity|].
  destruct (PyDict.get k _); reflexivity.
Qed.

Lemma kill_switch_status_unchanged sid now st :
  snd (kill_switch_status sid now st) = st.
Proof.
  unfold kill_switch_status. destruct sid as [k|]; [|reflexivity].
  destruct (truthy k); [|reflexivity].
  destruct (PyDict.get k _); reflexivity.
Qed.

Lemma purge_tick_state d st :
  snd (purge_tick d st)
  = with_logs (snd (purge_expired_logs d (server_logs st))) st.
Proof.
  unfold purge_tick. destruct (purge_expired_logs d _). reflexivity.
Qed.

(** ** Claims about the retention table *)

(** C5.  A row made by [create_minimal_log] stores as [timestamp] the
    clock reading with minute, second and microsecond set to zero, that
    is the start of the hour that contains the reading, and as
    [purge_after] the untruncated reading plus the retention window of
    five minutes.  The function reads the clock twice in a row ([now1]
    for [purge_after], then [now2] for [timestamp]); at an event time
    [t] both readings are [t]. *)
Theorem create_minimal_log_coarsening :
  forall now1 now2 new_id db event_type server_id duration bytes protocol
         region,
    DateTime.valid now2 ->
    let log :=
      fst (create_minimal_log now1 now2 new_id db event_type server_id
             duration bytes protocol region) in
    snd (create_minimal_log now1 now2 new_id db event_type server_id
           duration bytes protocol region) = db ++ [log] /\
    DateTime.ordinal (ServerLog.timestamp log) = DateTime.ordinal now2 /\
    DateTime.hour (ServerLog.timestamp log) = DateTime.hour now2 /\
    DateTime.minute (ServerLog.timestamp log) = 0 /\
    DateTime.second (ServerLog.timestamp log) = 0 /\
    DateTime.microsecond (ServerLog.timestamp log) = 0 /\
    DateTime.to_us (ServerLog.timestamp log)
    = DateTime.to_us now2 - DateTime.to_us now2 mod 3600000000 /\
    ServerLog.purge_after log
    = DateTime.add now1 (DateTime.timedelta_minutes NO_LOGS_RETENTION_MINUTES) /\
    DateTime.to_us (ServerLog.purge_after log)
    = DateTime.to_us now1 + NO_LOGS_RETENTION_MINUTES * 60 * 1000000.
Proof.
  intros now1 now2 new_id db event_type server_id duration bytes protocol
    region V log.
  subst log. simpl.
  repeat split; try reflexivity.
  - now apply to_us_hour_start.
  - apply to_us_add.
Qed.

Lemma create_minimal_log_coarsening_witness :
  DateTime.valid sample_time /\
  ServerLog.timestamp
    (fst (create_minimal_log sample_time sample_time "row-1" []
            "session_end" None (Some 75) (Some 7500000) (Some "WireGuard")
            (Some "DE")))
  = DateTime.mk 739560 13 0 0 0 /\
  ServerLog.purge_after
    (fst (create_minimal_log sample_time sample_time "row-1" []
            "session_end" None (Some 75) (Some 7500000) (Some "WireGuard")
            (Some "DE")))
  = DateTime.mk 739560 13 52 12 345678.
Proof.
  assert (V : DateTime.valid sample_time) by (unfold DateTime.valid; simpl; lia).
  split; [exact V|].
  pose proof (create_minimal_log_coarsening sample_time sample_time "row-1" []
                "session_end" None (Some 75) (Some 7500000) (Some "WireGuard")
                (Some "DE") V) as H.
  cbv zeta in H. destruct H as (_ & _ & _ & _ & _ & _ & _ & H & _).
  split; [reflexivity|].
  etransitivity; [exact H | reflexivity].
Defined.

(** The retention window is exact: a row made at clock reading [now1]
    is selected by the purge query at reading [now] exactly from
    [now1] plus five minutes on. *)
Lemma row_expires_after_window
    now now1 now2 new_id db event_type server_id duration bytes protocol
    region :
  DateTime.valid now ->
  expired_at now
    (fst (create_minimal_log now1 now2 new_id db event_type server_id
            duration bytes protocol region)) = true
  <-> DateTime.to_us now1 + 300000000 <= DateTime.to_us now.
Proof.
  intros V. unfold expired_at. simpl. rewrite andb_true_r.
  rewrite leb_to_us by (try apply of_us_valid; exact V).
  rewrite to_us_add. unfold DateTime.timedelta_minutes,
    NO_LOGS_RETENTION_MINUTES. lia.
Qed.

(** C4.  On a table whose primary key is unique and whose rows all have
    [is_purged = False] (every row that [create_minimal_log] makes),
    [purge_expired_logs] at clock reading [now] keeps every row with
    [purge_after > now], deletes every row with [purge_after <= now],
    adds nothing, returns the number of rows deleted, and run again at
    the same reading returns 0 and changes nothing. *)
Theorem purge_expired_logs_exact :
  forall now db,
    pk_unique db ->
    Forall (fun r => ServerLog.is_purged r = false) db ->
    let count := fst (purge_expired_logs now db) in
    let db' := snd (purge_expired_logs now db) in
    (forall r, In r db ->
               DateTime.gtb (ServerLog.purge_after r) now = true -> In r db') /\
    (forall r, In r db ->
               DateTime.leb (ServerLog.purge_after r) now = true -> ~ In r db') /\
    (forall r, In r db' -> In r db) /\
    count = Z.of_nat (List.length db) - Z.of_nat (List.length db') /\
    count
    = Z.of_nat
        (List.length
           (filter (fun r => DateTime.leb (ServerLog.purge_after r) now) db)) /\
    purge_expired_logs now db' = (0, db').
Proof.
  intros now db pk unp count db'. subst count db'.
  rewrite (purge_expired_logs_filter now db pk). simpl.
  rewrite Forall_forall in unp.
  assert (EX : forall r, In r db ->
                 expired_at now r = DateTime.leb (ServerLog.purge_after r) now).
  { intros r i. unfold expired_at. rewrite (unp r i). simpl.
    apply andb_true_r. }
  repeat split.
  - intros r i g. apply filter_In. split; [exact i|].
    rewrite (EX r i). exact g.
  - intros r i l i'. apply filter_In in i'. destruct i' as [_ ne].
    rewrite (EX r i), l in ne. discriminate.
  - intros r i. now apply filter_In in i.
  - pose proof (filter_length_split (expired_at now) db). lia.
  - f_equal. f_equal. now apply filter_ext_in.
  - rewrite purge_expired_logs_filter by now apply pk_unique_filter.
    rewrite filter_none.
    + simpl. f_equal. apply filter_all.
      intros r i. apply filter_In in i. tauto.
    + intros r i. apply filter_In in i. destruct i as [_ ne].
      now apply negb_true_iff in ne.
Qed.

Lemma purge_expired_logs_exact_witness :
  pk_unique sample_table /\
  Forall (fun r => ServerLog.is_purged r = false) sample_table /\
  purge_expired_logs sample_time sample_table
  = (2, [sample_row "c" (DateTime.mk 739560 13 47 12 345679)]) /\
  purge_expired_logs sample_time
    (snd (purge_expired_logs sample_time sample_table))
  = (0, snd (purge_expired_logs sample_time sample_table)).
Proof.
  assert (pk : pk_unique sample_table).
  { unfold pk_unique; simpl.
    repeat constructor; simpl; intuition discriminate. }
  assert (unp : Forall (fun r => ServerLog.is_purged r = false) sample_table)
    by (repeat constructor).
  split; [exact pk|]. split; [exact unp|].
  split; [reflexivity|].
  exact (proj2 (proj2 (proj2 (proj2 (proj2
           (purge_expired_logs_exact sample_time sample_table pk unp)))))).
Defined.

Lemma in_create_minimal_log
    r now1 now2 new_id db event_type server_id duration bytes protocol region :
  In r (snd (create_minimal_log now1 now2 new_id db event_type server_id
               duration bytes protocol region)) ->
  In r db \/ coarse r.
Proof.
  rewrite create_minimal_log_appends. intros i.
  apply in_app_or in i. destruct i as [i|[<-|[]]]; [now left|right].
  apply create_minimal_log_coarse.
Qed.

Lemma step_logs_coarse o st r :
  In r (server_logs (step o st)) -> In r (server_logs st) \/ coarse r.
Proof.
  destruct o; simpl.
  - rewrite connect_logs.
    destruct (find_server _); [|tauto].
    destruct (check_stealth_mode _); [tauto|]. apply in_create_minimal_log.
  - rewrite connect_multi_hop_logs.
    destruct (find_server entry_server_id); [|tauto].
    destruct (find_server exit_server_id); [|tauto].
    destruct (String.eqb _ _); [tauto|].
    destruct (check_stealth_mode _); [tauto|]. apply in_create_minimal_log.
  - rewrite status_unchanged. tauto.
  - rewrite disconnect_logs.
    destruct (PyDict.get _ _); [|tauto]. apply in_create_minimal_log.
  - rewrite enable_kill_switch_logs. tauto.
  - rewrite heartbeat_logs. tauto.
  - rewrite kill_switch_status_unchanged. tauto.
  - rewrite check_all_logs. tauto.
  - rewrite purge_tick_state. simpl. intros i. left.
    now apply purge_expired_logs_subset in i.
Qed.

(** C8.  Whatever operation runs, a row that it adds to [server_logs]
    has [server_id = None] and a region that is absent or at most two
    characters long.  The rows that [connect], [connect_multi_hop] and
    [disconnect] add do not depend on the session identifier nor on the
    authenticated caller: with another identifier and another caller,
    and a session that agrees on start time, protocol and region flag,
    the table they leave is the same. *)
Theorem retention_rows_are_coarse :
  (forall o st r,
      In r (server_logs (step o st)) -> In r (server_logs st) \/ coarse r) /\
  (forall req u u' sid sid' lid t1 t1' t2 t2' d d' n1 n2 st st',
      server_logs st = server_logs st' ->
      server_logs (snd (connect req u sid lid t1 t2 d n1 n2 st))
      = server_logs (snd (connect req u' sid' lid t1' t2' d' n1 n2 st'))) /\
  (forall e x sm ks u u' sid sid' lid t1 t1' t2 t2' d d' n1 n2 st st',
      server_logs st = server_logs st' ->
      server_logs
        (snd (connect_multi_hop e x sm ks u sid lid t1 t2 d n1 n2 st))
      = server_logs
          (snd (connect_multi_hop e x sm ks u' sid' lid t1' t2' d' n1 n2 st'))) /\
  (forall sid sid' u u' s s' now rnd n1 n2 d d' lid st st',
      PyDict.get sid (active_sessions st) = Some s ->
      PyDict.get sid' (active_sessions st') = Some s' ->
      Session.connected_at s = Session.connected_at s' ->
      Session.protocol s = Session.protocol s' ->
      Server.flag (Session.server s) = Server.flag (Session.server s') ->
      server_logs st = server_logs st' ->
      server_logs (snd (disconnect sid u now rnd n1 n2 d lid st))
      = server_logs (snd (disconnect sid' u' now rnd n1 n2 d' lid st'))).
Proof.
  split; [exact step_logs_coarse|]. split; [|split].
  - intros. rewrite !connect_logs. now rewrite H.
  - intros. rewrite !connect_multi_hop_logs. now rewrite H.
  - intros sid sid' u u' s s' now rnd n1 n2 d d' lid st st' G G' Ec Ep Ef El.
    rewrite !disconnect_logs, G, G'. cbv zeta. now rewrite Ec, Ep, Ef, El.
Qed.

(** ** Rational arithmetic of the monitor *)

Lemma py_int_floor q : (0 <= q)%Q -> py_int q = Qfloor q.
Proof.
  destruct q as [n d]. unfold Qle, py_int, Qfloor; simpl. intros H.
  apply Z.quot_div_nonneg; lia.
Qed.

Lemma py_int_ge_1 q : 1 <= py_int q <-> (1 <= q)%Q.
Proof.
  destruct q as [n d]. unfold Qle, py_int; simpl.
  Z.to_euclidean_division_equations. nia.
Qed.

Lemma over_interval e :
  (1 <= e / inject_Z KILL_SWITCH_HEARTBEAT_INTERVAL)%Q
  <-> (inject_Z KILL_SWITCH_HEARTBEAT_INTERVAL <= e)%Q.
Proof.
  unfold KILL_SWITCH_HEARTBEAT_INTERVAL, Qdiv, inject_Z.
  change (/ (10 # 1))%Q with (1 # 10)%Q. split; intros H; lra.
Qed.

Lemma missed_ge_1 e :
  (1 <=? py_int (e / inject_Z KILL_SWITCH_HEARTBEAT_INTERVAL)) = true
  <-> (inject_Z KILL_SWITCH_HEARTBEAT_INTERVAL <= e)%Q.
Proof. now rewrite Z.leb_le, py_int_ge_1, over_interval. Qed.

Lemma missed_is_floor e :
  (inject_Z KILL_SWITCH_HEARTBEAT_INTERVAL <= e)%Q ->
  py_int (e / inject_Z KILL_SWITCH_HEARTBEAT_INTERVAL)
  = Qfloor (e / inject_Z KILL_SWITCH_HEARTBEAT_INTERVAL).
Proof.
  intros H. apply py_int_floor. apply over_interval in H. lra.
Qed.

Lemma timeout_dec e :
  Qle_bool (inject_Z KILL_SWITCH_TIMEOUT) e = true
  <-> (inject_Z KILL_SWITCH_TIMEOUT <= e)%Q.
Proof. apply Qle_bool_iff. Qed.

Lemma timeout_over_interval e :
  (inject_Z KILL_SWITCH_TIMEOUT <= e)%Q ->
  (inject_Z KILL_SWITCH_HEARTBEAT_INTERVAL <= e)%Q.
Proof.
  unfold KILL_SWITCH_TIMEOUT, KILL_SWITCH_HEARTBEAT_INTERVAL, inject_Z. lra.
Qed.

(** ** One turn of the monitor loop *)

Lemma check_entry_entry now d sid ks sessions :
  fst (fst (fst (check_entry now d sid ks sessions))) = entry_after now ks.
Proof.
  unfold entry_after, check_entry.
  destruct (negb (KillSwitch.enabled ks)); [reflexivity|].
  destruct (Qle_bool _ _).
  - destruct (PyDict.get sid sessions); reflexivity.
  - destruct (1 <=? _); reflexivity.
Qed.

Lemma check_entry_expired now d sid ks sessions :
  snd (check_entry now d sid ks sessions) = timed_out now ks.
Proof.
  unfold timed_out, check_entry.
  destruct (negb (KillSwitch.enabled ks)); [reflexivity|].
  destruct (Qle_bool _ _).
  - destruct (PyDict.get sid sessions); reflexivity.
  - destruct (1 <=? _); reflexivity.
Qed.

Lemma check_entry_sessions now d sid ks sessions :
  snd (fst (fst (check_entry now d sid ks sessions)))
  = if timed_out now ks then PyDict.pop sid sessions else sessions.
Proof.
  unfold timed_out, check_entry.
  destruct (negb (KillSwitch.enabled ks)); [reflexivity|].
  destruct (Qle_bool _ _).
  - destruct (PyDict.get sid sessions) eqn:G; simpl; [reflexivity|].
    symmetry. now apply pop_absent.
  - destruct (1 <=? _); reflexivity.
Qed.

Lemma check_entry_report now d sid ks sessions :
  snd (fst (check_entry now d sid ks sessions))
  = if timed_out now ks
    then option_map (report_for now d sid ks) (PyDict.get sid sessions)
    else None.
Proof.
  unfold timed_out, check_entry.
  destruct (negb (KillSwitch.enabled ks)); [reflexivity|].
  destruct (Qle_bool _ _).
  - destruct (PyDict.get sid sessions); reflexivity.
  - destruct (1 <=? _); reflexivity.
Qed.

Lemma timed_out_iff now ks :
  timed_out now ks = true
  <-> KillSwitch.enabled ks = true /\
      (inject_Z KILL_SWITCH_TIMEOUT <= now - KillSwitch.last_heartbeat ks)%Q.
Proof.
  unfold timed_out, check_entry. rewrite <- timeout_dec.
  destruct (KillSwitch.enabled ks); simpl; [|intuition discriminate].
  destruct (Qle_bool _ _); simpl.
  - tauto.
  - destruct (1 <=? _); intuition discriminate.
Qed.

Lemma entry_after_enabled now ks :
  KillSwitch.enabled (entry_after now ks) = KillSwitch.enabled ks.
Proof.
  unfold entry_after, check_entry.
  destruct (negb (KillSwitch.enabled ks)); [reflexivity|].
  destruct (Qle_bool _ _); [reflexivity|].
  destruct (1 <=? _); reflexivity.
Qed.

Lemma entry_after_last_heartbeat now ks :
  KillSwitch.last_heartbeat (entry_after now ks) = KillSwitch.last_heartbeat ks.
Proof.
  unfold entry_after, check_entry.
  destruct (negb (KillSwitch.enabled ks)); [reflexivity|].
  destruct (Qle_bool _ _); [reflexivity|].
  destruct (1 <=? _); reflexivity.
Qed.

(** The state of an entry after a turn, case by case. *)
Lemma entry_after_status now ks :
  KillSwitch.enabled ks = true ->
  let elapsed := (now - KillSwitch.last_heartbeat ks)%Q in
  (elapsed < inject_Z KILL_SWITCH_HEARTBEAT_INTERVAL ->
   KillSwitch.status (entry_after now ks) = KillSwitch.status ks)%Q /\
  (inject_Z KILL_SWITCH_HEARTBEAT_INTERVAL <= elapsed ->
   elapsed < inject_Z KILL_SWITCH_TIMEOUT ->
   KillSwitch.status (entry_after now ks) = warning)%Q /\
  (inject_Z KILL_SWITCH_TIMEOUT <= elapsed ->
   KillSwitch.status (entry_after now ks) = triggered)%Q /\
  KillSwitch.missed_heartbeats (entry_after now ks)
  = py_int (elapsed / inject_Z KILL_SWITCH_HEARTBEAT_INTERVAL).
Proof.
  intros en elapsed. unfold entry_after, check_entry. rewrite en. simpl.
  fold elapsed.
  destruct (Qle_bool _ elapsed) eqn:TO.
  - apply timeout_dec in TO. pose proof (timeout_over_interval _ TO).
    simpl. repeat split; intros; try reflexivity; lra.
  - assert (NTO : ~ (inject_Z KILL_SWITCH_TIMEOUT <= elapsed)%Q)
      by (rewrite <- timeout_dec; congruence).
    destruct (1 <=? _) eqn:M.
    + apply missed_ge_1 in M. simpl.
      repeat split; intros; try reflexivity; try contradiction; lra.
    + assert (NM : ~ (inject_Z KILL_SWITCH_HEARTBEAT_INTERVAL <= elapsed)%Q)
        by (rewrite <- missed_ge_1; congruence).
      simpl. repeat split; intros; try reflexivity; contradiction.
Qed.

(** ** The whole monitor pass *)

Section PopAll.
Context {V : Type}.
Implicit Types (d : dict V) (l : list string).

Lemma get_pop_all_in k l d : In k l -> PyDict.get k (pop_all l d) = None.
Proof.
  unfold pop_all. revert d. induction l as [|x l IH]; simpl; [tauto|].
  intros d [->|i]; [|now apply IH].
  clear IH. revert d. induction l as [|y l IH]; simpl; intros d.
  - apply get_pop_same.
  - destruct (string_dec k y) as [->|ne].
    + replace (PyDict.pop y (PyDict.pop y d)) with (PyDict.pop y d);
        [apply IH|].
      symmetry. apply pop_absent. apply get_pop_same.
    + specialize (IH (PyDict.pop y d)).
      replace (PyDict.pop y (PyDict.pop k d))
        with (PyDict.pop k (PyDict.pop y d)); [exact IH|].
      clear. induction d as [|[a v] d IHd]; simpl; [reflexivity|].
      destruct (String.eqb y a) eqn:Ya, (String.eqb k a) eqn:Ka; simpl;
        rewrite ?Ya, ?Ka; congruence.
Qed.

Lemma get_pop_all_out k l d :
  ~ In k l -> PyDict.get k (pop_all l d) = PyDict.get k d.
Proof.
  unfold pop_all. revert d. induction l as [|x l IH]; simpl; [reflexivity|].
  intros d ni. rewrite IH by tauto. apply get_pop_other. intuition congruence.
Qed.

Lemma in_pop_all k v l d :
  In (k, v) (pop_all l d) <-> ~ In k l /\ In (k, v) d.
Proof.
  unfold pop_all. revert d. induction l as [|x l IH]; simpl; intros d.
  - tauto.
  - rewrite IH, in_pop. intuition congruence.
Qed.

Lemma keys_pop_all_in k l d :
  In k (PyDict.keys (pop_all l d)) <-> ~ In k l /\ In k (PyDict.keys d).
Proof.
  unfold pop_all. revert d. induction l as [|x l IH]; simpl; intros d.
  - tauto.
  - rewrite IH, keys_pop_in. intuition congruence.
Qed.

Lemma nodup_pop_all l d :
  NoDup (PyDict.keys d) -> NoDup (PyDict.keys (pop_all l d)).
Proof.
  unfold pop_all. revert d. induction l as [|x l IH]; simpl; intros d nd.
  - exact nd.
  - apply IH. now apply nodup_pop.
Qed.

End PopAll.

Lemma reports_ext now d items sessions sessions' :
  (forall k, In k (PyDict.keys items) ->
             PyDict.get k sessions = PyDict.get k sessions') ->
  reports now d items sessions = reports now d items sessions'.
Proof.
  unfold reports. induction items as [|[k ks] items IH]; simpl; intros H.
  - reflexivity.
  - rewrite IH by (intros k' i; apply H; now right).
    rewrite (H k) by now left. reflexivity.
Qed.

Lemma check_loop_spec now d items sessions :
  NoDup (PyDict.keys items) ->
  check_loop now d items sessions
  = (entries_after now items,
     pop_all (expired_keys now items) sessions,
     reports now d items sessions,
     expired_keys now items).
Proof.
  revert sessions. induction items as [|[sid ks] items IH]; intros sessions nd.
  - reflexivity.
  - inversion nd as [|? ? notin nd']; subst. simpl.
    pose proof (check_entry_entry now d sid ks sessions) as E1.
    pose proof (check_entry_expired now d sid ks sessions) as E2.
    pose proof (check_entry_sessions now d sid ks sessions) as E3.
    pose proof (check_entry_report now d sid ks sessions) as E4.
    destruct (check_entry now d sid ks sessions) as [[[ks' s1] rep] ex].
    simpl in E1, E2, E3, E4. subst ks' ex s1 rep.
    rewrite IH by exact nd'.
    unfold expired_keys, reports, entries_after. simpl.
    fold (reports now d items sessions).
    fold (expired_keys now items). fold (entries_after now items).
    assert (R : reports now d items
                  (if timed_out now ks then PyDict.pop sid sessions
                   else sessions)
                = reports now d items sessions).
    { apply reports_ext. intros k i.
      destruct (timed_out now ks); [|reflexivity].
      apply get_pop_other. intros ->. contradiction. }
    fold (reports now d items
            (if timed_out now ks then PyDict.pop sid sessions else sessions)).
    rewrite R.
    destruct (timed_out now ks); simpl.
    + destruct (PyDict.get sid sessions); reflexivity.
    + reflexivity.
Qed.

Lemma kill_switch_check_all_spec now d st :
  NoDup (PyDict.keys (kill_switch_registry st)) ->
  kill_switch_check_all now d st
  = (reports now d (kill_switch_registry st) (active_sessions st),
     {| active_sessions :=
          pop_all (expired_keys now (kill_switch_registry st))
            (active_sessions st);
        kill_switch_registry :=
          pop_all (expired_keys now (kill_switch_registry st))
            (entries_after now (kill_switch_registry st));
        server_logs := server_logs st |}).
Proof.
  intros nd. unfold kill_switch_check_all.
  rewrite check_loop_spec by exact nd. reflexivity.
Qed.

Lemma entries_after_keys now items :
  PyDict.keys (entries_after now items) = PyDict.keys items.
Proof.
  unfold entries_after, PyDict.keys. rewrite map_map. reflexivity.
Qed.

Lemma entries_after_get now k items :
  PyDict.get k (entries_after now items)
  = option_map (entry_after now) (PyDict.get k items).
Proof.
  induction items as [|[k' ks] items IH]; simpl; [reflexivity|].
  destruct (String.eqb k k'); [reflexivity | exact IH].
Qed.

Lemma entries_after_in now k v items :
  In (k, v) (entries_after now items)
  <-> exists ks, In (k, ks) items /\ v = entry_after now ks.
Proof.
  unfold entries_after. rewrite in_map_iff. split.
  - intros ([k' ks] & e & i). simpl in e. injection e as <- <-. now exists ks.
  - intros (ks & i & ->). now exists (k, ks).
Qed.

Lemma expired_keys_in now k items :
  In k (expired_keys now items)
  <-> exists ks, In (k, ks) items /\ timed_out now ks = true.
Proof.
  unfold expired_keys. rewrite in_map_iff. split.
  - intros ([k' ks] & e & i). simpl in e. subst k'.
    apply filter_In in i. now exists ks.
  - intros (ks & i & t). exists (k, ks). split; [reflexivity|].
    apply filter_In. now split.
Qed.

Lemma expired_keys_get now k ks items :
  NoDup (PyDict.keys items) -> PyDict.get k items = Some ks ->
  In k (expired_keys now items) <-> timed_out now ks = true.
Proof.
  intros nd G. rewrite expired_keys_in. split.
  - intros (ks' & i & t). apply (in_get _ _ _ nd) in i. congruence.
  - intros t. exists ks. split; [now apply get_some_in | exact t].
Qed.

Lemma reports_count now d sid items sessions :
  NoDup (PyDict.keys items) ->
  count_occ string_dec (terminated_ids (reports now d items sessions)) sid
  = match PyDict.get sid items with
    | Some ks =>
        if timed_out now ks && PyDict.contains sid sessions
        then 1%nat else 0%nat
    | None => 0%nat
    end.
Proof.
  unfold reports, terminated_ids, PyDict.contains.
  induction items as [|[k ks] items IH]; intros nd; [reflexivity|].
  inversion nd as [|? ? notin nd']; subst.
  cbn [flat_map fst snd PyDict.get]. rewrite map_app, count_occ_app, IH by exact nd'.
  destruct (String.eqb_spec sid k) as [->|ne].
  - assert (G : PyDict.get k items = None) by now apply get_none_keys.
    rewrite G.
    destruct (timed_out now ks); simpl; [|reflexivity].
    destruct (PyDict.get k sessions); simpl; [|reflexivity].
    destruct (string_dec k k); [reflexivity | contradiction].
  - assert (Z0 : forall l : list Terminated.t,
               l = [] \/ (exists s, l = [report_for now d k ks s]) ->
               count_occ string_dec (map Terminated.session_id l) sid = 0%nat).
    { intros l [->|(s & ->)]; simpl; [reflexivity|].
      destruct (string_dec k sid); [congruence | reflexivity]. }
    rewrite Z0; [reflexivity|].
    destruct (timed_out now ks); [|now left].
    destruct (PyDict.get k sessions) as [s|]; [right; now exists s | now left].
Qed.

Lemma reports_in now d r items sessions :
  In r (reports now d items sessions) ->
  exists ks session,
    In (Terminated.session_id r, ks) items /\ timed_out now ks = true /\
    PyDict.get (Terminated.session_id r) sessions = Some session /\
    r = report_for now d (Terminated.session_id r) ks session.
Proof.
  unfold reports. rewrite in_flat_map. intros ([k ks] & i & ir). simpl in ir.
  destruct (timed_out now ks) eqn:TO; [|destruct ir].
  destruct (PyDict.get k sessions) as [s|] eqn:G; [|destruct ir].
  destruct ir as [<-|[]]. simpl. now exists ks, s.
Qed.

Lemma reports_has now d sid ks session items sessions :
  In (sid, ks) items -> timed_out now ks = true ->
  PyDict.get sid sessions = Some session ->
  In (report_for now d sid ks session) (reports now d items sessions).
Proof.
  intros i t G. unfold reports. apply in_flat_map. exists (sid, ks).
  split; [exact i|]. simpl. rewrite t, G. now left.
Qed.

(** ** Shape of the registries along a run *)

Lemma kill_switch_register_true now d sid registry :
  exists e,
    kill_switch_register now d sid true registry
    = (Registered e, PyDict.set sid e registry) /\
    KillSwitch.enabled e = true /\ KillSwitch.status e = active /\
    KillSwitch.last_heartbeat e = now /\ KillSwitch.missed_heartbeats e = 0.
Proof. eexists. split; [reflexivity|]. simpl. auto. Qed.

Ltac keys_tac :=
  repeat first
    [ apply update_session_nodup
    | apply nodup_set
    | apply nodup_pop
    | apply nodup_pop_all
    | rewrite entries_after_keys
    | assumption ].

Lemma connect_wf req u sid lid t1 t2 d n1 n2 st :
  registries_wf st -> registries_wf (snd (connect req u sid lid t1 t2 d n1 n2 st)).
Proof.
  intros [ns nr]. unfold connect.
  destruct (find_server _); [|now split].
  destruct (check_stealth_mode _); [now split|].
  destruct (is_true _); simpl; split; keys_tac.
Qed.

Lemma connect_multi_hop_wf e x sm ks u sid lid t1 t2 d n1 n2 st :
  registries_wf st ->
  registries_wf (snd (connect_multi_hop e x sm ks u sid lid t1 t2 d n1 n2 st)).
Proof.
  intros [ns nr]. unfold connect_multi_hop.
  destruct (find_server e); [|now split].
  destruct (find_server x); [|now split].
  destruct (String.eqb e x); [now split|].
  destruct (check_stealth_mode sm); [now split|].
  destruct (is_true ks), (opt_truthy sm); simpl; split; keys_tac.
Qed.

Lemma disconnect_wf sid u now rnd n1 n2 d lid st :
  registries_wf st ->
  registries_wf (snd (disconnect sid u now rnd n1 n2 d lid st)).
Proof.
  intros [ns nr]. unfold disconnect.
  destruct (PyDict.get sid _); [|now split].
  simpl; split; keys_tac.
Qed.

Lemma enable_kill_switch_wf sid now d st :
  registries_wf st -> registries_wf (snd (enable_kill_switch sid now d st)).
Proof.
  intros [ns nr]. unfold enable_kill_switch.
  destruct (negb _); [now split|].
  simpl; split; keys_tac.
Qed.

Lemma heartbeat_wf sid now d st :
  registries_wf st -> registries_wf (snd (heartbeat sid now d st)).
Proof.
  intros [ns nr]. unfold heartbeat, kill_switch_heartbeat.
  destruct (negb _).
  - destruct (PyDict.contains sid (kill_switch_registry st));
      simpl; split; keys_tac.
  - destruct (PyDict.get sid (kill_switch_registry st));
      simpl; split; keys_tac.
Qed.

Lemma check_all_wf now d st :
  registries_wf st -> registries_wf (snd (kill_switch_check_all now d st)).
Proof.
  intros [ns nr]. rewrite kill_switch_check_all_spec by exact nr.
  simpl; split; keys_tac.
Qed.

Lemma step_wf o st : registries_wf st -> registries_wf (step o st).
Proof.
  destruct o; simpl.
  - apply connect_wf.
  - apply connect_multi_hop_wf.
  - now rewrite status_unchanged.
  - apply disconnect_wf.
  - apply enable_kill_switch_wf.
  - apply heartbeat_wf.
  - now rewrite kill_switch_status_unchanged.
  - apply check_all_wf.
  - rewrite purge_tick_state. tauto.
Qed.

Lemma run_wf ops st : registries_wf st -> registries_wf (run ops st).
Proof.
  revert st. induction ops as [|o ops IH]; simpl; intros st wf; [exact wf|].
  apply IH. now apply step_wf.
Qed.

Lemma entry_ok_later T T' ks : entry_ok T ks -> (T <= T')%Q -> entry_ok T' ks.
Proof.
  intros (en & nt & w) le. repeat split; [exact en | exact nt |].
  intros W. specialize (w W). lra.
Qed.

Lemma entries_ok_later T T' st :
  entries_ok T st -> (T <= T')%Q -> entries_ok T' st.
Proof.
  intros H le sid ks i. destruct (H sid ks i) as [ok s].
  split; [now apply (entry_ok_later T) | exact s].
Qed.

Lemma entry_ok_active T ks :
  KillSwitch.enabled ks = true -> KillSwitch.status ks = active ->
  entry_ok T ks.
Proof. intros en a. repeat split; [exact en | congruence | congruence]. Qed.

Lemma key_of_get {V} k v (d : dict V) :
  PyDict.get k d = Some v -> In k (PyDict.keys d).
Proof.
  intros G. apply get_some_in in G. change k with (fst (k, v)).
  now apply in_map.
Qed.

Lemma key_of_in {V} k v (d : dict V) : In (k, v) d -> In k (PyDict.keys d).
Proof. intros i. change k with (fst (k, v)). now apply in_map. Qed.

Lemma connect_entries req u sid lid t1 t2 d n1 n2 T st :
  entries_ok T st -> (T <= t2)%Q ->
  entries_ok t2 (snd (connect req u sid lid t1 t2 d n1 n2 st)).
Proof.
  intros H le. unfold connect.
  destruct (find_server _); [|now apply (entries_ok_later T)].
  destruct (check_stealth_mode _); [now apply (entries_ok_later T)|].
  destruct (is_true _); simpl; intros k ks i; simpl in *.
  - apply in_set in i. destruct i as [[-> ->]|i].
    + split; [now apply entry_ok_active|].
      rewrite !update_session_keys, keys_set_in. now left.
    + destruct (H k ks i) as [ok s].
      split; [now apply (entry_ok_later T)|].
      rewrite !update_session_keys, keys_set_in. now right.
  - destruct (H k ks i) as [ok s].
    split; [now apply (entry_ok_later T)|].
    rewrite !update_session_keys, keys_set_in. now right.
Qed.

Lemma connect_multi_hop_entries e x sm ks u sid lid t1 t2 d n1 n2 T st :
  entries_ok T st -> (T <= t2)%Q ->
  entries_ok t2
    (snd (connect_multi_hop e x sm ks u sid lid t1 t2 d n1 n2 st)).
Proof.
  intros H le. unfold connect_multi_hop.
  destruct (find_server e); [|now apply (entries_ok_later T)].
  destruct (find_server x) as [t0|]; [|now apply (entries_ok_later T)].
  destruct (String.eqb e x); [now apply (entries_ok_later T)|].
  destruct (check_stealth_mode sm); [now apply (entries_ok_later T)|].
  assert (K : forall k sessions,
             In k (PyDict.keys (active_sessions st)) \/ k = sid ->
             sessions = PyDict.set sid
                          {| Session.session_id := sid;
                             Session.server_id := x;
                             Session.server := t0;
                             Session.protocol := "WireGuard";
                             Session.connected_at := t1;
                             Session.stealth_mode := None;
                             Session.kill_switch := ks;
                             Session.user_id := None |}
                          (active_sessions st) ->
             forall f g,
               In k (PyDict.keys
                       (update_session sid f
                          (if opt_truthy sm then update_session sid g sessions
                           else sessions)))).
  { intros k sessions hk -> f g. rewrite update_session_keys.
    destruct (opt_truthy sm); rewrite ?update_session_keys, keys_set_in; tauto. }
  destruct (is_true ks); simpl; intros k v i; simpl in *.
  - apply in_set in i. destruct i as [[-> ->]|i].
    + split; [now apply entry_ok_active|]. eapply K; [now right | reflexivity].
    + destruct (H k v i) as [ok s].
      split; [now apply (entry_ok_later T)|].
      eapply K; [now left | reflexivity].
  - destruct (H k v i) as [ok s].
    split; [now apply (entry_ok_later T)|].
    eapply K; [now left | reflexivity].
Qed.

Lemma disconnect_entries sid u now rnd n1 n2 d lid T st :
  entries_ok T st -> (T <= now)%Q ->
  entries_ok now (snd (disconnect sid u now rnd n1 n2 d lid st)).
Proof.
  intros H le. unfold disconnect.
  destruct (PyDict.get sid _); [|now apply (entries_ok_later T)].
  simpl. intros k ks i; simpl in *.
  apply in_pop in i. destruct i as [ne i]. destruct (H k ks i) as [ok s].
  split; [now apply (entry_ok_later T)|]. rewrite keys_pop_in. tauto.
Qed.

Lemma enable_kill_switch_entries sid now d T st :
  entries_ok T st -> (T <= now)%Q ->
  entries_ok now (snd (enable_kill_switch sid now d st)).
Proof.
  intros H le. unfold enable_kill_switch.
  destruct (PyDict.contains sid (active_sessions st)) eqn:C; simpl;
    [|now apply (entries_ok_later T)].
  apply contains_keys in C.
  intros k ks i; simpl in *. rewrite update_session_keys.
  apply in_set in i. destruct i as [[-> ->]|i].
  - split; [now apply entry_ok_active | exact C].
  - destruct (H k ks i) as [ok s]. split; [now apply (entry_ok_later T) | exact s].
Qed.

Lemma heartbeat_entries sid now d T st :
  entries_ok T st -> (T <= now)%Q ->
  entries_ok now (snd (heartbeat sid now d st)).
Proof.
  intros H le. unfold heartbeat, kill_switch_heartbeat.
  destruct (PyDict.contains sid (active_sessions st)) eqn:C; simpl.
  - destruct (PyDict.get sid (kill_switch_registry st)) as [ks0|] eqn:G;
      simpl; [|now apply (entries_ok_later T)].
    destruct (H sid ks0 (get_some_in _ _ _ G)) as [(en & _) s0].
    intros k ks i; simpl in *.
    apply in_set in i. destruct i as [[-> ->]|i].
    + split; [now apply entry_ok_active | exact s0].
    + destruct (H k ks i) as [ok s].
      split; [now apply (entry_ok_later T) | exact s].
  - destruct (PyDict.contains sid (kill_switch_registry st));
      [|now apply (entries_ok_later T)].
    intros k ks i; simpl in *.
    apply in_pop in i. destruct i as [ne i]. destruct (H k ks i) as [ok s].
    split; [now apply (entry_ok_later T) | exact s].
Qed.

Lemma check_all_entries now d T st :
  registries_wf st -> entries_ok T st -> (T <= now)%Q ->
  entries_ok now (snd (kill_switch_check_all now d st)).
Proof.
  intros [ns nr] H le. rewrite kill_switch_check_all_spec by exact nr.
  intros k v i; simpl in *.
  apply in_pop_all in i. destruct i as [nex i].
  apply entries_after_in in i. destruct i as (ks & i & ->).
  destruct (H k ks i) as [(en & nt & w) s].
  assert (TO : timed_out now ks = false).
  { destruct (timed_out now ks) eqn:TO; [|reflexivity].
    exfalso. apply nex. apply expired_keys_in. now exists ks. }
  split.
  - destruct (entry_after_status now ks en) as (Ha & Hw & Ht & _).
    repeat split.
    + now rewrite entry_after_enabled.
    + intros E.
      destruct (Qlt_le_dec (now - KillSwitch.last_heartbeat ks)
                  (inject_Z KILL_SWITCH_TIMEOUT)) as [lt|ge].
      * destruct (Qlt_le_dec (now - KillSwitch.last_heartbeat ks)
                    (inject_Z KILL_SWITCH_HEARTBEAT_INTERVAL)) as [lt'|ge'].
        -- rewrite (Ha lt') in E. contradiction.
        -- rewrite (Hw ge' lt) in E. discriminate.
      * assert (timed_out now ks = true) by (apply timed_out_iff; now split).
        congruence.
    + intros W. rewrite entry_after_last_heartbeat.
      destruct (Qlt_le_dec (now - KillSwitch.last_heartbeat ks)
                  (inject_Z KILL_SWITCH_HEARTBEAT_INTERVAL)) as [lt'|ge'];
        [|exact ge'].
      rewrite (Ha lt') in W. specialize (w W). lra.
  - rewrite keys_pop_all_in. split; [exact nex | exact s].
Qed.

Lemma logs_ok_append now1 now2 lid db ev sv du by_ pr rg :
  logs_ok db -> ~ In lid (map ServerLog.id db) ->
  logs_ok (snd (create_minimal_log now1 now2 lid db ev sv du by_ pr rg)).
Proof.
  intros [pk unp] fresh. rewrite create_minimal_log_appends. split.
  - unfold pk_unique in *. rewrite map_app. simpl.
    apply NoDup_app; [exact pk | repeat constructor; simpl; tauto |].
    intros a i [<-|[]]. contradiction.
  - apply Forall_app. split; [exact unp | repeat constructor].
Qed.

Lemma logs_ok_purge now db :
  logs_ok db -> logs_ok (snd (purge_expired_logs now db)).
Proof.
  intros [pk unp]. rewrite purge_expired_logs_filter by exact pk. simpl. split.
  - now apply pk_unique_filter.
  - rewrite Forall_forall in *. intros r i. apply filter_In in i.
    apply unp. tauto.
Qed.

Lemma step_logs_ok o st :
  logs_ok (server_logs st) -> fresh_log_id o st ->
  logs_ok (server_logs (step o st)).
Proof.
  intros ok. unfold fresh_log_id. destruct o; simpl; intros fresh.
  - rewrite connect_logs.
    destruct (find_server _); [|exact ok].
    destruct (check_stealth_mode _); [exact ok|]. now apply logs_ok_append.
  - rewrite connect_multi_hop_logs.
    destruct (find_server entry_server_id); [|exact ok].
    destruct (find_server exit_server_id); [|exact ok].
    destruct (String.eqb _ _); [exact ok|].
    destruct (check_stealth_mode _); [exact ok|]. now apply logs_ok_append.
  - now rewrite status_unchanged.
  - rewrite disconnect_logs.
    destruct (PyDict.get _ _); [|exact ok]. now apply logs_ok_append.
  - now rewrite enable_kill_switch_logs.
  - now rewrite heartbeat_logs.
  - now rewrite kill_switch_status_unchanged.
  - now rewrite check_all_logs.
  - rewrite purge_tick_state. simpl. now apply logs_ok_purge.
Qed.

Lemma step_entries_ok T o st :
  registries_wf st -> entries_ok T st -> clock_ok T (readings o) ->
  entries_ok (last_reading T o) (step o st).
Proof.
  intros wf H ck. unfold last_reading.
  destruct o; simpl in *.
  - apply (connect_entries _ _ _ _ _ _ _ _ _ T); [exact H | lra].
  - apply (connect_multi_hop_entries _ _ _ _ _ _ _ _ _ _ _ _ T); [exact H | lra].
  - rewrite status_unchanged. apply (entries_ok_later T); tauto.
  - apply (disconnect_entries _ _ _ _ _ _ _ _ T); tauto.
  - apply (enable_kill_switch_entries _ _ _ T); tauto.
  - apply (heartbeat_entries _ _ _ T); tauto.
  - rewrite kill_switch_status_unchanged. apply (entries_ok_later T); tauto.
  - apply (check_all_entries _ _ T); tauto.
  - rewrite purge_tick_state. exact H.
Qed.

Lemma step_invariant T o st :
  invariant T st -> clock_ok T (readings o) -> fresh_log_id o st ->
  invariant (last_reading T o) (step o st).
Proof.
  intros (wf & en & lg) ck fresh. split; [|split].
  - now apply step_wf.
  - now apply step_entries_ok.
  - now apply step_logs_ok.
Qed.

Lemma initial_invariant T : invariant T initial_state.
Proof.
  split; [|split].
  - split; constructor.
  - intros ? ? [].
  - split; constructor.
Qed.

Lemma reachable_invariant T st : reachable T st -> invariant T st.
Proof.
  induction 1 as [T|T st o R IH ck fresh].
  - apply initial_invariant.
  - now apply step_invariant.
Qed.

Lemma reachable_st_s1 : reachable (inject_Z 100) st_s1.
Proof.
  apply (reachable_step (inject_Z 0) initial_state connect_s1).
  - apply reachable_start.
  - simpl. unfold Qle; simpl. lia.
  - unfold fresh_log_id; simpl. tauto.
Qed.

Lemma reachable_st_s2 : reachable (inject_Z 101) st_s2.
Proof.
  apply (reachable_step (inject_Z 100) st_s1 connect_s2).
  - apply reachable_st_s1.
  - simpl. unfold Qle; simpl. lia.
  - unfold fresh_log_id; simpl. intros [e|[]]. discriminate.
Qed.

(** ** The monitor's transition rule *)

Lemma check_all_get now d st sid ks :
  NoDup (PyDict.keys (kill_switch_registry st)) ->
  PyDict.get sid (kill_switch_registry st) = Some ks ->
  PyDict.get sid (kill_switch_registry (snd (kill_switch_check_all now d st)))
  = if timed_out now ks then None else Some (entry_after now ks).
Proof.
  intros nd G. rewrite kill_switch_check_all_spec by exact nd. simpl.
  destruct (timed_out now ks) eqn:TO.
  - apply get_pop_all_in. now apply (expired_keys_get now sid ks).
  - rewrite get_pop_all_out.
    + now rewrite entries_after_get, G.
    + rewrite (expired_keys_get now sid ks) by assumption. congruence.
Qed.

(** C2.  In a state that the server reaches under a clock that does not
    run backwards, a monitor pass at [now] leaves each entry [ks] of the
    registry, with [elapsed = now - last_heartbeat], as follows: below
    the heartbeat interval its status is [active]; from the interval up
    to the timeout its status is [warning] and [missed_heartbeats] is
    [floor(elapsed / interval)]; from the timeout on its status is
    [triggered] (and the pass then drops it from the registry). *)
Theorem monitor_transition_rule :
  forall T st now dnow sid ks,
    reachable T st -> (T <= now)%Q ->
    PyDict.get sid (kill_switch_registry st) = Some ks ->
    let elapsed := (now - KillSwitch.last_heartbeat ks)%Q in
    let interval := inject_Z KILL_SWITCH_HEARTBEAT_INTERVAL in
    let timeout := inject_Z KILL_SWITCH_TIMEOUT in
    let registry' :=
      kill_switch_registry (snd (kill_switch_check_all now dnow st)) in
    (forall sessions,
        fst (fst (fst (check_entry now dnow sid ks sessions)))
        = entry_after now ks) /\
    ((elapsed < interval)%Q ->
     KillSwitch.status (entry_after now ks) = active /\
     PyDict.get sid registry' = Some (entry_after now ks)) /\
    ((interval <= elapsed)%Q -> (elapsed < timeout)%Q ->
     KillSwitch.status (entry_after now ks) = warning /\
     KillSwitch.missed_heartbeats (entry_after now ks)
     = Qfloor (elapsed / interval) /\
     PyDict.get sid registry' = Some (entry_after now ks)) /\
    ((timeout <= elapsed)%Q ->
     KillSwitch.status (entry_after now ks) = triggered /\
     PyDict.get sid registry' = None).
Proof.
  intros T st now dnow sid ks R le G elapsed interval timeout registry'.
  destruct (reachable_invariant T st R) as ([ns nr] & en & _).
  destruct (en sid ks (get_some_in _ _ _ G)) as [(ena & nt & w) _].
  destruct (entry_after_status now ks ena) as (Ha & Hw & Ht & Hm).
  fold elapsed in Ha, Hw, Ht, Hm.
  pose proof (check_all_get now dnow st sid ks nr G) as CG.
  fold registry' in CG.
  assert (NTO : (elapsed < timeout)%Q -> timed_out now ks = false).
  { intros lt. destruct (timed_out now ks) eqn:TO; [|reflexivity].
    apply timed_out_iff in TO. destruct TO as [_ TO].
    fold elapsed in TO. subst timeout. lra. }
  split; [intros; apply check_entry_entry|].
  split; [|split].
  - intros lt. split.
    + rewrite (Ha lt).
      destruct (KillSwitch.status ks); [reflexivity | | contradiction].
      specialize (w eq_refl). subst elapsed interval. lra.
    + rewrite CG, NTO; [reflexivity|].
      subst interval timeout.
      unfold KILL_SWITCH_HEARTBEAT_INTERVAL, KILL_SWITCH_TIMEOUT, inject_Z in *.
      lra.
  - intros ge lt. split; [now apply Hw|]. split.
    + rewrite Hm. now apply missed_is_floor.
    + now rewrite CG, NTO.
  - intros ge. split; [now apply Ht|].
    rewrite CG.
    assert (TO : timed_out now ks = true) by (apply timed_out_iff; now split).
    now rewrite TO.
Qed.

Lemma monitor_transition_rule_witness :
  reachable (inject_Z 100) st_s1 /\
  (inject_Z 100 <= inject_Z 125)%Q /\
  (exists ks,
      PyDict.get "s1" (kill_switch_registry st_s1) = Some ks /\
      KillSwitch.status (entry_after (inject_Z 125) ks) = warning /\
      KillSwitch.missed_heartbeats (entry_after (inject_Z 125) ks) = 2 /\
      PyDict.get "s1"
        (kill_switch_registry
           (snd (kill_switch_check_all (inject_Z 125) sample_time st_s1)))
      = Some (entry_after (inject_Z 125) ks)).
Proof.
  assert (le : (inject_Z 100 <= inject_Z 125)%Q) by (unfold Qle; simpl; lia).
  split; [exact reachable_st_s1|]. split; [exact le|].
  destruct (PyDict.get "s1" (kill_switch_registry st_s1)) as [ks|] eqn:G;
    [|discriminate G].
  exists ks. split; [reflexivity|].
  pose proof (monitor_transition_rule (inject_Z 100) st_s1 (inject_Z 125)
                sample_time "s1" ks reachable_st_s1 le G) as H.
  cbv zeta in H. destruct H as (_ & _ & H & _).
  injection G as <-.
  destruct H as (Hs & Hm & Hg).
  - unfold Qle; simpl; lia.
  - unfold Qlt; simpl; lia.
  - split; [exact Hs|]. split; [|exact Hg].
    etransitivity; [exact Hm | reflexivity].
Defined.

(** Why the rule asks for a clock that does not run backwards: the pass
    writes ["warning"] and ["triggered"] but never ["active"].  After a
    pass at second 115 has set ["s1"] to [warning], a pass that reads
    second 105 finds [elapsed = 5] and leaves the status as it is. *)
Lemma warning_survives_clock_step_back :
  exists ks,
    PyDict.get "s1"
      (kill_switch_registry
         (snd (kill_switch_check_all (inject_Z 115) sample_time st_s1)))
    = Some ks /\
    KillSwitch.status ks = warning /\
    (inject_Z 105 - KillSwitch.last_heartbeat ks
     < inject_Z KILL_SWITCH_HEARTBEAT_INTERVAL)%Q /\
    KillSwitch.status (entry_after (inject_Z 105) ks) = warning.
Proof.
  eexists. split; [reflexivity|]. split; [reflexivity|].
  split; [|reflexivity]. unfold Qlt; simpl; lia.
Qed.

(** ** What the monitor does with a timed-out entry *)

Lemma check_all_removes now d st sid ks :
  NoDup (PyDict.keys (kill_switch_registry st)) ->
  In (sid, ks) (kill_switch_registry st) -> timed_out now ks = true ->
  PyDict.get sid (active_sessions (snd (kill_switch_check_all now d st))) = None
  /\ PyDict.get sid
       (kill_switch_registry (snd (kill_switch_check_all now d st))) = None.
Proof.
  intros nd i TO. rewrite kill_switch_check_all_spec by exact nd. simpl.
  assert (E : In sid (expired_keys now (kill_switch_registry st)))
    by (apply expired_keys_in; now exists ks).
  split; now apply get_pop_all_in.
Qed.

(** C3, as the code has it.  When a monitor pass finds an enabled entry
    past the timeout whose session is still in [active_sessions], it
    removes the session and the entry and puts one report for it in the
    list that it returns: reason ["heartbeat_timeout"] (not a session
    end), the count of missed heartbeats [floor(elapsed / interval)],
    and the elapsed time rounded to two decimals.  The table
    [server_logs] is left as it was: no retention row is written. *)
Theorem monitor_terminates_without_log :
  forall now dnow st sid ks session,
    NoDup (PyDict.keys (kill_switch_registry st)) ->
    PyDict.get sid (kill_switch_registry st) = Some ks ->
    KillSwitch.enabled ks = true ->
    (inject_Z KILL_SWITCH_TIMEOUT <= now - KillSwitch.last_heartbeat ks)%Q ->
    PyDict.get sid (active_sessions st) = Some session ->
    let elapsed := (now - KillSwitch.last_heartbeat ks)%Q in
    let terminated := fst (kill_switch_check_all now dnow st) in
    let st' := snd (kill_switch_check_all now dnow st) in
    KillSwitch.status (entry_after now ks) = triggered /\
    PyDict.get sid (active_sessions st') = None /\
    PyDict.get sid (kill_switch_registry st') = None /\
    (exists r,
        In r terminated /\
        Terminated.session_id r = sid /\
        Terminated.reason r = "heartbeat_timeout" /\
        Terminated.reason r <> "session_end" /\
        Terminated.missed_heartbeats r
        = Qfloor (elapsed / inject_Z KILL_SWITCH_HEARTBEAT_INTERVAL) /\
        Terminated.elapsed_since_last_heartbeat_sec r = py_round2 elapsed /\
        Terminated.server_id r = Session.server_id session) /\
    count_occ string_dec (terminated_ids terminated) sid = 1%nat /\
    server_logs st' = server_logs st.
Proof.
  intros now dnow st sid ks session nd G en ge GS elapsed terminated st'.
  assert (TO : timed_out now ks = true) by (apply timed_out_iff; now split).
  pose proof (get_some_in _ _ _ G) as i.
  destruct (check_all_removes now dnow st sid ks nd i TO) as [RS RR].
  destruct (entry_after_status now ks en) as (_ & _ & Ht & _).
  split; [now apply Ht|]. split; [exact RS|]. split; [exact RR|].
  subst terminated st'. rewrite check_all_logs.
  rewrite kill_switch_check_all_spec by exact nd. simpl.
  split; [|split; [|reflexivity]].
  - exists (report_for now dnow sid ks session).
    split; [now apply reports_has|].
    simpl. repeat split; try reflexivity; try discriminate.
    apply missed_is_floor. now apply timeout_over_interval.
  - rewrite reports_count by exact nd. rewrite G, TO.
    unfold PyDict.contains. now rewrite GS.
Qed.

Lemma monitor_terminates_without_log_witness :
  NoDup (PyDict.keys (kill_switch_registry st_s1)) /\
  (exists r,
      fst (kill_switch_check_all (inject_Z 131) sample_time st_s1) = [r] /\
      Terminated.session_id r = "s1" /\
      Terminated.missed_heartbeats r = 3 /\
      Terminated.reason r = "heartbeat_timeout") /\
  active_sessions (snd (kill_switch_check_all (inject_Z 131) sample_time st_s1))
  = [] /\
  server_logs (snd (kill_switch_check_all (inject_Z 131) sample_time st_s1))
  = server_logs st_s1.
Proof.
  assert (nd : NoDup (PyDict.keys (kill_switch_registry st_s1)))
    by (repeat constructor; simpl; tauto).
  split; [exact nd|].
  destruct (PyDict.get "s1" (kill_switch_registry st_s1)) as [ks|] eqn:G;
    [|discriminate G].
  destruct (PyDict.get "s1" (active_sessions st_s1)) as [session|] eqn:GS;
    [|discriminate GS].
  assert (en : KillSwitch.enabled ks = true) by (now injection G as <-).
  assert (ge : (inject_Z KILL_SWITCH_TIMEOUT
                <= inject_Z 131 - KillSwitch.last_heartbeat ks)%Q).
  { injection G as <-. unfold Qle; simpl; lia. }
  pose proof (monitor_terminates_without_log (inject_Z 131) sample_time st_s1
                "s1" ks session nd G en ge GS) as H.
  cbv zeta in H. destruct H as (_ & _ & _ & _ & _ & L).
  split; [|split; [reflexivity | exact L]].
  eexists. split; [reflexivity|]. simpl. auto.
Defined.

(** C3, as it is written, fails: session ["s1"] has an armed kill switch
    and no heartbeat since second 100; the pass at second 131 removes it
    and adds no row to [server_logs]. *)
Lemma monitor_appends_no_retention_row :
  PyDict.contains "s1" (active_sessions st_s1) = true /\
  PyDict.contains "s1"
    (active_sessions
       (snd (kill_switch_check_all (inject_Z 131) sample_time st_s1))) = false /\
  PyDict.contains "s1"
    (kill_switch_registry
       (snd (kill_switch_check_all (inject_Z 131) sample_time st_s1))) = false /\
  ~ (exists row,
        In row
          (server_logs
             (snd (kill_switch_check_all (inject_Z 131) sample_time st_s1))) /\
        ~ In row (server_logs st_s1)).
Proof.
  repeat split; try reflexivity.
  intros (row & i & ni). apply ni. exact i.
Qed.

(** ** Removal of a session, along a run *)

Lemma get_pop_none {V} k k' (d : dict V) :
  PyDict.get k d = None -> PyDict.get k (PyDict.pop k' d) = None.
Proof.
  intros G. destruct (string_dec k k') as [->|ne].
  - apply get_pop_same.
  - now rewrite get_pop_other.
Qed.

Lemma get_pop_all_none {V} k l (d : dict V) :
  PyDict.get k d = None -> PyDict.get k (pop_all l d) = None.
Proof.
  intros G. destruct (in_dec string_dec k l) as [i|ni].
  - now apply get_pop_all_in.
  - now rewrite get_pop_all_out.
Qed.

Lemma step_keeps_absent o st sid :
  registries_wf st ->
  mints o <> Some sid ->
  PyDict.get sid (active_sessions st) = None ->
  PyDict.get sid (active_sessions (step o st)) = None.
Proof.
  intros [ns nr] nm G. destruct o; simpl in *.
  - assert (ne : sid <> session_id) by congruence.
    unfold connect.
    destruct (find_server _); [|exact G].
    destruct (check_stealth_mode _); [exact G|].
    destruct (is_true _); simpl;
      now rewrite ?update_session_get_other, get_set_other by exact ne.
  - assert (ne : sid <> session_id) by congruence.
    unfold connect_multi_hop.
    destruct (find_server entry_server_id); [|exact G].
    destruct (find_server exit_server_id); [|exact G].
    destruct (String.eqb _ _); [exact G|].
    destruct (check_stealth_mode _); [exact G|].
    destruct (is_true _), (opt_truthy _); simpl;
      now rewrite ?update_session_get_other, get_set_other by exact ne.
  - now rewrite status_unchanged.
  - unfold disconnect.
    destruct (PyDict.get session_id _); [|exact G].
    simpl. now apply get_pop_none.
  - unfold enable_kill_switch.
    destruct (PyDict.contains session_id (active_sessions st)) eqn:C;
      simpl; [|exact G].
    destruct (string_dec sid session_id) as [->|ne].
    + apply contains_false_get in G. congruence.
    + now rewrite update_session_get_other.
  - unfold heartbeat.
    destruct (negb _); [exact G|].
    destruct (kill_switch_heartbeat _ _ _ _) as [[] ?]; exact G.
  - now rewrite kill_switch_status_unchanged.
  - rewrite kill_switch_check_all_spec by exact nr. simpl.
    now apply get_pop_all_none.
  - rewrite purge_tick_state. exact G.
Qed.

Lemma removals_by_spec o st sid :
  registries_wf st ->
  (removals_by sid o st <= 1)%nat /\
  (removals_by sid o st = 1%nat ->
   PyDict.contains sid (active_sessions st) = true /\
   PyDict.contains sid (active_sessions (step o st)) = false /\
   PyDict.contains sid (kill_switch_registry (step o st)) = false).
Proof.
  intros [ns nr]. destruct o; simpl; try (split; [lia | discriminate]).
  - destruct (String.eqb_spec sid session_id) as [<-|ne]; simpl;
      [|split; [lia | discriminate]].
    unfold disconnect, PyDict.contains.
    destruct (PyDict.get sid (active_sessions st)) eqn:G; simpl;
      [|split; [lia | discriminate]].
    split; [lia|]. intros _. now rewrite !get_pop_same.
  - rewrite kill_switch_check_all_spec by exact nr. simpl.
    rewrite reports_count by exact nr.
    destruct (PyDict.get sid (kill_switch_registry st)) as [ks|] eqn:G;
      [|split; [lia | discriminate]].
    destruct (timed_out now ks) eqn:TO; simpl; [|split; [lia | discriminate]].
    destruct (PyDict.contains sid (active_sessions st)) eqn:C;
      [|split; [lia | discriminate]].
    split; [lia|]. intros _. split; [reflexivity|].
    assert (E : In sid (expired_keys now (kill_switch_registry st)))
      by (apply expired_keys_in; exists ks; split;
          [now apply get_some_in | exact TO]).
    unfold PyDict.contains. now rewrite !get_pop_all_in.
Qed.

Lemma removals_by_absent o st sid :
  registries_wf st ->
  PyDict.get sid (active_sessions st) = None -> removals_by sid o st = 0%nat.
Proof.
  intros wf G. destruct (removals_by_spec o st sid wf) as [le pos].
  destruct (removals_by sid o st) as [|[|n]]; [reflexivity | | lia].
  destruct (pos eq_refl) as [C _]. apply contains_keys in C.
  apply get_none_keys in G. contradiction.
Qed.

Lemma removals_absent ops st sid :
  registries_wf st ->
  (forall o, In o ops -> mints o <> Some sid) ->
  PyDict.get sid (active_sessions st) = None ->
  removals sid ops st = 0%nat /\
  PyDict.get sid (active_sessions (run ops st)) = None.
Proof.
  revert st. induction ops as [|o ops IH]; simpl; intros st wf nm G.
  - now split.
  - rewrite (removals_by_absent o st sid wf G). simpl.
    apply IH.
    + now apply step_wf.
    + intros o' i. apply nm. now right.
    + apply step_keeps_absent; [exact wf | apply nm; now left | exact G].
Qed.

Lemma removals_at_most_once ops st sid :
  registries_wf st ->
  (forall o, In o ops -> mints o <> Some sid) ->
  (removals sid ops st <= 1)%nat.
Proof.
  revert st. induction ops as [|o ops IH]; simpl; intros st wf nm; [lia|].
  destruct (removals_by_spec o st sid wf) as [le pos].
  assert (nm' : forall o', In o' ops -> mints o' <> Some sid)
    by (intros o' i; apply nm; now right).
  destruct (removals_by sid o st) as [|[|n]] eqn:E; [| |lia].
  - simpl. apply IH; [now apply step_wf | exact nm'].
  - destruct (pos eq_refl) as (_ & gone & _).
    apply contains_false_get in gone.
    destruct (removals_absent ops (step o st) sid) as [Z0 _];
      [now apply step_wf | exact nm' | exact gone |].
    rewrite Z0. lia.
Qed.

(** C1.  Take any run of whole operations from a state whose registries
    have unique keys, in which no [connect] mints [sid] again.
    - A [disconnect] of [sid] that answers and a monitor report for
      [sid] never both happen: over the run, [sid] is removed at most
      once.
    - The operation that removes [sid] finds it in [active_sessions]
      and leaves it in neither registry; from then on nothing removes
      it.
    - The other actor finds it absent: [disconnect] answers 404 and
      leaves the state as it is; a monitor pass reports nothing for
      [sid].
    - If [sid] has an enabled entry whose last heartbeat is at least
      the timeout old, however old, and a session, the monitor pass
      reports it exactly once and no later operation of the run removes
      it again. *)
Theorem removal_exactly_once :
  forall st sid,
    registries_wf st ->
    (forall ops,
        (forall o, In o ops -> mints o <> Some sid) ->
        (removals sid ops st <= 1)%nat) /\
    (forall o,
        removals_by sid o st = 1%nat ->
        PyDict.contains sid (active_sessions st) = true /\
        PyDict.contains sid (active_sessions (step o st)) = false /\
        PyDict.contains sid (kill_switch_registry (step o st)) = false /\
        forall ops,
          (forall o', In o' ops -> mints o' <> Some sid) ->
          removals sid ops (step o st) = 0%nat) /\
    (PyDict.contains sid (active_sessions st) = false ->
     (forall u now rnd n1 n2 d lid,
         disconnect sid u now rnd n1 n2 d lid st
         = (HTTPException 404 "Session not found", st)) /\
     (forall now d,
         ~ In sid (terminated_ids (fst (kill_switch_check_all now d st))) /\
         PyDict.contains sid
           (active_sessions (snd (kill_switch_check_all now d st))) = false)) /\
    (forall now d ks,
        PyDict.get sid (kill_switch_registry st) = Some ks ->
        KillSwitch.enabled ks = true ->
        (inject_Z KILL_SWITCH_TIMEOUT <= now - KillSwitch.last_heartbeat ks)%Q ->
        PyDict.contains sid (active_sessions st) = true ->
        removals_by sid (CheckAll now d) st = 1%nat /\
        forall ops,
          (forall o, In o ops -> mints o <> Some sid) ->
          removals sid (CheckAll now d :: ops) st = 1%nat).
Proof.
  intros st sid wf.
  assert (P2 : forall o,
             removals_by sid o st = 1%nat ->
             PyDict.contains sid (active_sessions st) = true /\
             PyDict.contains sid (active_sessions (step o st)) = false /\
             PyDict.contains sid (kill_switch_registry (step o st)) = false /\
             forall ops,
               (forall o', In o' ops -> mints o' <> Some sid) ->
               removals sid ops (step o st) = 0%nat).
  { intros o E. destruct (removals_by_spec o st sid wf) as [_ pos].
    destruct (pos E) as (was & gone & gone').
    repeat split; try assumption.
    intros ops nm. apply removals_absent;
      [now apply step_wf | exact nm | now apply contains_false_get]. }
  split; [|split; [exact P2|split]].
  - intros ops nm. now apply removals_at_most_once.
  - intros C. apply contains_false_get in C. split.
    + intros. unfold disconnect. now rewrite C.
    + intros now d.
      pose proof (removals_by_absent (CheckAll now d) st sid wf C) as Z0.
      simpl in Z0. split.
      * intros i. apply (count_occ_In string_dec) in i. lia.
      * apply contains_false_get.
        apply (step_keeps_absent (CheckAll now d) st sid wf); [discriminate|].
        exact C.
  - intros now d ks G en ge C.
    assert (E : removals_by sid (CheckAll now d) st = 1%nat).
    { destruct wf as [ns nr]. simpl.
      rewrite kill_switch_check_all_spec by exact nr. simpl.
      rewrite reports_count by exact nr. rewrite G, C.
      assert (TO : timed_out now ks = true) by (apply timed_out_iff; now split).
      now rewrite TO. }
    split; [exact E|].
    intros ops nm. cbn [removals]. rewrite E.
    destruct (P2 _ E) as (_ & _ & _ & Z0). now rewrite Z0.
Qed.

Lemma removal_exactly_once_witness :
  registries_wf st_s1 /\
  (forall o, In o race_on_s1 -> mints o <> Some "s1") /\
  removals "s1" race_on_s1 st_s1 = 1%nat /\
  fst (disconnect "s1" bob (inject_Z 132) 100000 sample_time sample_time
         sample_time "row-9"
         (snd (kill_switch_check_all (inject_Z 131) sample_time st_s1)))
  = HTTPException 404 "Session not found".
Proof.
  assert (wf : registries_wf st_s1).
  { split; repeat constructor; simpl; tauto. }
  assert (nm : forall o, In o race_on_s1 -> mints o <> Some "s1").
  { intros o i. simpl in i.
    repeat (destruct i as [<-|i]; [discriminate|]). destruct i. }
  split; [exact wf|]. split; [exact nm|]. split; [|reflexivity].
  destruct (removal_exactly_once st_s1 "s1" wf) as (_ & _ & _ & due).
  destruct (PyDict.get "s1" (kill_switch_registry st_s1)) as [ks|] eqn:G;
    [|discriminate G].
  assert (en : KillSwitch.enabled ks = true) by (now injection G as <-).
  assert (ge : (inject_Z KILL_SWITCH_TIMEOUT
                <= inject_Z 131 - KillSwitch.last_heartbeat ks)%Q).
  { injection G as <-. unfold Qle; simpl; lia. }
  refine (proj2 (due (inject_Z 131) sample_time ks eq_refl en ge eq_refl)
            (tl race_on_s1) _).
  intros o i. apply nm. now right.
Defined.

Lemma retention_rows_are_coarse_witness :
  (exists s s',
      PyDict.get "s1" (active_sessions st_s3) = Some s /\
      PyDict.get "s3" (active_sessions st_s3) = Some s' /\
      Session.user_id s = Some "alice" /\ Session.user_id s' = Some "bob" /\
      Session.connected_at s = Session.connected_at s' /\
      Session.protocol s = Session.protocol s' /\
      Server.flag (Session.server s) = Server.flag (Session.server s')) /\
  server_logs
    (snd (disconnect "s1" alice (inject_Z 175) 100000 sample_time sample_time
            sample_time "row-4" st_s3))
  = server_logs
      (snd (disconnect "s3" bob (inject_Z 175) 100000 sample_time sample_time
              sample_time "row-4" st_s3)).
Proof.
  destruct (PyDict.get "s1" (active_sessions st_s3)) as [s|] eqn:G;
    [|discriminate G].
  destruct (PyDict.get "s3" (active_sessions st_s3)) as [s'|] eqn:G';
    [|discriminate G'].
  assert (F : Session.user_id s = Some "alice" /\
              Session.user_id s' = Some "bob" /\
              Session.connected_at s = Session.connected_at s' /\
              Session.protocol s = Session.protocol s' /\
              Server.flag (Session.server s) = Server.flag (Session.server s')).
  { injection G as <-. injection G' as <-. repeat split. }
  split.
  - exists s, s'. repeat split; try reflexivity; apply F.
  - destruct F as (_ & _ & Ec & Ep & Ef).
    exact (proj2 (proj2 (proj2 retention_rows_are_coarse))
             "s1" "s3" alice bob s s' (inject_Z 175) 100000 sample_time
             sample_time sample_time sample_time "row-4" st_s3 st_s3
             G G' Ec Ep Ef eq_refl).
Defined.

(** ** Explicit disconnect *)

(** C7, as the code has it.  [disconnect] answers 404 exactly when
    [session_id] is not in [active_sessions]; the authenticated caller
    plays no part in that.  When the session is there, whoever calls, it
    is removed with its kill-switch entry, every other key of both
    registries keeps its value, a ["session_end"] row carrying the
    duration [int(now - connected_at)] is appended, and that duration
    is returned. *)
Theorem disconnect_outcomes :
  forall session_id current_user now rnd now1 now2 dnow log_id st,
    let out :=
      disconnect session_id current_user now rnd now1 now2 dnow log_id st in
    (PyDict.get session_id (active_sessions st) = None ->
     out = (HTTPException 404 "Session not found", st)) /\
    (is_ok (fst out) = false
     <-> PyDict.get session_id (active_sessions st) = None) /\
    (forall session,
        PyDict.get session_id (active_sessions st) = Some session ->
        let uptime := py_int (now - Session.connected_at session) in
        (exists resp user,
            fst out = Ok (resp, user) /\
            DisconnectResponse.uptime_seconds resp = uptime) /\
        PyDict.get session_id (active_sessions (snd out)) = None /\
        PyDict.get session_id (kill_switch_registry (snd out)) = None /\
        (forall k,
            k <> session_id ->
            PyDict.get k (active_sessions (snd out))
            = PyDict.get k (active_sessions st) /\
            PyDict.get k (kill_switch_registry (snd out))
            = PyDict.get k (kill_switch_registry st)) /\
        (exists row,
            server_logs (snd out) = server_logs st ++ [row] /\
            ServerLog.event_type row = "session_end" /\
            ServerLog.duration_seconds row = Some uptime)).
Proof.
  intros sid u now rnd n1 n2 d lid st out. subst out. unfold disconnect.
  destruct (PyDict.get sid (active_sessions st)) as [s|] eqn:G; simpl.
  - split; [discriminate|]. split; [split; discriminate|].
    intros session [= <-]. split; [eauto|].
    rewrite !get_pop_same. repeat split; try reflexivity.
    + now apply get_pop_other.
    + now apply get_pop_other.
    + eexists. split; [reflexivity|]. split; reflexivity.
  - split; [reflexivity|]. split; [tauto|]. discriminate.
Qed.

Lemma disconnect_outcomes_witness :
  (exists session,
      PyDict.get "s1" (active_sessions st_s1) = Some session /\
      Session.user_id session = Some "alice") /\
  (exists resp user,
      fst (disconnect "s1" alice (inject_Z 175) 100000 sample_time sample_time
             sample_time "row-4" st_s1) = Ok (resp, user) /\
      DisconnectResponse.uptime_seconds resp = 75) /\
  disconnect "s7" alice (inject_Z 175) 100000 sample_time sample_time
    sample_time "row-4" st_s1
  = (HTTPException 404 "Session not found", st_s1).
Proof.
  destruct (PyDict.get "s1" (active_sessions st_s1)) as [session|] eqn:G;
    [|discriminate G].
  pose proof (disconnect_outcomes "s1" alice (inject_Z 175) 100000 sample_time
                sample_time sample_time "row-4" st_s1) as H.
  pose proof (disconnect_outcomes "s7" alice (inject_Z 175) 100000 sample_time
                sample_time sample_time "row-4" st_s1) as H7.
  cbv zeta in H, H7.
  destruct H as (_ & _ & H). destruct H7 as (H7 & _).
  destruct (H session G) as ((resp & user & E & U) & _).
  split; [|split].
  - exists session. split; [reflexivity|]. now injection G as <-.
  - exists resp, user. split; [exact E|].
    rewrite U. now injection G as <-.
  - exact (H7 eq_refl).
Defined.

(** C7, as it is written, fails: session ["s1"] was opened by Alice, and
    the [disconnect] that Bob sends for it answers and removes it. *)
Lemma disconnect_by_another_caller_succeeds :
  (exists session,
      PyDict.get "s1" (active_sessions st_s1) = Some session /\
      Session.user_id session = Some (User.id alice)) /\
  User.id bob <> User.id alice /\
  (exists resp user,
      fst (disconnect "s1" bob (inject_Z 175) 100000 sample_time sample_time
             sample_time "row-4" st_s1) = Ok (resp, user) /\
      DisconnectResponse.uptime_seconds resp = 75) /\
  PyDict.contains "s1"
    (active_sessions
       (snd (disconnect "s1" bob (inject_Z 175) 100000 sample_time sample_time
               sample_time "row-4" st_s1))) = false.
Proof.
  split; [|split; [|split]].
  - eexists. split; reflexivity.
  - discriminate.
  - eexists. eexists. split; reflexivity.
  - reflexivity.
Qed.

(** ** Liveness reports *)

Lemma with_registry_same st : with_registry (kill_switch_registry st) st = st.
Proof. now destruct st. Qed.

Lemma keys_set_present {V} k v v0 (d : dict V) :
  PyDict.get k d = Some v0 -> PyDict.keys (PyDict.set k v d) = PyDict.keys d.
Proof.
  induction d as [|[k' v'] d IH]; simpl; [discriminate|].
  destruct (String.eqb k k'); [reflexivity|].
  intros G. simpl. f_equal. now apply IH.
Qed.

Lemma heartbeat_without_session sid now d st :
  PyDict.contains sid (active_sessions st) = false ->
  fst (heartbeat sid now d st)
  = HTTPException 404
      "Session not found or already terminated by kill switch" /\
  PyDict.contains sid (kill_switch_registry (snd (heartbeat sid now d st)))
  = false /\
  active_sessions (snd (heartbeat sid now d st)) = active_sessions st /\
  (forall k,
      k <> sid ->
      PyDict.get k (kill_switch_registry (snd (heartbeat sid now d st)))
      = PyDict.get k (kill_switch_registry st)).
Proof.
  intros C. unfold heartbeat. rewrite C. simpl.
  split; [reflexivity|].
  destruct (PyDict.contains sid (kill_switch_registry st)) eqn:R.
  - split; [|split; [reflexivity|]].
    + unfold PyDict.contains. now rewrite get_pop_same.
    + intros k ne. now apply get_pop_other.
  - split; [exact R|]. split; reflexivity.
Qed.

(** C10.  A heartbeat for an identifier that is not in [active_sessions]
    answers 404, and first drops any entry that [kill_switch_registry]
    still holds for it: after the call neither registry has the
    identifier.  The other entries and the sessions are left alone. *)
Theorem heartbeat_drops_lingering_entry :
  forall session_id now dnow st,
    PyDict.contains session_id (active_sessions st) = false ->
    let out := heartbeat session_id now dnow st in
    fst out
    = HTTPException 404
        "Session not found or already terminated by kill switch" /\
    PyDict.contains session_id (active_sessions (snd out)) = false /\
    PyDict.contains session_id (kill_switch_registry (snd out)) = false /\
    active_sessions (snd out) = active_sessions st /\
    (forall k,
        k <> session_id ->
        PyDict.get k (kill_switch_registry (snd out))
        = PyDict.get k (kill_switch_registry st)).
Proof.
  intros sid now d st C out. subst out.
  destruct (heartbeat_without_session sid now d st C) as (E & R & S & O).
  split; [exact E|]. split; [now rewrite S|]. split; [exact R|].
  split; [exact S | exact O].
Qed.

Lemma heartbeat_drops_lingering_entry_witness :
  PyDict.contains "s9" (active_sessions st_lingering) = false /\
  PyDict.contains "s9" (kill_switch_registry st_lingering) = true /\
  PyDict.contains "s9"
    (kill_switch_registry
       (snd (heartbeat "s9" (inject_Z 105) sample_time st_lingering))) = false /\
  fst (heartbeat "s9" (inject_Z 105) sample_time st_lingering)
  = HTTPException 404 "Session not found or already terminated by kill switch".
Proof.
  pose proof (heartbeat_drops_lingering_entry "s9" (inject_Z 105) sample_time
                st_lingering eq_refl) as H.
  cbv zeta in H. destruct H as (E & _ & R & _).
  split; [reflexivity|]. split; [reflexivity|]. split; [exact R | exact E].
Defined.

(** C6, as the code has it.  A heartbeat never touches [active_sessions]
    nor the table.  It answers
    - 404 when the identifier is not in [active_sessions], whether or
      not an entry lingers for it, and the entry is then gone;
    - 400 when the session is there without a kill-switch entry, and
      the state is unchanged;
    - the refreshed state [active] otherwise, having set
      [last_heartbeat] to [now], [missed_heartbeats] to 0 and [status]
      to [active] in the entry, in place.
    After a monitor pass has reported an identifier, a heartbeat for it
    answers 404 and the identifier stays out of both registries.  In a
    state that the server reaches, every entry belongs to a session, so
    a heartbeat fails exactly when no entry exists for the identifier. *)
Theorem heartbeat_outcomes :
  forall session_id now dnow st,
    let out := heartbeat session_id now dnow st in
    active_sessions (snd out) = active_sessions st /\
    server_logs (snd out) = server_logs st /\
    (PyDict.get session_id (active_sessions st) = None ->
     fst out
     = HTTPException 404
         "Session not found or already terminated by kill switch" /\
     PyDict.get session_id (kill_switch_registry (snd out)) = None) /\
    (PyDict.get session_id (active_sessions st) <> None ->
     PyDict.get session_id (kill_switch_registry st) = None ->
     out = (HTTPException 400 "Kill switch not registered for this session",
            st)) /\
    (PyDict.get session_id (active_sessions st) <> None ->
     forall ks,
       PyDict.get session_id (kill_switch_registry st) = Some ks ->
       (exists ack,
           fst out = Ok ack /\
           HeartbeatAck.session_id ack = session_id /\
           HeartbeatAck.status ack = active) /\
       (exists ks',
           PyDict.get session_id (kill_switch_registry (snd out)) = Some ks' /\
           KillSwitch.last_heartbeat ks' = now /\
           KillSwitch.status ks' = active /\
           KillSwitch.missed_heartbeats ks' = 0 /\
           KillSwitch.enabled ks' = KillSwitch.enabled ks) /\
       PyDict.keys (kill_switch_registry (snd out))
       = PyDict.keys (kill_switch_registry st) /\
       (forall k,
           k <> session_id ->
           PyDict.get k (kill_switch_registry (snd out))
           = PyDict.get k (kill_switch_registry st))) /\
    (forall tnow tdnow st0,
        registries_wf st0 ->
        st = snd (kill_switch_check_all tnow tdnow st0) ->
        In session_id
          (terminated_ids (fst (kill_switch_check_all tnow tdnow st0))) ->
        is_ok (fst out) = false /\
        PyDict.get session_id (active_sessions (snd out)) = None /\
        PyDict.get session_id (kill_switch_registry (snd out)) = None) /\
    (forall T,
        reachable T st ->
        is_ok (fst out) = false
        <-> PyDict.get session_id (kill_switch_registry st) = None).
Proof.
  intros sid now d st out.
  assert (P404 : PyDict.get sid (active_sessions st) = None ->
                 fst out
                 = HTTPException 404
                     "Session not found or already terminated by kill switch"
                 /\ PyDict.get sid (kill_switch_registry (snd out)) = None
                 /\ active_sessions (snd out) = active_sessions st).
  { intros G. apply contains_false_get in G.
    destruct (heartbeat_without_session sid now d st G) as (E & R & S & _).
    split; [exact E|]. split; [now apply contains_false_get | exact S]. }
  split; [|split; [apply heartbeat_logs|split; [|split; [|split; [|split]]]]].
  - subst out. unfold heartbeat. destruct (negb _); [reflexivity|].
    destruct (kill_switch_heartbeat _ _ _ _) as [[] ?]; reflexivity.
  - intros G. destruct (P404 G) as (E & R & _). now split.
  - intros GS GR. subst out. unfold heartbeat, kill_switch_heartbeat.
    assert (C : PyDict.contains sid (active_sessions st) = true).
    { unfold PyDict.contains. destruct (PyDict.get sid (active_sessions st));
        [reflexivity | contradiction]. }
    rewrite C, GR. simpl. now rewrite with_registry_same.
  - intros GS ks GR. subst out. unfold heartbeat, kill_switch_heartbeat.
    assert (C : PyDict.contains sid (active_sessions st) = true).
    { unfold PyDict.contains. destruct (PyDict.get sid (active_sessions st));
        [reflexivity | contradiction]. }
    rewrite C, GR. simpl. split; [|split; [|split]].
    + eexists. split; [reflexivity|]. split; reflexivity.
    + eexists. split; [apply get_set_same|]. simpl. auto.
    + now apply (keys_set_present sid _ ks).
    + intros k ne. now apply get_set_other.
  - intros tnow tdnow st0 wf0 E i.
    assert (G : PyDict.get sid (active_sessions st) = None).
    { destruct (count_occ_In string_dec
                  (terminated_ids (fst (kill_switch_check_all tnow tdnow st0)))
                  sid) as [pos _].
      specialize (pos i).
      destruct (removals_by_spec (CheckAll tnow tdnow) st0 sid wf0)
        as [le once].
      simpl in le, once. rewrite E. apply contains_false_get.
      apply once. lia. }
    destruct (P404 G) as (E4 & R & S).
    split; [now rewrite E4|]. split; [now rewrite S | exact R].
  - intros T R. destruct (reachable_invariant T st R) as (_ & en & _).
    destruct (PyDict.get sid (active_sessions st)) as [s|] eqn:GS.
    + assert (C : PyDict.contains sid (active_sessions st) = true)
        by (unfold PyDict.contains; now rewrite GS).
      subst out. unfold heartbeat, kill_switch_heartbeat. rewrite C. simpl.
      destruct (PyDict.get sid (kill_switch_registry st)); simpl;
        split; congruence.
    + destruct (P404 eq_refl) as (E4 & _). rewrite E4. simpl.
      split; [intros _|reflexivity].
      destruct (PyDict.get sid (kill_switch_registry st)) as [ks|] eqn:GR;
        [|reflexivity].
      destruct (en sid ks (get_some_in _ _ _ GR)) as [_ i].
      apply get_none_keys in GS. contradiction.
Qed.

Lemma heartbeat_outcomes_witness :
  registries_wf st_s2 /\
  (exists ack ks',
      fst (heartbeat "s1" (inject_Z 108) sample_time st_s2) = Ok ack /\
      HeartbeatAck.status ack = active /\
      PyDict.get "s1"
        (kill_switch_registry
           (snd (heartbeat "s1" (inject_Z 108) sample_time st_s2)))
      = Some ks' /\
      KillSwitch.last_heartbeat ks' = inject_Z 108 /\
      KillSwitch.missed_heartbeats ks' = 0) /\
  is_ok
    (fst (heartbeat "s1" (inject_Z 140) sample_time
            (snd (kill_switch_check_all (inject_Z 131) sample_time st_s2))))
  = false.
Proof.
  assert (wf : registries_wf st_s2).
  { split; repeat constructor; simpl; intuition discriminate. }
  split; [exact wf|].
  pose proof (heartbeat_outcomes "s1" (inject_Z 108) sample_time st_s2) as H.
  pose proof (heartbeat_outcomes "s1" (inject_Z 140) sample_time
                (snd (kill_switch_check_all (inject_Z 131) sample_time st_s2)))
    as H'.
  cbv zeta in H, H'.
  destruct H as (_ & _ & _ & _ & H & _).
  destruct H' as (_ & _ & _ & _ & _ & H' & _).
  split.
  - destruct (PyDict.get "s1" (kill_switch_registry st_s2)) as [ks|] eqn:G;
      [|discriminate G].
    assert (GS : PyDict.get "s1" (active_sessions st_s2) <> None)
      by discriminate.
    destruct (H GS ks eq_refl)
      as ((ack & E & _ & A) & (ks' & G' & L & _ & M & _) & _).
    exists ack, ks'. auto.
  - refine (proj1 (H' (inject_Z 131) sample_time st_s2 wf eq_refl _)).
    simpl. now left.
Defined.

(** C6, as it is written, fails: session ["s2"] was opened without the
    kill switch, so no entry exists for it, and its heartbeat is turned
    down with status 400, not with 404. *)
Lemma heartbeat_unregistered_is_400 :
  reachable (inject_Z 101) st_s2 /\
  PyDict.contains "s2" (active_sessions st_s2) = true /\
  PyDict.contains "s2" (kill_switch_registry st_s2) = false /\
  fst (heartbeat "s2" (inject_Z 105) sample_time st_s2)
  = HTTPException 400 "Kill switch not registered for this session" /\
  fst (heartbeat "s2" (inject_Z 105) sample_time st_s2)
  <> HTTPException 404
       "Session not found or already terminated by kill switch".
Proof.
  split; [exact reachable_st_s2|].
  repeat split; try reflexivity. discriminate.
Qed.

(** ** The two status reads *)

(** C9, as the code has it.  [status] and [kill_switch_status] return
    the state they were given, and always a body, never an exception.
    For an identifier that is not empty and not registered the body is
    the "disconnected" (resp. "not registered") one.  An identifier
    that is left out or empty is not looked up: [status] then answers
    for the session inserted last, if there is any, and
    [kill_switch_status] with the summary of all entries. *)
Theorem status_reads :
  forall session_id now r_sent r_received st,
    let out := status session_id now r_sent r_received st in
    let kout := kill_switch_status session_id now st in
    snd out = st /\ snd kout = st /\
    (exists body, fst out = Ok body) /\
    (exists body, fst kout = Ok body) /\
    (forall sid,
        session_id = Some sid -> sid <> "" ->
        (PyDict.get sid (active_sessions st) = None ->
         fst out
         = Ok (StatusDisconnected "disconnected"
                 (List.length (active_sessions st)) "No active VPN session")) /\
        (PyDict.get sid (kill_switch_registry st) = None ->
         fst kout
         = Ok (KsNotRegistered sid false
                 "Kill switch not registered for this session"))) /\
    (session_id = None \/ session_id = Some "" ->
     (forall last session,
         PyDict.last_key (active_sessions st) = Some last ->
         last <> "" ->
         PyDict.get last (active_sessions st) = Some session ->
         fst out
         = Ok (StatusConnected last "connected"
                 (py_int (now - Session.connected_at session))
                 (Session.server session)
                 (py_int (now - Session.connected_at session) * r_sent)
                 (py_int (now - Session.connected_at session) * r_received))) /\
     (active_sessions st = [] ->
      fst out
      = Ok (StatusDisconnected "disconnected" 0 "No active VPN session")) /\
     (exists sessions,
         fst kout
         = Ok (KsSummary (List.length (kill_switch_registry st)) sessions))).
Proof.
  intros sid now r1 r2 st out kout.
  split; [apply status_unchanged|]. split; [apply kill_switch_status_unchanged|].
  split; [|split; [|split]].
  - subst out. unfold status.
    repeat match goal with
           | |- context [match ?x with Some _ => _ | None => _ end] =>
               destruct x
           | |- context [if ?b then _ else _] => destruct b
           end; simpl; eauto.
  - subst kout. unfold kill_switch_status.
    repeat match goal with
           | |- context [match ?x with Some _ => _ | None => _ end] =>
               destruct x
           | |- context [if ?b then _ else _] => destruct b
           end; simpl; eauto.
  - intros k -> ne.
    assert (T : truthy k = true) by (destruct k; [contradiction | reflexivity]).
    split; intros G.
    + subst out. unfold status, opt_truthy. rewrite T. simpl.
      rewrite ?T. simpl. now rewrite G.
    + subst kout. unfold kill_switch_status. now rewrite T, G.
  - intros E.
    assert (F : opt_truthy sid = false) by (destruct E as [->| ->]; reflexivity).
    split; [|split].
    + intros last session L ne G.
      assert (T : truthy last = true)
        by (destruct last; [contradiction | reflexivity]).
      subst out. unfold status. rewrite F.
      assert (N : (Datatypes.length (active_sessions st) =? 0)%nat = false)
        by (destruct (active_sessions st); [discriminate L | reflexivity]).
      rewrite N. simpl. rewrite L, T. simpl. now rewrite G.
    + intros A. subst out. unfold status. rewrite F, A. simpl.
      destruct E as [->| ->]; reflexivity.
    + subst kout. unfold kill_switch_status.
      destruct E as [->| ->]; simpl; eauto.
Qed.

(** C9, as it is written, fails: the empty identifier is in no registry,
    and [status] answers it with the connected status of ["s1"]. *)
Lemma status_of_empty_id_is_connected :
  PyDict.contains "" (active_sessions st_s1) = false /\
  (exists uptime server sent received,
      fst (status (Some "") (inject_Z 105) 50000 200000 st_s1)
      = Ok (StatusConnected "s1" "connected" uptime server sent received)) /\
  (exists n sessions,
      fst (kill_switch_status (Some "") (inject_Z 105) st_s1)
      = Ok (KsSummary n sessions)).
Proof.
  split; [reflexivity|]. split.
  - do 4 eexists. reflexivity.
  - do 2 eexists. reflexivity.
Qed.

Lemma status_reads_witness :
  status (Some "s7") (inject_Z 105) 50000 200000 st_s2
  = (Ok (StatusDisconnected "disconnected" 2 "No active VPN session"), st_s2) /\
  kill_switch_status (Some "s2") (inject_Z 105) st_s2
  = (Ok (KsNotRegistered "s2" false
           "Kill switch not registered for this session"), st_s2) /\
  (exists uptime sent received,
      fst (status None (inject_Z 105) 50000 200000 st_s2)
      = Ok (StatusConnected "s2" "connected" uptime
              (Server.mk "de-frankfurt-1" "DE" "203.0.113.20")
              sent received)).
Proof.
  pose proof (status_reads (Some "s7") (inject_Z 105) 50000 200000 st_s2) as H.
  pose proof (status_reads (Some "s2") (inject_Z 105) 50000 200000 st_s2) as H2.
  cbv zeta in H, H2.
  destruct H as (S & _ & _ & _ & H & _).
  destruct H2 as (_ & K & _ & _ & H2 & _).
  assert (ne7 : "s7" <> "") by discriminate.
  assert (ne2 : "s2" <> "") by discriminate.
  destruct (H "s7" eq_refl ne7) as [D _].
  destruct (H2 "s2" eq_refl ne2) as [_ N].
  split; [|split].
  - rewrite (surjective_pairing (status _ _ _ _ _)).
    rewrite (D eq_refl), S. reflexivity.
  - rewrite (surjective_pairing (kill_switch_status _ _ _)).
    rewrite (N eq_refl), K. reflexivity.
  - do 3 eexists. reflexivity.
Defined.

(* ------------------------------------------------------------------ *)
(** * Further properties of the handlers *)

(** ** Opening a session *)

Lemma connect_session_after req u sid lid t1 t2 d n1 n2 st server :
  find_server (ConnectRequest.server_id req) = Some server ->
  check_stealth_mode (ConnectRequest.stealth_mode req) = None ->
  PyDict.get sid (active_sessions (snd (connect req u sid lid t1 t2 d n1 n2 st)))
  = Some {| Session.session_id := sid;
            Session.server_id := ConnectRequest.server_id req;
            Session.server := server;
            Session.protocol := default_protocol (ConnectRequest.protocol req);
            Session.connected_at := t1;
            Session.stealth_mode := ConnectRequest.stealth_mode req;
            Session.kill_switch :=
              if is_true (ConnectRequest.kill_switch req)
              then Some true else None;
            Session.user_id := Some (User.id u) |}.
Proof.
  intros F C. unfold connect. rewrite F, C.
  destruct (is_true _); simpl;
    rewrite ?update_session_get_same, get_set_same; reflexivity.
Qed.

Lemma connect_registry_after req u sid lid t1 t2 d n1 n2 st server :
  find_server (ConnectRequest.server_id req) = Some server ->
  check_stealth_mode (ConnectRequest.stealth_mode req) = None ->
  kill_switch_registry (snd (connect req u sid lid t1 t2 d n1 n2 st))
  = if is_true (ConnectRequest.kill_switch req)
    then snd (kill_switch_register t2 d sid true (kill_switch_registry st))
    else kill_switch_registry st.
Proof.
  intros F C. unfold connect. rewrite F, C.
  destruct (is_true _); reflexivity.
Qed.

Lemma connect_others_after req u sid lid t1 t2 d n1 n2 st k :
  k <> sid ->
  PyDict.get k (active_sessions (snd (connect req u sid lid t1 t2 d n1 n2 st)))
  = PyDict.get k (active_sessions st) /\
  PyDict.get k
    (kill_switch_registry (snd (connect req u sid lid t1 t2 d n1 n2 st)))
  = PyDict.get k (kill_switch_registry st).
Proof.
  intros ne. unfold connect.
  destruct (find_server _); [|now split].
  destruct (check_stealth_mode _); [now split|].
  destruct (is_true _); simpl;
    rewrite ?update_session_get_other, ?get_set_other by exact ne; now split.
Qed.

Lemma check_stealth_mode_none sm :
  check_stealth_mode sm = None
  <-> sm = None \/ sm = Some "" \/ exists m, sm = Some m /\ In m STEALTH_PROTOCOLS.
Proof.
  unfold check_stealth_mode. destruct sm as [m|]; [|tauto].
  destruct m as [|c m]; simpl; [tauto|].
  set (x := String c m).
  destruct (in_stealth_protocols x) eqn:I; simpl.
  - split; [intros _|reflexivity]. right. right. exists x. split; [reflexivity|].
    unfold in_stealth_protocols in I. apply existsb_exists in I.
    destruct I as (y & i & e). apply String.eqb_eq in e. now subst.
  - split; [discriminate|]. intros [e|[e|(y & e & i)]]; try discriminate.
    injection e as <-. exfalso.
    assert (in_stealth_protocols x = true); [|congruence].
    apply existsb_exists. exists x. split; [exact i | apply String.eqb_refl].
Qed.

(** X1.  [connect] turns a request down without touching anything: 404
    when the server is not in the catalog, else 400 when a non-empty
    stealth mode is not one of the known protocols.  It answers in
    every other case: with no stealth mode, an empty one, or a known
    one. *)
Theorem connect_rejections :
  forall req u sid lid t1 t2 d n1 n2 st,
    let out := connect req u sid lid t1 t2 d n1 n2 st in
    (find_server (ConnectRequest.server_id req) = None ->
     out = (HTTPException 404 "Server not found", st)) /\
    (find_server (ConnectRequest.server_id req) <> None ->
     forall m,
       ConnectRequest.stealth_mode req = Some m -> m <> "" ->
       ~ In m STEALTH_PROTOCOLS ->
       out = (HTTPException 400 (unknown_stealth_detail m), st)) /\
    (is_ok (fst out) = true
     <-> (exists server,
             In server SERVERS /\
             Server.id server = ConnectRequest.server_id req) /\
         (ConnectRequest.stealth_mode req = None \/
          ConnectRequest.stealth_mode req = Some "" \/
          exists m, ConnectRequest.stealth_mode req = Some m /\
                    In m STEALTH_PROTOCOLS)) /\
    (is_ok (fst out) = false -> snd out = st).
Proof.
  intros req u sid lid t1 t2 d n1 n2 st out. subst out. unfold connect.
  destruct (find_server (ConnectRequest.server_id req)) as [server|] eqn:F.
  - pose proof (find_server_in_catalog _ _ F) as [i e].
    pose proof (check_stealth_mode_none (ConnectRequest.stealth_mode req)) as CS.
    destruct (check_stealth_mode (ConnectRequest.stealth_mode req))
      as [detail|] eqn:C.
    + split; [discriminate|]. split; [|split; [|reflexivity]].
      * intros _ m E ne ni. unfold check_stealth_mode in C. rewrite E in C.
        destruct m as [|c m]; [contradiction|]. simpl in C.
        destruct (in_stealth_protocols (String c m)); [discriminate|].
        simpl in C. now injection C as <-.
      * simpl. split; [discriminate|]. intros [_ H].
        apply CS in H. discriminate.
    + split; [discriminate|]. split; [|split].
      * intros _ m E ne ni. exfalso.
        destruct (proj1 CS eq_refl) as [e'|[e'|(y & e' & iy)]];
          rewrite E in e'; try discriminate; injection e' as ->; contradiction.
      * destruct (is_true _); simpl; (split; [intros _|reflexivity]);
          (split; [now exists server | now apply CS]).
      * destruct (is_true _); simpl; discriminate.
  - split; [reflexivity|]. split; [contradiction|]. split; [|reflexivity].
    simpl. split; [discriminate|]. intros [(server & i & e) _]. exfalso.
    unfold find_server in F.
    apply (find_none _ _ F) in i. rewrite e, String.eqb_refl in i. discriminate.
Qed.

Lemma connect_rejections_witness :
  connect (ConnectRequest.mk "nowhere-1" None None None) alice "s5" "row-5"
    (inject_Z 100) (inject_Z 100) sample_time sample_time sample_time st_s1
  = (HTTPException 404 "Server not found", st_s1) /\
  connect (ConnectRequest.mk "us-east-1" None (Some "tor") None) alice "s5"
    "row-5" (inject_Z 100) (inject_Z 100) sample_time sample_time sample_time
    st_s1
  = (HTTPException 400
       "Unknown stealth protocol: tor. Available: ['shadowsocks', 'v2ray', 'obfs4']",
     st_s1).
Proof.
  pose proof (connect_rejections (ConnectRequest.mk "nowhere-1" None None None)
                alice "s5" "row-5" (inject_Z 100) (inject_Z 100) sample_time
                sample_time sample_time st_s1) as H.
  pose proof (connect_rejections
                (ConnectRequest.mk "us-east-1" None (Some "tor") None)
                alice "s5" "row-5" (inject_Z 100) (inject_Z 100) sample_time
                sample_time sample_time st_s1) as H'.
  cbv zeta in H, H'. destruct H as (H & _). destruct H' as (_ & H' & _).
  split; [exact (H eq_refl)|].
  apply (H' ltac:(discriminate) "tor" eq_refl); [discriminate|].
  simpl. intuition discriminate.
Defined.

Lemma catalog_region server_id server :
  find_server server_id = Some server ->
  anonymize_region (Some (Server.flag server)) = Some (Server.flag server).
Proof.
  intros F. apply find_server_in_catalog in F. destruct F as [i _].
  pose proof catalog_flags as H. rewrite Forall_forall in H.
  now apply H.
Qed.

(** X2.  What an accepted [connect] leaves behind.  The session is
    stored under the minted identifier with the caller as [user_id] and
    the reading [t_conn] as start; every other session and kill-switch
    entry keeps its value.  With [kill_switch] requested, the
    identifier gets a fresh entry, [active], no missed heartbeat, last
    heartbeat [t_ks]; without it, the registry is not touched.  One
    ["session_start"] row is appended, with the server's catalog flag
    as region and neither duration nor bytes, and the caller's
    [total_sessions] grows by one. *)
Theorem connect_effects :
  forall req u sid lid t_conn t_ks d_ks now1 now2 st server,
    find_server (ConnectRequest.server_id req) = Some server ->
    check_stealth_mode (ConnectRequest.stealth_mode req) = None ->
    let out := connect req u sid lid t_conn t_ks d_ks now1 now2 st in
    (exists resp user,
        fst out = Ok (resp, user) /\
        ConnectResponse.session_id resp = sid /\
        User.id user = User.id u /\
        User.total_sessions user = Some (or_zero (User.total_sessions u) + 1) /\
        User.total_data_transferred_bytes user
        = User.total_data_transferred_bytes u) /\
    (exists session,
        PyDict.get sid (active_sessions (snd out)) = Some session /\
        Session.user_id session = Some (User.id u) /\
        Session.connected_at session = t_conn /\
        Session.server session = server /\
        Session.protocol session
        = default_protocol (ConnectRequest.protocol req)) /\
    (forall k,
        k <> sid ->
        PyDict.get k (active_sessions (snd out))
        = PyDict.get k (active_sessions st) /\
        PyDict.get k (kill_switch_registry (snd out))
        = PyDict.get k (kill_switch_registry st)) /\
    (ConnectRequest.kill_switch req = Some true ->
     exists e,
       PyDict.get sid (kill_switch_registry (snd out)) = Some e /\
       KillSwitch.enabled e = true /\ KillSwitch.status e = active /\
       KillSwitch.last_heartbeat e = t_ks /\
       KillSwitch.missed_heartbeats e = 0) /\
    (ConnectRequest.kill_switch req <> Some true ->
     kill_switch_registry (snd out) = kill_switch_registry st) /\
    (exists row,
        server_logs (snd out) = server_logs st ++ [row] /\
        ServerLog.id row = lid /\
        ServerLog.event_type row = "session_start" /\
        ServerLog.anonymized_region row = Some (Server.flag server) /\
        ServerLog.protocol row = ConnectRequest.protocol req /\
        ServerLog.duration_seconds row = None /\
        ServerLog.bytes_transferred row = None).
Proof.
  intros req u sid lid t1 t2 d n1 n2 st server F C out. subst out.
  split; [|split; [|split; [|split; [|split]]]].
  - unfold connect. rewrite F, C.
    destruct (is_true _); simpl; eexists; eexists;
      (split; [reflexivity|]); simpl; auto.
  - rewrite (connect_session_after _ _ _ _ _ _ _ _ _ _ server F C).
    eexists. split; [reflexivity|]. simpl. auto.
  - intros k ne. now apply connect_others_after.
  - intros K. rewrite (connect_registry_after _ _ _ _ _ _ _ _ _ _ server F C).
    rewrite K. simpl. eexists. split; [apply get_set_same|]. simpl. auto.
  - intros K. rewrite (connect_registry_after _ _ _ _ _ _ _ _ _ _ server F C).
    destruct (ConnectRequest.kill_switch req) as [[|]|]; simpl;
      [contradiction | reflexivity | reflexivity].
  - rewrite connect_logs, F, C, create_minimal_log_appends.
    eexists. split; [reflexivity|]. unfold create_minimal_log.
    cbn [fst ServerLog.id ServerLog.event_type ServerLog.anonymized_region
         ServerLog.protocol ServerLog.duration_seconds
         ServerLog.bytes_transferred].
    rewrite (catalog_region _ _ F). auto 10.
Qed.

Lemma connect_effects_witness :
  (exists session,
      PyDict.get "s1" (active_sessions st_s1) = Some session /\
      Session.user_id session = Some "alice" /\
      Session.connected_at session = inject_Z 100) /\
  (exists e,
      PyDict.get "s1" (kill_switch_registry st_s1) = Some e /\
      KillSwitch.status e = active) /\
  (exists row,
      server_logs st_s1 = [row] /\
      ServerLog.event_type row = "session_start" /\
      ServerLog.anonymized_region row = Some "DE").
Proof.
  destruct (find_server "de-frankfurt-1") as [server|] eqn:F; [|discriminate F].
  pose proof (connect_effects (sample_request true) alice "s1" "row-1"
                (inject_Z 100) (inject_Z 100) sample_time sample_time
                sample_time initial_state server F eq_refl) as H.
  cbv zeta in H.
  destruct H as (_ & (session & G & U & T & _) & _ & K & _ & (row & L & _ & E & R & _)).
  destruct (K eq_refl) as (e & GE & _ & A & _).
  split; [|split].
  - exists session. auto.
  - exists e. auto.
  - exists row. split; [exact L|]. split; [exact E|].
    rewrite R. now injection F as <-.
Defined.

(** ** Asking for the status after opening a session *)

Lemma last_key_keys {V} (d : dict V) :
  PyDict.last_key d = last (map Some (PyDict.keys d)) None.
Proof.
  unfold PyDict.last_key, PyDict.keys.
  induction d as [|[k v] d _] using rev_ind; [reflexivity|].
  rewrite rev_app_distr, !map_app. simpl. now rewrite last_last.
Qed.

Lemma keys_set_fresh {V} k v (d : dict V) :
  PyDict.get k d = None -> PyDict.keys (PyDict.set k v d) = PyDict.keys d ++ [k].
Proof.
  induction d as [|[k' v'] d IH]; simpl; [reflexivity|].
  destruct (String.eqb k k'); [discriminate|].
  intros G. simpl. f_equal. now apply IH.
Qed.

Lemma update_session_keys_eq sid f (d : dict Session.t) :
  PyDict.keys (update_session sid f d) = PyDict.keys d.
Proof.
  unfold update_session. destruct (PyDict.get sid d) eqn:G; [|reflexivity].
  now apply (keys_set_present sid _ t).
Qed.

Lemma connect_keys_fresh req u sid lid t1 t2 d n1 n2 st server :
  find_server (ConnectRequest.server_id req) = Some server ->
  check_stealth_mode (ConnectRequest.stealth_mode req) = None ->
  PyDict.get sid (active_sessions st) = None ->
  PyDict.keys (active_sessions (snd (connect req u sid lid t1 t2 d n1 n2 st)))
  = PyDict.keys (active_sessions st) ++ [sid].
Proof.
  intros F C G. unfold connect. rewrite F, C.
  destruct (is_true _); simpl;
    rewrite ?update_session_keys_eq; now apply keys_set_fresh.
Qed.

Lemma connect_keys_known req u sid lid t1 t2 d n1 n2 st s0 :
  PyDict.get sid (active_sessions st) = Some s0 ->
  PyDict.keys (active_sessions (snd (connect req u sid lid t1 t2 d n1 n2 st)))
  = PyDict.keys (active_sessions st).
Proof.
  intros G. unfold connect.
  destruct (find_server _); [|reflexivity].
  destruct (check_stealth_mode _); [reflexivity|].
  destruct (is_true _); simpl;
    rewrite ?update_session_keys_eq; now apply (keys_set_present sid _ s0).
Qed.

Lemma py_int_small q : (0 <= q)%Q -> (q < 1)%Q -> py_int q = 0.
Proof.
  destruct q as [n d]. unfold Qle, Qlt, py_int; simpl. intros H0 H1.
  apply Z.quot_small. lia.
Qed.

(** X3.  Round trip: once [connect] has answered with a non-empty
    identifier, [status] for that identifier at a later reading [now]
    answers "connected" with the same server and
    [uptime_seconds = int(now - t_conn)], which is 0 during the first
    second.  If the identifier was new, the session is the last one of
    the registry, so [status] without an identifier answers for it too;
    if the identifier was already in use, the registry keeps its
    order. *)
Theorem connect_then_status :
  forall req u sid lid t_conn t_ks d_ks now1 now2 st server now r_sent r_received,
    find_server (ConnectRequest.server_id req) = Some server ->
    check_stealth_mode (ConnectRequest.stealth_mode req) = None ->
    sid <> "" ->
    let st' := snd (connect req u sid lid t_conn t_ks d_ks now1 now2 st) in
    let uptime := py_int (now - t_conn) in
    let answer :=
      (Ok (StatusConnected sid "connected" uptime server
             (uptime * r_sent) (uptime * r_received)), st') in
    status (Some sid) now r_sent r_received st' = answer /\
    ((0 <= now - t_conn)%Q -> (now - t_conn < 1)%Q -> uptime = 0) /\
    (PyDict.get sid (active_sessions st) = None ->
     PyDict.keys (active_sessions st')
     = PyDict.keys (active_sessions st) ++ [sid] /\
     status None now r_sent r_received st' = answer) /\
    (PyDict.get sid (active_sessions st) <> None ->
     PyDict.keys (active_sessions st') = PyDict.keys (active_sessions st)).
Proof.
  intros req u sid lid t1 t2 d n1 n2 st server now r1 r2 F C ne st' uptime
    answer.
  pose proof (connect_session_after req u sid lid t1 t2 d n1 n2 st server F C)
    as G. fold st' in G.
  assert (T : truthy sid = true) by (destruct sid; [contradiction | reflexivity]).
  assert (S : status (Some sid) now r1 r2 st' = answer).
  { unfold status, opt_truthy. rewrite T. simpl. rewrite T. simpl.
    rewrite G. reflexivity. }
  split; [exact S|]. split; [apply py_int_small|]. split.
  - intros G0.
    pose proof (connect_keys_fresh req u sid lid t1 t2 d n1 n2 st server F C G0)
      as K. fold st' in K.
    split; [exact K|].
    assert (L : PyDict.last_key (active_sessions st') = Some sid).
    { rewrite last_key_keys, K, map_app. simpl. apply last_last. }
    assert (N : (Datatypes.length (active_sessions st') =? 0)%nat = false).
    { destruct (active_sessions st'); [discriminate G | reflexivity]. }
    unfold status. simpl. rewrite N. simpl. rewrite L, T. simpl.
    rewrite G. reflexivity.
  - intros G0. destruct (PyDict.get sid (active_sessions st)) as [s0|] eqn:E;
      [|contradiction].
    now apply (connect_keys_known req u sid lid t1 t2 d n1 n2 st s0).
Qed.

Lemma connect_then_status_witness :
  status (Some "s2") (inject_Z 161) 50000 200000 st_s2
  = (Ok (StatusConnected "s2" "connected" 60
           (Server.mk "de-frankfurt-1" "DE" "203.0.113.20")
           3000000 12000000), st_s2) /\
  status None (inject_Z 161) 50000 200000 st_s2
  = status (Some "s2") (inject_Z 161) 50000 200000 st_s2 /\
  PyDict.keys (active_sessions st_s2) = ["s1"; "s2"].
Proof.
  destruct (find_server "de-frankfurt-1") as [server|] eqn:F; [|discriminate F].
  assert (ne : "s2" <> "") by discriminate.
  pose proof (connect_then_status (sample_request false) alice "s2" "row-2"
                (inject_Z 101) (inject_Z 101) sample_time sample_time
                sample_time st_s1 server (inject_Z 161) 50000 200000
                F eq_refl ne) as H.
  cbv zeta in H. destruct H as (S & _ & N & _).
  destruct (N eq_refl) as [K S'].
  injection F as <-.
  split; [exact S|]. split; [|exact K].
  etransitivity; [exact S' | symmetry; exact S].
Defined.

(** ** What a monitor pass leaves alone *)

Lemma not_expired_key now sid registry :
  NoDup (PyDict.keys registry) ->
  (forall ks, PyDict.get sid registry = Some ks -> timed_out now ks = false) ->
  ~ In sid (expired_keys now registry).
Proof.
  intros nd H i. apply expired_keys_in in i. destruct i as (ks & i & TO).
  apply (in_get _ _ _ nd) in i. rewrite (H ks i) in TO. discriminate.
Qed.

Lemma check_all_spares now d st sid :
  NoDup (PyDict.keys (kill_switch_registry st)) ->
  (forall ks,
      PyDict.get sid (kill_switch_registry st) = Some ks ->
      timed_out now ks = false) ->
  PyDict.get sid (active_sessions (snd (kill_switch_check_all now d st)))
  = PyDict.get sid (active_sessions st) /\
  PyDict.get sid (kill_switch_registry (snd (kill_switch_check_all now d st)))
  = option_map (entry_after now) (PyDict.get sid (kill_switch_registry st)) /\
  ~ In sid (terminated_ids (fst (kill_switch_check_all now d st))).
Proof.
  intros nd H. pose proof (not_expired_key now sid _ nd H) as ne.
  rewrite kill_switch_check_all_spec by exact nd. simpl.
  rewrite !get_pop_all_out by exact ne. rewrite entries_after_get.
  split; [reflexivity|]. split; [reflexivity|].
  intros i. apply in_map_iff in i. destruct i as (r & e & i).
  apply reports_in in i. destruct i as (ks & s & i & TO & _).
  apply ne. rewrite <- e. apply expired_keys_in. now exists ks.
Qed.

Lemma timed_out_false now ks :
  (now - KillSwitch.last_heartbeat ks < inject_Z KILL_SWITCH_TIMEOUT)%Q ->
  timed_out now ks = false.
Proof.
  intros lt. destruct (timed_out now ks) eqn:TO; [|reflexivity].
  apply timed_out_iff in TO. destruct TO as [_ ge]. lra.
Qed.

(** X4.  A monitor pass only ever removes sessions whose kill-switch
    entry is enabled and at least [KILL_SWITCH_TIMEOUT] seconds past
    its last heartbeat.  A session without an entry, with a disabled
    entry or with a younger entry keeps its value; a surviving entry
    keeps [enabled] and [last_heartbeat]; the report list names only
    sessions that were there and had timed out; and no session or
    entry is ever added. *)
Theorem monitor_pass_frame :
  forall now dnow st,
    registries_wf st ->
    let terminated := fst (kill_switch_check_all now dnow st) in
    let st' := snd (kill_switch_check_all now dnow st) in
    (forall sid,
        (forall ks,
            PyDict.get sid (kill_switch_registry st) = Some ks ->
            KillSwitch.enabled ks = false \/
            (now - KillSwitch.last_heartbeat ks
             < inject_Z KILL_SWITCH_TIMEOUT)%Q) ->
        PyDict.get sid (active_sessions st')
        = PyDict.get sid (active_sessions st) /\
        ~ In sid (terminated_ids terminated) /\
        forall ks,
          PyDict.get sid (kill_switch_registry st) = Some ks ->
          exists ks',
            PyDict.get sid (kill_switch_registry st') = Some ks' /\
            KillSwitch.enabled ks' = KillSwitch.enabled ks /\
            KillSwitch.last_heartbeat ks' = KillSwitch.last_heartbeat ks) /\
    (forall sid,
        In sid (terminated_ids terminated) ->
        PyDict.contains sid (active_sessions st) = true /\
        exists ks,
          PyDict.get sid (kill_switch_registry st) = Some ks /\
          KillSwitch.enabled ks = true /\
          (inject_Z KILL_SWITCH_TIMEOUT
           <= now - KillSwitch.last_heartbeat ks)%Q) /\
    (forall sid session,
        PyDict.get sid (active_sessions st') = Some session ->
        PyDict.get sid (active_sessions st) = Some session) /\
    (forall sid,
        PyDict.get sid (kill_switch_registry st) = None ->
        PyDict.get sid (kill_switch_registry st') = None).
Proof.
  intros now d st [ns nr] terminated st'. subst terminated st'.
  split; [|split; [|split]].
  - intros sid H.
    assert (H' : forall ks,
               PyDict.get sid (kill_switch_registry st) = Some ks ->
               timed_out now ks = false).
    { intros ks G. destruct (H ks G) as [dis|lt].
      - destruct (timed_out now ks) eqn:TO; [|reflexivity].
        apply timed_out_iff in TO. destruct TO as [en _]. congruence.
      - now apply timed_out_false. }
    destruct (check_all_spares now d st sid nr H') as (S & R & T).
    split; [exact S|]. split; [exact T|].
    intros ks G. rewrite R, G. simpl. eexists. split; [reflexivity|].
    split; [apply entry_after_enabled | apply entry_after_last_heartbeat].
  - intros sid i. rewrite kill_switch_check_all_spec in i by exact nr.
    simpl in i. apply in_map_iff in i. destruct i as (r & e & i).
    apply reports_in in i. destruct i as (ks & s & i & TO & G & _).
    rewrite e in *. split.
    + unfold PyDict.contains. now rewrite G.
    + exists ks. split; [now apply in_get|]. now apply timed_out_iff.
  - intros sid session G.
    rewrite kill_switch_check_all_spec in G by exact nr. simpl in G.
    destruct (in_dec string_dec sid
                (expired_keys now (kill_switch_registry st))) as [i|ni].
    + rewrite get_pop_all_in in G by exact i. discriminate.
    + now rewrite get_pop_all_out in G by exact ni.
  - intros sid G. rewrite kill_switch_check_all_spec by exact nr. simpl.
    apply get_pop_all_none. now rewrite entries_after_get, G.
Qed.

Lemma monitor_pass_frame_witness :
  registries_wf st_s2 /\
  PyDict.get "s2"
    (active_sessions
       (snd (kill_switch_check_all (inject_Z 500) sample_time st_s2)))
  = PyDict.get "s2" (active_sessions st_s2) /\
  PyDict.get "s1"
    (active_sessions
       (snd (kill_switch_check_all (inject_Z 500) sample_time st_s2)))
  = None.
Proof.
  assert (wf : registries_wf st_s2).
  { split; repeat constructor; simpl; intuition discriminate. }
  split; [exact wf|]. split; [|reflexivity].
  refine (proj1 (proj1 (monitor_pass_frame (inject_Z 500) sample_time st_s2 wf)
                   "s2" _)).
  intros ks G. discriminate G.
Defined.

(** ** A monitor pass run twice, and its counts *)

Lemma entry_after_idem now ks :
  timed_out now ks = false ->
  entry_after now (entry_after now ks) = entry_after now ks /\
  timed_out now (entry_after now ks) = false.
Proof.
  unfold timed_out, entry_after, check_entry.
  destruct ks as [sid en last hi to mi mx stt cr nl b6 bn fw]; simpl.
  destruct en; simpl; [|intros _; now split].
  destruct (Qle_bool (inject_Z KILL_SWITCH_TIMEOUT) (now - last)) eqn:TO;
    simpl; [discriminate|].
  intros _.
  destruct (1 <=? py_int ((now - last) / inject_Z KILL_SWITCH_HEARTBEAT_INTERVAL))
    eqn:M; simpl; rewrite TO; simpl; rewrite M; simpl; now split.
Qed.

Lemma survivors_settled now items k v :
  NoDup (PyDict.keys items) ->
  In (k, v) (pop_all (expired_keys now items) (entries_after now items)) ->
  entry_after now v = v /\ timed_out now v = false.
Proof.
  intros nd i. apply in_pop_all in i. destruct i as [ne i].
  apply entries_after_in in i. destruct i as (ks & i & ->).
  apply entry_after_idem.
  destruct (timed_out now ks) eqn:TO; [|reflexivity].
  exfalso. apply ne. apply expired_keys_in. now exists ks.
Qed.

Lemma settled_pass now d items sessions :
  (forall k v, In (k, v) items ->
               entry_after now v = v /\ timed_out now v = false) ->
  entries_after now items = items /\ expired_keys now items = [] /\
  reports now d items sessions = [].
Proof.
  unfold entries_after, expired_keys, reports.
  induction items as [|[k v] items IH]; intros H; [now repeat split|].
  destruct (H k v (or_introl eq_refl)) as [E T].
  destruct IH as (I1 & I2 & I3); [intros k' v' i; apply (H k' v'); now right|].
  simpl. rewrite T, E, I1. simpl. now rewrite I2, I3.
Qed.

(** X5.  A monitor pass settles the registries: a second pass at the
    same clock reading reports nothing and changes nothing. *)
Theorem monitor_pass_idempotent :
  forall now dnow dnow' st,
    registries_wf st ->
    kill_switch_check_all now dnow'
      (snd (kill_switch_check_all now dnow st))
    = ([], snd (kill_switch_check_all now dnow st)).
Proof.
  intros now d d' st wf. pose proof (check_all_wf now d st wf) as [_ nr'].
  destruct wf as [ns nr].
  rewrite (kill_switch_check_all_spec now d' _ nr').
  rewrite kill_switch_check_all_spec by exact nr. simpl.
  destruct (settled_pass now d'
              (pop_all (expired_keys now (kill_switch_registry st))
                 (entries_after now (kill_switch_registry st)))
              (pop_all (expired_keys now (kill_switch_registry st))
                 (active_sessions st)))
    as (E1 & E2 & E3).
  { intros k v i. now apply (survivors_settled now _ k v nr). }
  now rewrite E1, E2, E3.
Qed.

Lemma monitor_pass_idempotent_witness :
  registries_wf st_s2 /\
  fst (kill_switch_check_all (inject_Z 131) sample_time st_s2) <> [] /\
  kill_switch_check_all (inject_Z 131) sample_time
    (snd (kill_switch_check_all (inject_Z 131) sample_time st_s2))
  = ([], snd (kill_switch_check_all (inject_Z 131) sample_time st_s2)).
Proof.
  assert (wf : registries_wf st_s2).
  { split; repeat constructor; simpl; intuition discriminate. }
  split; [exact wf|]. split; [discriminate|].
  exact (monitor_pass_idempotent (inject_Z 131) sample_time sample_time st_s2 wf).
Defined.

Lemma pop_length {V} k (d : dict V) :
  NoDup (PyDict.keys d) ->
  (List.length (PyDict.pop k d)
   + (if PyDict.contains k d then 1 else 0) = List.length d)%nat.
Proof.
  unfold PyDict.contains.
  induction d as [|[k' v] d IH]; simpl; intros nd; [reflexivity|].
  inversion nd as [|? ? notin nd']; subst. specialize (IH nd').
  destruct (String.eqb_spec k k') as [->|ne]; simpl.
  - apply get_none_keys in notin. rewrite notin in IH.
    rewrite pop_absent by exact notin. lia.
  - destruct (PyDict.get k d); lia.
Qed.

Lemma pass_session_count now d items (sessions : dict Session.t) :
  NoDup (PyDict.keys items) -> NoDup (PyDict.keys sessions) ->
  (List.length (pop_all (expired_keys now items) sessions)
   + List.length (reports now d items sessions) = List.length sessions)%nat.
Proof.
  revert sessions. induction items as [|[k ks] items IH]; intros sessions ni ns.
  - simpl. lia.
  - inversion ni as [|? ? notin ni']; subst.
    unfold expired_keys, reports. simpl.
    fold (expired_keys now items). fold (reports now d items sessions).
    destruct (timed_out now ks); simpl.
    + assert (R : reports now d items sessions
                  = reports now d items (PyDict.pop k sessions)).
      { apply reports_ext. intros k' i. symmetry. apply get_pop_other.
        intros ->. contradiction. }
      pose proof (IH (PyDict.pop k sessions) ni' (nodup_pop k _ ns)) as H.
      pose proof (pop_length k sessions ns) as P.
      unfold PyDict.contains in P. unfold pop_all in *. simpl.
      fold (expired_keys now items).
      rewrite length_app, R.
      destruct (PyDict.get k sessions); simpl; lia.
    + now apply IH.
Qed.

Lemma pop_as_filter {V} k (d : dict V) :
  PyDict.pop k d = filter (fun kv => negb (String.eqb k (fst kv))) d.
Proof.
  induction d as [|[k' v] d IH]; simpl; [reflexivity|].
  destruct (String.eqb k k'); simpl; now rewrite IH.
Qed.

Lemma pop_all_as_filter {V} l (d : dict V) :
  pop_all l d
  = filter (fun kv => negb (existsb (fun k => String.eqb k (fst kv)) l)) d.
Proof.
  unfold pop_all. revert d. induction l as [|k l IH]; intros d; simpl.
  - symmetry. now apply filter_all.
  - rewrite IH, pop_as_filter. clear.
    induction d as [|[k' v] d IHd]; simpl; [reflexivity|].
    destruct (String.eqb k k'); simpl; [exact IHd|].
    destruct (existsb _ l); simpl; [exact IHd | now rewrite IHd].
Qed.

Lemma pass_registry_count now items :
  NoDup (PyDict.keys items) ->
  (List.length (pop_all (expired_keys now items) (entries_after now items))
   + List.length (expired_keys now items) = List.length items)%nat.
Proof.
  intros nd. rewrite pop_all_as_filter.
  assert (H : forall l,
             (forall x, In x l -> In x items) ->
             List.length
               (filter
                  (fun kv =>
                     negb (existsb (fun k => String.eqb k (fst kv))
                             (expired_keys now items)))
                  (entries_after now l))
             = List.length
                 (filter (fun x => negb (timed_out now (snd x))) l)).
  { induction l as [|[k ks] l IH]; intros sub; [reflexivity|].
    simpl. specialize (IH (fun x i => sub x (or_intror i))).
    assert (E : existsb (fun k0 => String.eqb k0 k) (expired_keys now items)
                = timed_out now ks).
    { destruct (timed_out now ks) eqn:TO.
      - apply existsb_exists. exists k. split; [|apply String.eqb_refl].
        apply expired_keys_in. exists ks. split; [apply sub; now left | exact TO].
      - destruct (existsb _ _) eqn:X; [|reflexivity].
        apply existsb_exists in X. destruct X as (k0 & i & e).
        apply String.eqb_eq in e. subst k0.
        apply expired_keys_in in i. destruct i as (ks' & i & TO').
        apply (in_get _ _ _ nd) in i.
        rewrite (in_get _ _ _ nd (sub _ (or_introl eq_refl))) in i. congruence. }
    rewrite E. destruct (timed_out now ks); simpl; now rewrite IH. }
  rewrite (H items) by auto. unfold expired_keys. rewrite length_map.
  pose proof (filter_length_split (fun item => timed_out now (snd item)) items).
  lia.
Qed.

Lemma reports_length now d items sessions :
  (List.length (reports now d items sessions)
   <= List.length (expired_keys now items))%nat /\
  ((forall k, In k (PyDict.keys items) -> In k (PyDict.keys sessions)) ->
   List.length (reports now d items sessions)
   = List.length (expired_keys now items)).
Proof.
  unfold reports, expired_keys.
  induction items as [|[k ks] items [IHle IHeq]]; [now split|].
  simpl. rewrite length_app. split.
  - destruct (timed_out now ks); simpl; [|exact IHle].
    destruct (PyDict.get k sessions); simpl; lia.
  - intros sub. rewrite IHeq by (intros; apply sub; now right).
    destruct (timed_out now ks); simpl; [|reflexivity].
    destruct (PyDict.get k sessions) eqn:G; [reflexivity|].
    apply get_none_keys in G. exfalso. apply G. apply sub. now left.
Qed.

(** X6.  The counts that [POST /api/kill-switch/check] reports add up:
    the sessions it terminated plus the sessions that remain are the
    sessions it found, and the entries that remain are the entries it
    found minus those past the timeout.  When every entry belongs to a
    session, as in every state the server reaches, terminated sessions
    and dropped entries are the same number.  The handler always
    answers, and leaves the state that [kill_switch_check_all] leaves. *)
Theorem run_kill_switch_check_counts :
  forall now dnow st,
    registries_wf st ->
    exists resp,
      run_kill_switch_check now dnow st
      = (Ok resp, snd (kill_switch_check_all now dnow st)) /\
      CheckResponse.terminated_sessions resp
      = fst (kill_switch_check_all now dnow st) /\
      (CheckResponse.terminated_count resp
       + CheckResponse.remaining_active_sessions resp
       = List.length (active_sessions st))%nat /\
      (CheckResponse.remaining_monitored resp
       + List.length (expired_keys now (kill_switch_registry st))
       = List.length (kill_switch_registry st))%nat /\
      (CheckResponse.terminated_count resp
       <= List.length (expired_keys now (kill_switch_registry st)))%nat /\
      ((forall k, In k (PyDict.keys (kill_switch_registry st)) ->
                  In k (PyDict.keys (active_sessions st))) ->
       (CheckResponse.remaining_monitored resp
        + CheckResponse.terminated_count resp
        = List.length (kill_switch_registry st))%nat).
Proof.
  intros now d st [ns nr]. unfold run_kill_switch_check.
  rewrite kill_switch_check_all_spec by exact nr.
  eexists. split; [reflexivity|]. simpl.
  pose proof (pass_session_count now d (kill_switch_registry st)
                (active_sessions st) nr ns) as S.
  pose proof (pass_registry_count now (kill_switch_registry st) nr) as R.
  destruct (reports_length now d (kill_switch_registry st) (active_sessions st))
    as [Le Eq].
  split; [reflexivity|]. split; [lia|]. split; [exact R|]. split; [exact Le|].
  intros sub. specialize (Eq sub). lia.
Qed.

Lemma run_kill_switch_check_counts_witness :
  registries_wf st_s2 /\
  exists resp,
    fst (run_kill_switch_check (inject_Z 131) sample_time st_s2) = Ok resp /\
    CheckResponse.terminated_count resp = 1%nat /\
    CheckResponse.remaining_active_sessions resp = 1%nat /\
    CheckResponse.remaining_monitored resp = 0%nat.
Proof.
  assert (wf : registries_wf st_s2).
  { split; repeat constructor; simpl; intuition discriminate. }
  split; [exact wf|].
  destruct (run_kill_switch_check_counts (inject_Z 131) sample_time st_s2 wf)
    as (resp & E & T & _).
  exists resp. rewrite E. split; [reflexivity|].
  injection E as <-. repeat split.
Defined.

(** ** Arming the kill switch on a running session *)

Lemma enable_kill_switch_state sid now d st s :
  PyDict.get sid (active_sessions st) = Some s ->
  exists e,
    enable_kill_switch sid now d st
    = (Ok (Registered e),
       {| active_sessions :=
            PyDict.set sid (Session.with_kill_switch (Some true) s)
              (active_sessions st);
          kill_switch_registry := PyDict.set sid e (kill_switch_registry st);
          server_logs := server_logs st |}) /\
    KillSwitch.enabled e = true /\ KillSwitch.status e = active /\
    KillSwitch.last_heartbeat e = now /\ KillSwitch.missed_heartbeats e = 0.
Proof.
  intros G. unfold enable_kill_switch, PyDict.contains, update_session.
  rewrite G. simpl. eexists. split; [reflexivity|]. simpl. auto.
Qed.

(** X7.  [enable_kill_switch] answers 404 and changes nothing when the
    session is not there.  Otherwise it replaces whatever entry the
    session had by a fresh one ([active], no missed heartbeat, last
    heartbeat [now]), marks the session, and leaves every other session
    and entry, the order of the sessions and the table alone.  Arming
    again restarts the timeout: a monitor pass less than
    [KILL_SWITCH_TIMEOUT] seconds later keeps the session, however old
    the replaced entry was. *)
Theorem enable_kill_switch_outcomes :
  forall sid now dnow st,
    let out := enable_kill_switch sid now dnow st in
    (PyDict.get sid (active_sessions st) = None ->
     out = (HTTPException 404 "Session not found", st)) /\
    (forall s,
        PyDict.get sid (active_sessions st) = Some s ->
        (exists e,
            fst out = Ok (Registered e) /\
            PyDict.get sid (kill_switch_registry (snd out)) = Some e /\
            KillSwitch.enabled e = true /\ KillSwitch.status e = active /\
            KillSwitch.last_heartbeat e = now /\
            KillSwitch.missed_heartbeats e = 0) /\
        PyDict.get sid (active_sessions (snd out))
        = Some (Session.with_kill_switch (Some true) s) /\
        PyDict.keys (active_sessions (snd out))
        = PyDict.keys (active_sessions st) /\
        server_logs (snd out) = server_logs st /\
        (forall k,
            k <> sid ->
            PyDict.get k (active_sessions (snd out))
            = PyDict.get k (active_sessions st) /\
            PyDict.get k (kill_switch_registry (snd out))
            = PyDict.get k (kill_switch_registry st)) /\
        (registries_wf st ->
         forall now' dnow',
           (now' - now < inject_Z KILL_SWITCH_TIMEOUT)%Q ->
           PyDict.get sid
             (active_sessions (snd (kill_switch_check_all now' dnow' (snd out))))
           = Some (Session.with_kill_switch (Some true) s))).
Proof.
  intros sid now d st out. subst out. split.
  - intros G. unfold enable_kill_switch, PyDict.contains. now rewrite G.
  - intros s G.
    destruct (enable_kill_switch_state sid now d st s G)
      as (e & E & en & act & last & mis).
    rewrite E. simpl.
    split; [exists e; rewrite get_set_same; auto 10|].
    split; [apply get_set_same|].
    split; [now apply (keys_set_present sid _ s)|].
    split; [reflexivity|]. split.
    + intros k ne. rewrite !get_set_other by exact ne. now split.
    + intros [ns nr] now' d' lt.
      match goal with
      | |- PyDict.get sid (active_sessions (snd (kill_switch_check_all _ _ ?x)))
           = _ => set (st' := x)
      end.
      assert (nr' : NoDup (PyDict.keys (kill_switch_registry st')))
        by (apply nodup_set; exact nr).
      destruct (check_all_spares now' d' st' sid nr') as (S & _).
      * intros ks G'. simpl in G'. rewrite get_set_same in G'.
        injection G' as <-. apply timed_out_false. now rewrite last.
      * rewrite S. simpl. apply get_set_same.
Qed.

Lemma enable_kill_switch_outcomes_witness :
  enable_kill_switch "s7" (inject_Z 160) sample_time st_s2
  = (HTTPException 404 "Session not found", st_s2) /\
  PyDict.contains "s2"
    (kill_switch_registry
       (snd (enable_kill_switch "s2" (inject_Z 160) sample_time st_s2))) = true /\
  PyDict.keys
    (active_sessions
       (snd (kill_switch_check_all (inject_Z 189) sample_time
               (snd (enable_kill_switch "s1" (inject_Z 160) sample_time st_s2)))))
  = ["s1"; "s2"].
Proof.
  pose proof (enable_kill_switch_outcomes "s7" (inject_Z 160) sample_time st_s2)
    as H7.
  pose proof (enable_kill_switch_outcomes "s2" (inject_Z 160) sample_time st_s2)
    as H2.
  cbv zeta in H7, H2. destruct H7 as [H7 _]. destruct H2 as [_ H2].
  split; [exact (H7 eq_refl)|]. split; [|reflexivity].
  destruct (PyDict.get "s2" (active_sessions st_s2)) as [s|] eqn:G;
    [|discriminate G].
  destruct (H2 s eq_refl) as ((e & _ & GE & _) & _).
  unfold PyDict.contains. now rewrite GE.
Defined.

(** ** Opening a multi-hop session *)

Lemma set_set {V} k v v' (d : dict V) :
  PyDict.set k v (PyDict.set k v' d) = PyDict.set k v d.
Proof.
  induction d as [|[k' w] d IH]; simpl.
  - now rewrite String.eqb_refl.
  - destruct (String.eqb k k') eqn:E; simpl; rewrite E; [reflexivity|].
    now rewrite IH.
Qed.

Lemma update_session_set sid f s (d : dict Session.t) :
  update_session sid f (PyDict.set sid s d) = PyDict.set sid (f s) d.
Proof. unfold update_session. rewrite get_set_same. apply set_set. Qed.

Lemma connect_multi_hop_accepted
    e x sm ks u sid lid t1 t2 d n1 n2 st entry_server exit_server :
  find_server e = Some entry_server -> find_server x = Some exit_server ->
  e <> x -> check_stealth_mode sm = None ->
  exists resp user session,
    connect_multi_hop e x sm ks u sid lid t1 t2 d n1 n2 st
    = (Ok (resp, user),
       {| active_sessions :=
            PyDict.set sid session (active_sessions st);
          kill_switch_registry :=
            if is_true ks
            then snd (kill_switch_register t2 d sid true
                        (kill_switch_registry st))
            else kill_switch_registry st;
          server_logs :=
            snd (create_minimal_log n1 n2 lid (server_logs st)
                   "multi_hop_session_start" None None None
                   (Some "WireGuard (Double-encrypted)") None) |}) /\
    ConnectResponse.session_id resp = sid /\
    User.total_sessions user = Some (or_zero (User.total_sessions u) + 1) /\
    Session.server session = exit_server /\
    Session.server_id session = x /\
    Session.protocol session = "WireGuard" /\
    Session.connected_at session = t1 /\
    Session.kill_switch session = ks /\
    Session.user_id session = Some (User.id u).
Proof.
  intros Fe Fx ne C. unfold connect_multi_hop. rewrite Fe, Fx, C.
  destruct (String.eqb_spec e x) as [->|_]; [contradiction|].
  destruct (opt_truthy sm); rewrite !update_session_set;
    do 3 eexists; (split; [reflexivity|]); simpl; auto 10.
Qed.

(** X8.  [connect_multi_hop] checks, in this order: the entry server
    is in the catalog (else 404), the exit server is (else 404), the two
    differ (else 400), the stealth mode is empty or known (else 400);
    a request turned down changes nothing.  These are the guards of
    [build_multi_hop_route], so the route builder, called right after
    them, answers whenever the handler gets that far, and it fails with
    the same status code whenever one of the first three guards
    fails.  An accepted request stores the session under the exit
    server, arms the kill switch only when asked, leaves the other
    sessions and entries alone, and appends a
    ["multi_hop_session_start"] row that carries no region. *)
Theorem connect_multi_hop_outcomes :
  forall e x sm ks u sid lid t_conn t_ks d_ks now1 now2 st inter,
    let out :=
      connect_multi_hop e x sm ks u sid lid t_conn t_ks d_ks now1 now2 st in
    (find_server e = None ->
     out = (HTTPException 404 ("Entry server not found: " ++ e), st) /\
     build_multi_hop_route e x inter
     = HTTPException 404 ("Entry server not found: " ++ e)) /\
    (find_server e <> None -> find_server x = None ->
     out = (HTTPException 404 ("Exit server not found: " ++ x), st) /\
     build_multi_hop_route e x inter
     = HTTPException 404 ("Exit server not found: " ++ x)) /\
    (find_server e <> None -> find_server x <> None -> e = x ->
     out = (HTTPException 400 "Entry and exit servers must be different", st)
     /\ build_multi_hop_route e x inter
        = HTTPException 400 "Entry and exit nodes must be different servers") /\
    (find_server e <> None -> find_server x <> None -> e <> x ->
     forall detail,
       check_stealth_mode sm = Some detail ->
       out = (HTTPException 400 detail, st)) /\
    (is_ok (fst out) = false -> snd out = st) /\
    (is_ok (fst out) = true ->
     exists entry_server exit_server session,
       find_server e = Some entry_server /\
       find_server x = Some exit_server /\
       (exists route,
           build_multi_hop_route e x inter = Ok route /\
           Route.entry_node route = entry_server /\
           Route.exit_node route = exit_server) /\
       PyDict.get sid (active_sessions (snd out)) = Some session /\
       Session.server session = exit_server /\
       Session.connected_at session = t_conn /\
       Session.user_id session = Some (User.id u) /\
       Session.kill_switch session = ks /\
       (PyDict.contains sid (kill_switch_registry (snd out)) = true
        <-> ks = Some true \/
            PyDict.contains sid (kill_switch_registry st) = true) /\
       (forall k,
           k <> sid ->
           PyDict.get k (active_sessions (snd out))
           = PyDict.get k (active_sessions st) /\
           PyDict.get k (kill_switch_registry (snd out))
           = PyDict.get k (kill_switch_registry st)) /\
       exists row,
         server_logs (snd out) = server_logs st ++ [row] /\
         ServerLog.event_type row = "multi_hop_session_start" /\
         ServerLog.anonymized_region row = None /\
         ServerLog.protocol row = Some "WireGuard (Double-encrypted)").
Proof.
  intros e x sm ks u sid lid t1 t2 d n1 n2 st inter out.
  destruct (find_server e) as [es|] eqn:Fe.
  2:{ subst out. unfold connect_multi_hop, build_multi_hop_route.
      rewrite Fe. simpl.
      repeat split; try reflexivity; try contradiction; discriminate. }
  destruct (find_server x) as [xs|] eqn:Fx.
  2:{ subst out. unfold connect_multi_hop, build_multi_hop_route.
      rewrite Fe, Fx. simpl.
      repeat split; try reflexivity; try contradiction; discriminate. }
  destruct (String.eqb_spec e x) as [E|NE].
  { subst out. unfold connect_multi_hop, build_multi_hop_route.
    rewrite Fe, Fx. rewrite E, String.eqb_refl. simpl.
    repeat split; try reflexivity; try contradiction; discriminate. }
  destruct (check_stealth_mode sm) as [detail|] eqn:C.
  { subst out. unfold connect_multi_hop. rewrite Fe, Fx, C.
    destruct (String.eqb_spec e x); [contradiction|]. simpl.
    repeat split; try reflexivity; try contradiction; try discriminate.
    intros _ _ _ detail' [= <-]. reflexivity. }
  destruct (connect_multi_hop_accepted e x sm ks u sid lid t1 t2 d n1 n2 st
              es xs Fe Fx NE C)
    as (resp & user & session & E & _ & _ & Hs & _ & _ & Hc & Hk & Hu).
  subst out. rewrite E. simpl.
  split; [discriminate|]. split; [discriminate|]. split; [contradiction|].
  split; [discriminate|]. split; [discriminate|].
  intros _. exists es, xs, session.
  split; [reflexivity|]. split; [reflexivity|]. split.
  { unfold build_multi_hop_route. rewrite Fe, Fx.
    destruct (String.eqb_spec e x); [contradiction|].
    eexists. split; [reflexivity|]. now split. }
  split; [apply get_set_same|].
  split; [exact Hs|]. split; [exact Hc|]. split; [exact Hu|].
  split; [exact Hk|]. split; [|split].
  - unfold PyDict.contains. destruct ks as [[|]|]; simpl.
    + rewrite get_set_same. split; [now left | reflexivity].
    + split; [now right | intros [H|H]; [discriminate | exact H]].
    + split; [now right | intros [H|H]; [discriminate | exact H]].
  - intros k ne. rewrite get_set_other by exact ne. split; [reflexivity|].
    destruct (is_true ks); simpl; [now apply get_set_other | reflexivity].
  - eexists. split; [reflexivity|]. simpl. auto.
Qed.

Lemma connect_multi_hop_outcomes_witness :
  connect_multi_hop "us-east-1" "us-east-1" None (Some true) alice "s5" "row-5"
    (inject_Z 100) (inject_Z 100) sample_time sample_time sample_time st_s1
  = (HTTPException 400 "Entry and exit servers must be different", st_s1) /\
  connect_multi_hop "ch-zurich-1" "mars-1" None (Some true) alice "s5" "row-5"
    (inject_Z 100) (inject_Z 100) sample_time sample_time sample_time st_s1
  = (HTTPException 404 "Exit server not found: mars-1", st_s1) /\
  (exists route,
      build_multi_hop_route "ch-zurich-1" "se-stockholm-1" 20 = Ok route /\
      Server.flag (Route.exit_node route) = "SE").
Proof.
  pose proof (connect_multi_hop_outcomes "us-east-1" "us-east-1" None
                (Some true) alice "s5" "row-5" (inject_Z 100) (inject_Z 100)
                sample_time sample_time sample_time st_s1 20) as H1.
  pose proof (connect_multi_hop_outcomes "ch-zurich-1" "mars-1" None
                (Some true) alice "s5" "row-5" (inject_Z 100) (inject_Z 100)
                sample_time sample_time sample_time st_s1 20) as H2.
  pose proof (connect_multi_hop_outcomes "ch-zurich-1" "se-stockholm-1" None
                (Some true) alice "s5" "row-5" (inject_Z 100) (inject_Z 100)
                sample_time sample_time sample_time st_s1 20) as H3.
  cbv zeta in H1, H2, H3.
  destruct H1 as (_ & _ & H1 & _). destruct H2 as (_ & H2 & _).
  destruct H3 as (_ & _ & _ & _ & _ & H3).
  split; [|split].
  - apply H1; [discriminate | discriminate | reflexivity].
  - apply H2; [discriminate | reflexivity].
  - destruct (H3 eq_refl) as (es & xs & _ & _ & Fx & (route & R & _ & X) & _).
    exists route. split; [exact R|]. rewrite X. now injection Fx as <-.
Defined.

(** ** Requests for one session leave the others alone *)

Lemma connect_multi_hop_others e x sm ks u sid lid t1 t2 d n1 n2 st k :
  k <> sid ->
  PyDict.get k
    (active_sessions
       (snd (connect_multi_hop e x sm ks u sid lid t1 t2 d n1 n2 st)))
  = PyDict.get k (active_sessions st) /\
  PyDict.get k
    (kill_switch_registry
       (snd (connect_multi_hop e x sm ks u sid lid t1 t2 d n1 n2 st)))
  = PyDict.get k (kill_switch_registry st).
Proof.
  intros ne. unfold connect_multi_hop.
  destruct (find_server e); [|now split].
  destruct (find_server x); [|now split].
  destruct (String.eqb e x); [now split|].
  destruct (check_stealth_mode sm); [now split|].
  destruct (is_true ks), (opt_truthy sm); simpl;
    rewrite ?update_session_get_other, ?get_set_other by exact ne; now split.
Qed.

Lemma step_frame o st k :
  addressed o <> Some k ->
  (forall now d, o <> CheckAll now d) ->
  PyDict.get k (active_sessions (step o st)) = PyDict.get k (active_sessions st)
  /\ PyDict.get k (kill_switch_registry (step o st))
     = PyDict.get k (kill_switch_registry st).
Proof.
  intros na nc. destruct o; simpl in *.
  - apply connect_others_after. congruence.
  - apply connect_multi_hop_others. congruence.
  - now rewrite status_unchanged.
  - assert (ne : k <> session_id) by congruence.
    unfold disconnect. destruct (PyDict.get session_id _); [|now split].
    simpl. now rewrite !get_pop_other.
  - assert (ne : k <> session_id) by congruence.
    unfold enable_kill_switch. destruct (negb _); [now split|]. simpl.
    now rewrite update_session_get_other, get_set_other.
  - assert (ne : k <> session_id) by congruence.
    unfold heartbeat, kill_switch_heartbeat.
    destruct (negb _); simpl.
    + destruct (PyDict.contains session_id (kill_switch_registry st));
        rewrite ?get_pop_other by exact ne; now split.
    + destruct (PyDict.get session_id (kill_switch_registry st)); simpl;
        rewrite ?get_set_other by exact ne; now split.
  - now rewrite kill_switch_status_unchanged.
  - exfalso. now apply (nc now dnow).
  - rewrite purge_tick_state. now split.
Qed.

(** X9.  A request never reaches beyond the session it names: after
    any operation other than a monitor pass, every session and every
    kill-switch entry under an identifier that the operation does not
    name or mint is exactly what it was.  The two status reads and the
    purge change no session and no entry at all. *)
Theorem requests_are_isolated :
  forall o st k,
    (forall now d, o <> CheckAll now d) ->
    (addressed o <> Some k ->
     PyDict.get k (active_sessions (step o st))
     = PyDict.get k (active_sessions st) /\
     PyDict.get k (kill_switch_registry (step o st))
     = PyDict.get k (kill_switch_registry st)) /\
    (addressed o = None ->
     active_sessions (step o st) = active_sessions st /\
     kill_switch_registry (step o st) = kill_switch_registry st).
Proof.
  intros o st k nc. split.
  - intros na. now apply step_frame.
  - intros A. destruct o; simpl in *; try discriminate.
    + now rewrite status_unchanged.
    + now rewrite kill_switch_status_unchanged.
    + exfalso. now apply (nc now dnow).
    + rewrite purge_tick_state. now split.
Qed.

Lemma requests_are_isolated_witness :
  PyDict.get "s1"
    (active_sessions
       (step (Disconnect "s2" bob (inject_Z 150) 100000 sample_time sample_time
                sample_time "row-8") st_s2))
  = PyDict.get "s1" (active_sessions st_s2) /\
  PyDict.get "s2"
    (active_sessions
       (step (Disconnect "s2" bob (inject_Z 150) 100000 sample_time sample_time
                sample_time "row-8") st_s2))
  = None.
Proof.
  split; [|reflexivity].
  refine (proj1 (proj1 (requests_are_isolated
                          (Disconnect "s2" bob (inject_Z 150) 100000
                             sample_time sample_time sample_time "row-8")
                          st_s2 "s1" _) _)).
  - discriminate.
  - discriminate.
Defined.

(** ** Heartbeats that keep a session alive *)

Lemma kept_alive_run sid ops :
  forall last st s ks,
    registries_wf st ->
    PyDict.get sid (active_sessions st) = Some s ->
    PyDict.get sid (kill_switch_registry st) = Some ks ->
    KillSwitch.enabled ks = true -> KillSwitch.status ks = active ->
    KillSwitch.last_heartbeat ks = last ->
    kept_alive sid last ops ->
    removals sid ops st = 0%nat /\
    PyDict.get sid (active_sessions (run ops st)) = Some s /\
    exists ks',
      PyDict.get sid (kill_switch_registry (run ops st)) = Some ks' /\
      KillSwitch.status ks' = active /\ KillSwitch.enabled ks' = true.
Proof.
  induction ops as [|o ops IH]; intros last st s ks wf GS GR en act la KA.
  - simpl. split; [reflexivity|]. split; [exact GS|]. now exists ks.
  - assert (other :
             addressed o <> Some sid -> (forall now d, o <> CheckAll now d) ->
             kept_alive sid last ops ->
             removals sid (o :: ops) st = 0%nat /\
             PyDict.get sid (active_sessions (run (o :: ops) st)) = Some s /\
             exists ks',
               PyDict.get sid (kill_switch_registry (run (o :: ops) st))
               = Some ks' /\
               KillSwitch.status ks' = active /\ KillSwitch.enabled ks' = true).
    { intros na nc KA'. destruct (step_frame o st sid na nc) as [FS FR].
      destruct (IH last (step o st) s ks) as (R0 & RS & RK);
        [now apply step_wf | congruence | congruence | assumption
        | assumption | assumption | exact KA' |].
      cbn [removals run]. split; [|now split].
      assert (B : removals_by sid o st = 0%nat).
      { destruct o; simpl in *; try reflexivity.
        - destruct (String.eqb_spec sid session_id) as [->|]; [|reflexivity].
          contradiction.
        - exfalso. now apply (nc now dnow). }
      now rewrite B, R0. }
    destruct o; simpl in KA;
      try (destruct KA as [na KA']; apply other;
           [exact na | discriminate | exact KA']).
    + (* Heartbeat *)
      destruct (String.eqb_spec session_id sid) as [->|ne].
      * assert (C : PyDict.contains sid (active_sessions st) = true)
          by (unfold PyDict.contains; now rewrite GS).
        assert (E : step (Heartbeat sid now dnow) st
                    = with_registry
                        (PyDict.set sid
                           (KillSwitch.with_status active
                              (KillSwitch.with_missed_heartbeats 0
                                 (KillSwitch.with_last_heartbeat now ks)))
                           (kill_switch_registry st)) st).
        { simpl. unfold heartbeat, kill_switch_heartbeat. now rewrite C, GR. }
        cbn [removals run removals_by]. rewrite E.
        destruct wf as [ns nr].
        apply (IH now _ s
                 (KillSwitch.with_status active
                    (KillSwitch.with_missed_heartbeats 0
                       (KillSwitch.with_last_heartbeat now ks))));
          try reflexivity; try assumption.
        -- split; simpl; [exact ns | now apply nodup_set].
        -- simpl. apply get_set_same.
      * apply other; [simpl; congruence | discriminate | exact KA].
    + (* CheckAll *)
      destruct KA as [lt KA']. destruct wf as [ns nr].
      assert (TO : forall k0,
                 PyDict.get sid (kill_switch_registry st) = Some k0 ->
                 timed_out now k0 = false).
      { intros k0 G0. rewrite GR in G0. injection G0 as <-.
        apply timed_out_false. rewrite la.
        unfold KILL_SWITCH_TIMEOUT, KILL_SWITCH_HEARTBEAT_INTERVAL, inject_Z
          in *. lra. }
      destruct (check_all_spares now dnow st sid nr TO) as (S & R & T).
      destruct (entry_after_status now ks en) as (Ha & _).
      rewrite la in Ha. specialize (Ha lt).
      destruct (IH last (snd (kill_switch_check_all now dnow st)) s
                  (entry_after now ks)) as (R0 & RS & RK).
      * now apply check_all_wf.
      * now rewrite S.
      * now rewrite R, GR.
      * now rewrite entry_after_enabled.
      * now rewrite Ha.
      * now rewrite entry_after_last_heartbeat.
      * exact KA'.
      * cbn [removals run removals_by step]. split; [|now split].
        rewrite R0.
        apply (count_occ_not_In string_dec) in T. now rewrite T.
Qed.

(** X10.  As long as heartbeats keep coming, the monitor never acts.
    Take a session with an enabled, [active] entry and any run in which
    every monitor pass comes less than [KILL_SWITCH_HEARTBEAT_INTERVAL]
    seconds after the latest heartbeat of that session, and in which no
    other request names the session (requests for other sessions,
    status reads and purges may come in any number).  Then no pass ever
    reports the session, the session is still there at the end,
    unchanged, and its entry is still [active]. *)
Theorem heartbeats_keep_session_alive :
  forall sid ops st s ks,
    registries_wf st ->
    PyDict.get sid (active_sessions st) = Some s ->
    PyDict.get sid (kill_switch_registry st) = Some ks ->
    KillSwitch.enabled ks = true -> KillSwitch.status ks = active ->
    kept_alive sid (KillSwitch.last_heartbeat ks) ops ->
    removals sid ops st = 0%nat /\
    PyDict.get sid (active_sessions (run ops st)) = Some s /\
    exists ks',
      PyDict.get sid (kill_switch_registry (run ops st)) = Some ks' /\
      KillSwitch.status ks' = active /\ KillSwitch.enabled ks' = true.
Proof.
  intros sid ops st s ks wf GS GR en act KA.
  now apply (kept_alive_run sid ops (KillSwitch.last_heartbeat ks) st s ks).
Qed.

Lemma heartbeats_keep_session_alive_witness :
  registries_wf st_s2 /\
  PyDict.contains "s1" (active_sessions (run heartbeats_on_s1 st_s2)) = true /\
  PyDict.contains "s2" (active_sessions (run heartbeats_on_s1 st_s2)) = false /\
  removals "s1" heartbeats_on_s1 st_s2 = 0%nat.
Proof.
  assert (wf : registries_wf st_s2).
  { split; repeat constructor; simpl; intuition discriminate. }
  split; [exact wf|].
  destruct (PyDict.get "s1" (active_sessions st_s2)) as [s|] eqn:GS;
    [|discriminate GS].
  destruct (PyDict.get "s1" (kill_switch_registry st_s2)) as [ks|] eqn:GR;
    [|discriminate GR].
  assert (en : KillSwitch.enabled ks = true) by (now injection GR as <-).
  assert (act : KillSwitch.status ks = active) by (now injection GR as <-).
  assert (KA : kept_alive "s1" (KillSwitch.last_heartbeat ks) heartbeats_on_s1).
  { injection GR as <-. simpl.
    repeat split; try discriminate; unfold Qlt; simpl; lia. }
  destruct (heartbeats_keep_session_alive "s1" heartbeats_on_s1 st_s2 s ks
              wf GS GR en act KA) as (R0 & RS & _).
  split; [|split; [reflexivity | exact R0]].
  unfold PyDict.contains. now rewrite RS.
Defined.

(** ** What holds in every state the server reaches *)

Lemma in_update_session k s sid f (d : dict Session.t) :
  In (k, s) (update_session sid f d) ->
  In (k, s) d \/ exists s0, In (sid, s0) d /\ k = sid /\ s = f s0.
Proof.
  unfold update_session. destruct (PyDict.get sid d) as [s0|] eqn:G; [|tauto].
  intros i. apply in_set in i. destruct i as [[-> ->]|i]; [|tauto].
  right. exists s0. split; [now apply get_some_in | now split].
Qed.

Lemma session_ok_with_kill_switch sid b s :
  session_ok sid s -> session_ok sid (Session.with_kill_switch b s).
Proof. intros (a & b' & c). repeat split; assumption. Qed.

Lemma session_ok_with_user_id sid u s :
  Session.session_id s = sid -> In (Session.server s) SERVERS ->
  session_ok sid (Session.with_user_id u s).
Proof. intros a b. repeat split; try assumption. discriminate. Qed.

Lemma find_server_catalog id server :
  find_server id = Some server -> In server SERVERS.
Proof. intros F. now apply find_server_in_catalog in F. Qed.

Lemma connect_sessions_ok req u sid lid t1 t2 d n1 n2 st :
  sessions_ok st -> sessions_ok (snd (connect req u sid lid t1 t2 d n1 n2 st)).
Proof.
  intros H. unfold connect.
  destruct (find_server _) as [server|] eqn:F; [|exact H].
  destruct (check_stealth_mode _); [exact H|].
  apply find_server_catalog in F.
  destruct (is_true _); simpl; intros k s i; simpl in i;
    rewrite ?update_session_set in i;
    (apply in_set in i; destruct i as [[-> ->]|i]; [|now apply H]);
    repeat split; simpl; try assumption; discriminate.
Qed.

Lemma connect_multi_hop_sessions_ok e x sm ks u sid lid t1 t2 d n1 n2 st :
  sessions_ok st ->
  sessions_ok (snd (connect_multi_hop e x sm ks u sid lid t1 t2 d n1 n2 st)).
Proof.
  intros H. unfold connect_multi_hop.
  destruct (find_server e); [|exact H].
  destruct (find_server x) as [xs|] eqn:F; [|exact H].
  destruct (String.eqb e x); [exact H|].
  destruct (check_stealth_mode sm); [exact H|].
  apply find_server_catalog in F.
  destruct (opt_truthy sm); simpl; intros k s i; simpl in i;
    rewrite ?update_session_set in i;
    (apply in_set in i; destruct i as [[-> ->]|i]; [|now apply H]);
    repeat split; simpl; try assumption; discriminate.
Qed.

Lemma step_sessions_ok o st :
  registries_wf st -> sessions_ok st -> sessions_ok (step o st).
Proof.
  intros [ns nr] H. destruct o; simpl.
  - now apply connect_sessions_ok.
  - now apply connect_multi_hop_sessions_ok.
  - now rewrite status_unchanged.
  - unfold disconnect. destruct (PyDict.get session_id _); [|exact H].
    simpl. intros k s i; simpl in i. apply in_pop in i. now apply H.
  - unfold enable_kill_switch. destruct (negb _); [exact H|]. simpl.
    intros k s i; simpl in i. apply in_update_session in i.
    destruct i as [i|(s0 & i & -> & ->)]; [now apply H|].
    apply session_ok_with_kill_switch. now apply H.
  - unfold heartbeat. destruct (negb _); [exact H|].
    destruct (kill_switch_heartbeat _ _ _ _) as [[] ?]; exact H.
  - now rewrite kill_switch_status_unchanged.
  - rewrite kill_switch_check_all_spec by exact nr.
    intros k s i; simpl in i. apply in_pop_all in i. now apply H.
  - rewrite purge_tick_state. exact H.
Qed.

Lemma reachable_sessions_ok T st : reachable T st -> sessions_ok st.
Proof.
  induction 1 as [T|T st o R IH ck fresh].
  - intros ? ? [].
  - apply step_sessions_ok; [|exact IH].
    now destruct (reachable_invariant T st R).
Qed.

Lemma reachable_logs_coarse T st :
  reachable T st -> Forall coarse (server_logs st).
Proof.
  induction 1 as [T|T st o R IH ck fresh]; [constructor|].
  rewrite Forall_forall in *. intros r i.
  destruct (step_logs_coarse o st r i) as [i'|c]; [now apply IH | exact c].
Qed.

Lemma catalog_region_in server :
  In server SERVERS ->
  anonymize_region (Some (Server.flag server)) = Some (Server.flag server).
Proof.
  intros i. pose proof catalog_flags as H. rewrite Forall_forall in H.
  now apply H.
Qed.

Lemma step_regions o st :
  sessions_ok st ->
  Forall region_from_catalog (server_logs st) ->
  Forall region_from_catalog (server_logs (step o st)).
Proof.
  intros so H.
  assert (A : forall n1 n2 lid ev du by_ pr rg,
             (rg = None \/ exists server, In server SERVERS /\
                                          rg = Some (Server.flag server)) ->
             Forall region_from_catalog
               (snd (create_minimal_log n1 n2 lid (server_logs st) ev None du
                       by_ pr rg))).
  { intros n1 n2 lid ev du by_ pr rg R. rewrite create_minimal_log_appends.
    apply Forall_app. split; [exact H|]. constructor; [|constructor].
    unfold region_from_catalog. simpl.
    destruct R as [->|(server & i & ->)]; [exact I|].
    rewrite (catalog_region_in server i). now exists server. }
  destruct o; simpl.
  - rewrite connect_logs.
    destruct (find_server _) as [server|] eqn:F; [|exact H].
    destruct (check_stealth_mode _); [exact H|].
    apply A. right. exists server. split; [|reflexivity].
    now apply find_server_catalog in F.
  - rewrite connect_multi_hop_logs.
    destruct (find_server entry_server_id); [|exact H].
    destruct (find_server exit_server_id); [|exact H].
    destruct (String.eqb _ _); [exact H|].
    destruct (check_stealth_mode _); [exact H|]. apply A. now left.
  - now rewrite status_unchanged.
  - rewrite disconnect_logs.
    destruct (PyDict.get session_id (active_sessions st)) as [s|] eqn:G;
      [|exact H].
    apply A. right. exists (Session.server s). split; [|reflexivity].
    apply get_some_in in G. now destruct (so _ _ G) as (_ & i & _).
  - now rewrite enable_kill_switch_logs.
  - now rewrite heartbeat_logs.
  - now rewrite kill_switch_status_unchanged.
  - now rewrite check_all_logs.
  - rewrite purge_tick_state. simpl. rewrite Forall_forall in *.
    intros r i. apply H. now apply purge_expired_logs_subset in i.
Qed.

Lemma reachable_regions T st :
  reachable T st -> Forall region_from_catalog (server_logs st).
Proof.
  induction 1 as [T|T st o R IH ck fresh]; [constructor|].
  apply step_regions; [|exact IH]. now apply (reachable_sessions_ok T).
Qed.

(** X11.  In every state that the server reaches from the empty one
    (clock not running backwards, fresh row identifiers):
    - no identifier appears twice in either registry;
    - every kill-switch entry belongs to a session that is still
      there, is enabled and is never left in status [triggered], and an
      entry in status [warning] is at least one heartbeat interval past
      its last heartbeat;
    - every session sits under its own identifier, on a server of the
      catalog, with its owner recorded;
    - every row of [server_logs] has a unique id, [is_purged = False],
      no [server_id], and as region nothing or the two-letter flag of a
      catalog server. *)
Theorem reachable_state_invariants :
  forall T st,
    reachable T st ->
    NoDup (PyDict.keys (active_sessions st)) /\
    NoDup (PyDict.keys (kill_switch_registry st)) /\
    (forall sid ks,
        PyDict.get sid (kill_switch_registry st) = Some ks ->
        PyDict.contains sid (active_sessions st) = true /\
        KillSwitch.enabled ks = true /\
        KillSwitch.status ks <> triggered /\
        (KillSwitch.status ks = warning ->
         (inject_Z KILL_SWITCH_HEARTBEAT_INTERVAL
          <= T - KillSwitch.last_heartbeat ks)%Q)) /\
    (forall sid s,
        PyDict.get sid (active_sessions st) = Some s ->
        Session.session_id s = sid /\ In (Session.server s) SERVERS /\
        Session.user_id s <> None) /\
    NoDup (map ServerLog.id (server_logs st)) /\
    (forall row,
        In row (server_logs st) ->
        ServerLog.is_purged row = false /\
        ServerLog.server_id row = None /\
        (ServerLog.anonymized_region row = None \/
         exists server,
           In server SERVERS /\
           ServerLog.anonymized_region row = Some (Server.flag server) /\
           String.length (Server.flag server) = 2%nat)).
Proof.
  intros T st R.
  destruct (reachable_invariant T st R) as ([ns nr] & en & pk & unp).
  pose proof (reachable_sessions_ok T st R) as so.
  pose proof (reachable_logs_coarse T st R) as co.
  pose proof (reachable_regions T st R) as rg.
  rewrite Forall_forall in unp, co, rg.
  split; [exact ns|]. split; [exact nr|]. split; [|split; [|split]].
  - intros sid ks G. apply get_some_in in G.
    destruct (en sid ks G) as [(a & b & c) i].
    split; [now apply contains_keys | now repeat split].
  - intros sid s G. apply get_some_in in G. exact (so sid s G).
  - exact pk.
  - intros row i. split; [now apply unp|].
    split; [now destruct (co row i)|].
    specialize (rg row i). unfold region_from_catalog in rg.
    destruct (ServerLog.anonymized_region row) as [c|] eqn:E; [|now left].
    right. destruct rg as (server & isv & ->). exists server.
    split; [exact isv|]. split; [reflexivity|].
    apply (anonymize_region_length (Some (Server.flag server))).
    now apply catalog_region_in.
Qed.

Lemma reachable_state_invariants_witness :
  reachable (inject_Z 101) st_s2 /\
  NoDup (PyDict.keys (active_sessions st_s2)) /\
  NoDup (map ServerLog.id (server_logs st_s2)).
Proof.
  pose proof (reachable_state_invariants (inject_Z 101) st_s2 reachable_st_s2)
    as (ns & _ & _ & _ & pk & _).
  split; [exact reachable_st_s2|]. now split.
Defined.

(** ** Further properties of the retention table *)

Lemma expired_later now now' r :
  DateTime.leb now now' = true ->
  expired_at now r = true -> expired_at now' r = true.
Proof.
  unfold expired_at. intros le E. apply andb_true_iff in E.
  destruct E as [E P]. rewrite P, andb_true_r.
  now apply (leb_trans _ now).
Qed.

Lemma filter_twice {A} (f g : A -> bool) (l : list A) :
  (forall x, f x = true -> g x = true) ->
  filter (fun x => negb (g x)) (filter (fun x => negb (f x)) l)
  = filter (fun x => negb (g x)) l /\
  (List.length (filter f l)
   + List.length (filter g (filter (fun x => negb (f x)) l))
   = List.length (filter g l))%nat.
Proof.
  intros H. induction l as [|x l [IH1 IH2]]; [now split|]. simpl.
  destruct (f x) eqn:F; simpl.
  - rewrite (H x F). simpl. split; [exact IH1 | lia].
  - destruct (g x); simpl; split; try (now rewrite IH1); lia.
Qed.

(** X12.  Purges compose: on a table with a unique primary key, a purge
    at reading [now] followed by a purge at a later reading [now']
    leaves the same table as one purge at [now'], and the two counts
    add up to the count of that one purge.  The rows that a purge keeps
    stay in insertion order, and a purge never deletes a row that a
    later purge would keep. *)
Theorem purges_compose :
  forall now now' db,
    pk_unique db ->
    DateTime.leb now now' = true ->
    let first := purge_expired_logs now db in
    let second := purge_expired_logs now' (snd first) in
    snd second = snd (purge_expired_logs now' db) /\
    fst first + fst second = fst (purge_expired_logs now' db) /\
    snd first = filter (fun r => negb (expired_at now r)) db /\
    (forall r, In r (snd (purge_expired_logs now' db)) -> In r (snd first)).
Proof.
  intros now now' db pk le first second. subst first second.
  rewrite (purge_expired_logs_filter now db pk). simpl.
  rewrite (purge_expired_logs_filter now' db pk).
  rewrite purge_expired_logs_filter by now apply pk_unique_filter.
  simpl.
  destruct (filter_twice (expired_at now) (expired_at now') db) as [E1 E2];
    [intros r; now apply expired_later|].
  split; [exact E1|]. split; [lia|]. split; [reflexivity|].
  intros r i. apply filter_In in i. destruct i as [i ne].
  apply filter_In. split; [exact i|].
  destruct (expired_at now r) eqn:E; [|reflexivity].
  rewrite (expired_later now now' r le E) in ne. discriminate.
Qed.

Lemma purges_compose_witness :
  pk_unique sample_table /\
  DateTime.leb (DateTime.mk 739560 13 45 0 0) sample_time = true /\
  fst (purge_expired_logs (DateTime.mk 739560 13 45 0 0) sample_table) = 1 /\
  fst (purge_expired_logs sample_time
         (snd (purge_expired_logs (DateTime.mk 739560 13 45 0 0) sample_table)))
  = 1 /\
  fst (purge_expired_logs sample_time sample_table) = 2.
Proof.
  assert (pk : pk_unique sample_table).
  { unfold pk_unique; simpl.
    repeat constructor; simpl; intuition discriminate. }
  pose proof (purges_compose (DateTime.mk 739560 13 45 0 0) sample_time
                sample_table pk eq_refl) as H.
  cbv zeta in H. destruct H as (_ & S & _).
  split; [exact pk|]. split; [reflexivity|]. split; [reflexivity|].
  split; [reflexivity|]. rewrite <- S. reflexivity.
Defined.

(** X13.  The retention window, end to end: a row written by
    [create_minimal_log] at reading [now1] under a fresh id survives
    every purge whose reading is less than five minutes (300 000 000
    microseconds) after [now1], and is deleted by every purge from that
    moment on. *)
Theorem row_lives_five_minutes :
  forall now now1 now2 new_id db event_type server_id duration bytes protocol
         region,
    pk_unique db ->
    ~ In new_id (map ServerLog.id db) ->
    DateTime.valid now ->
    let made :=
      create_minimal_log now1 now2 new_id db event_type server_id duration
        bytes protocol region in
    In (fst made) (snd made) /\
    (In (fst made) (snd (purge_expired_logs now (snd made)))
     <-> DateTime.to_us now < DateTime.to_us now1 + 300000000).
Proof.
  intros now now1 now2 new_id db ev sv du by_ pr rg pk fresh V made.
  assert (pk' : pk_unique (snd made)).
  { subst made. rewrite create_minimal_log_appends.
    unfold pk_unique in *. rewrite map_app. simpl.
    apply NoDup_app; [exact pk | repeat constructor; simpl; tauto |].
    intros a i [<-|[]]. contradiction. }
  assert (i : In (fst made) (snd made)).
  { subst made. rewrite create_minimal_log_appends.
    apply in_or_app. right. now left. }
  split; [exact i|].
  pose proof (row_expires_after_window now now1 now2 new_id db ev sv du by_
                pr rg V) as W.
  fold made in W.
  set (row := fst made) in *. set (tbl := snd made) in *. clearbody row tbl.
  rewrite (purge_expired_logs_filter now _ pk'). simpl.
  rewrite filter_In.
  destruct (expired_at now row); simpl.
  - split; [intros [_ F]; discriminate F|]. intros lt.
    pose proof (proj1 W eq_refl). lia.
  - split; [intros _|tauto].
    destruct (Z_lt_le_dec (DateTime.to_us now) (DateTime.to_us now1 + 300000000))
      as [lt|ge]; [exact lt|].
    pose proof (proj2 W ge). discriminate.
Qed.

Lemma row_lives_five_minutes_witness :
  pk_unique ([] : table) /\
  DateTime.valid (DateTime.mk 739560 13 52 12 345677) /\
  In (fst (create_minimal_log sample_time sample_time "row-1" []
             "session_start" None None None (Some "WireGuard") (Some "DE")))
    (snd (purge_expired_logs (DateTime.mk 739560 13 52 12 345677)
            (server_logs st_s1))) /\
  snd (purge_expired_logs (DateTime.mk 739560 13 52 12 345678)
         (server_logs st_s1)) = [].
Proof.
  assert (pk : pk_unique ([] : table)) by constructor.
  assert (fresh : ~ In "row-1" (map ServerLog.id ([] : table))) by (simpl; tauto).
  assert (V : DateTime.valid (DateTime.mk 739560 13 52 12 345677))
    by (unfold DateTime.valid; simpl; lia).
  pose proof (row_lives_five_minutes (DateTime.mk 739560 13 52 12 345677)
                sample_time sample_time "row-1" [] "session_start" None None
                None (Some "WireGuard") (Some "DE") pk fresh V) as H.
  cbv zeta in H. destruct H as [_ H].
  assert (lt : DateTime.to_us (DateTime.mk 739560 13 52 12 345677)
               < DateTime.to_us sample_time + 300000000) by reflexivity.
  split; [exact pk|]. split; [exact V|]. split; [|reflexivity].
  exact (proj2 H lt).
Defined.

(** ** The region of a row *)



(** ** The accounting of a disconnect *)

Lemma py_int_nonneg q : (0 <= q)%Q -> 0 <= py_int q.
Proof.
  destruct q as [n d]. unfold Qle, py_int; simpl. intros H.
  apply Z.quot_pos; lia.
Qed.

(** X15.  An accepted [disconnect] accounts the traffic once and
    consistently: the byte count [uptime * rnd] written to the
    ["session_end"] row is the amount added to the caller's
    [total_data_transferred_bytes], and the row's duration is the
    [uptime_seconds] of the answer.  If the clock has not gone back
    since the session started, the uptime is not negative, and with the
    draw [rnd] between 100000 and 500000 the byte count lies between
    [100000 * uptime] and [500000 * uptime].  The answer's
    [kill_switch_disarmed] repeats the session's flag, [False] when the
    session never had one. *)
Theorem disconnect_accounting :
  forall sid u now rnd now1 now2 dnow lid st session,
    PyDict.get sid (active_sessions st) = Some session ->
    let out := disconnect sid u now rnd now1 now2 dnow lid st in
    let uptime := py_int (now - Session.connected_at session) in
    exists resp user row,
      fst out = Ok (resp, user) /\
      server_logs (snd out) = server_logs st ++ [row] /\
      DisconnectResponse.uptime_seconds resp = uptime /\
      ServerLog.duration_seconds row = Some uptime /\
      ServerLog.bytes_transferred row = Some (uptime * rnd) /\
      User.total_data_transferred_bytes user
      = Some (or_zero (User.total_data_transferred_bytes u) + uptime * rnd) /\
      User.total_sessions user = User.total_sessions u /\
      DisconnectResponse.kill_switch_disarmed resp
      = match Session.kill_switch session with Some b => b | None => false end /\
      ((Session.connected_at session <= now)%Q ->
       0 <= uptime /\
       (100000 <= rnd <= 500000 ->
        100000 * uptime <= uptime * rnd <= 500000 * uptime)).
Proof.
  intros sid u now rnd n1 n2 d lid st session G out uptime. subst out.
  unfold disconnect. rewrite G.
  do 3 eexists. split; [reflexivity|]. split; [reflexivity|].
  repeat (split; [reflexivity|]). intros le.
  assert (P : 0 <= uptime) by (apply py_int_nonneg; lra).
  split; [exact P|]. intros [lo hi]. nia.
Qed.

Lemma disconnect_accounting_witness :
  exists resp user row session,
    PyDict.get "s1" (active_sessions st_s1) = Some session /\
    (Session.connected_at session <= inject_Z 175)%Q /\
    fst (disconnect "s1" alice (inject_Z 175) 100000 sample_time sample_time
           sample_time "row-4" st_s1) = Ok (resp, user) /\
    server_logs
      (snd (disconnect "s1" alice (inject_Z 175) 100000 sample_time sample_time
              sample_time "row-4" st_s1)) = server_logs st_s1 ++ [row] /\
    ServerLog.bytes_transferred row = Some 7500000 /\
    User.total_data_transferred_bytes user = Some 7500000.
Proof.
  destruct (PyDict.get "s1" (active_sessions st_s1)) as [session|] eqn:G;
    [|discriminate G].
  destruct (disconnect_accounting "s1" alice (inject_Z 175) 100000 sample_time
              sample_time sample_time "row-4" st_s1 session G)
    as (resp & user & row & E & L & _ & _ & B & U & _).
  exists resp, user, row, session.
  split; [reflexivity|].
  assert (C : Session.connected_at session = inject_Z 100)
    by (now injection G as <-).
  split; [rewrite C; unfold Qle; simpl; lia|].
  split; [exact E|]. split; [exact L|].
  rewrite B, U, C. split; reflexivity.
Defined.


(** ** The security check *)

(** X16.  [security_check] is a read: it returns the state it was
    given and always answers.  It reports ["secure"] exactly when the
    identifier is given, not empty and in [active_sessions], and
    ["at_risk"] otherwise.  When secure, the only DNS server it lists
    is the address of the session's server and no leak is flagged;
    otherwise it lists the two public resolvers and flags the leaks.
    For a non-empty identifier it agrees with [status]; for a missing
    or empty one it answers ["at_risk"] even where [status] falls back
    to the last session. *)
Theorem security_check_outcomes :
  forall session_id st,
    snd (security_check session_id st) = st /\
    exists resp,
      fst (security_check session_id st) = Ok resp /\
      (SecurityCheckResponse.overall_status resp = "secure"
       <-> exists sid,
             session_id = Some sid /\ sid <> "" /\
             PyDict.contains sid (active_sessions st) = true) /\
      (SecurityCheckResponse.overall_status resp <> "secure" ->
       SecurityCheckResponse.overall_status resp = "at_risk" /\
       SecurityCheckResponse.dns_servers resp = ["8.8.8.8"; "8.8.4.4"] /\
       SecurityCheckResponse.dns_leak_detected resp = true /\
       SecurityCheckResponse.webrtc_leak_detected resp = true /\
       SecurityCheckResponse.stun_server_blocked resp = false /\
       SecurityCheckResponse.ipv6_disabled resp = false) /\
      (SecurityCheckResponse.overall_status resp = "secure" ->
       (exists sid session,
           session_id = Some sid /\
           PyDict.get sid (active_sessions st) = Some session /\
           SecurityCheckResponse.dns_servers resp
           = [Server.ip (Session.server session)]) /\
       SecurityCheckResponse.dns_leak_detected resp = false /\
       SecurityCheckResponse.webrtc_leak_detected resp = false /\
       SecurityCheckResponse.stun_server_blocked resp = true /\
       SecurityCheckResponse.ipv6_disabled resp = true) /\
      (forall sid now r_sent r_received,
          session_id = Some sid -> sid <> "" ->
          (SecurityCheckResponse.overall_status resp = "secure"
           <-> exists uptime server sent received,
                 fst (status session_id now r_sent r_received st)
                 = Ok (StatusConnected sid "connected" uptime server sent
                         received))) /\
      (session_id = None \/ session_id = Some "" ->
       SecurityCheckResponse.overall_status resp = "at_risk").
Proof.
  intros sid st. split; [reflexivity|].
  destruct sid as [[|c k]|].
  - unfold security_check. eexists. split; [reflexivity|]. simpl.
    split; [split; [discriminate | intros (? & [= <-] & ne & _); contradiction]|].
    split; [intros _; now repeat split|].
    split; [discriminate|].
    split; [intros ? ? ? ? [= <-] ne; contradiction|]. reflexivity.
  - set (x := String c k).
    assert (T : truthy x = true) by reflexivity.
    destruct (PyDict.get x (active_sessions st)) as [s|] eqn:G;
      unfold security_check, PyDict.contains; cbv beta iota zeta;
      rewrite T, G; eexists; (split; [reflexivity|]); simpl.
    + split; [split; [intros _|reflexivity]|].
      { exists x. split; [reflexivity|]. split; [discriminate|].
        unfold PyDict.contains. now rewrite G. }
      split; [intros H; now contradiction H|].
      split; [intros _; split; [now exists x, s | now repeat split]|].
      split.
      * intros k' now r1 r2 [= <-] ne. split; [intros _|reflexivity].
        unfold status, opt_truthy. cbv beta iota. rewrite T.
        cbn [negb andb]. cbv beta iota zeta. rewrite T, G. simpl.
        now do 4 eexists.
      * intros [e|e]; discriminate.
    + split; [split; [discriminate|]|].
      { intros (k' & [= <-] & _ & C). unfold PyDict.contains in C.
        rewrite G in C. discriminate. }
      split; [intros _; now repeat split|].
      split; [discriminate|]. split.
      * intros k' now r1 r2 [= <-] ne. split; [discriminate|].
        unfold status, opt_truthy. cbv beta iota. rewrite T.
        cbn [negb andb]. cbv beta iota zeta. rewrite T, G. simpl.
        intros (? & ? & ? & ? & E). discriminate.
      * intros [e|e]; discriminate.
  - unfold security_check. eexists. split; [reflexivity|]. simpl.
    split; [split; [discriminate | intros (? & ? & _); discriminate]|].
    split; [intros _; now repeat split|].
    split; [discriminate|]. split; [discriminate|]. reflexivity.
Qed.

Lemma security_check_outcomes_witness :
  (exists resp,
      fst (security_check (Some "s1") st_s1) = Ok resp /\
      SecurityCheckResponse.overall_status resp = "secure" /\
      SecurityCheckResponse.dns_servers resp = ["203.0.113.20"]) /\
  (exists resp,
      fst (security_check None st_s1) = Ok resp /\
      SecurityCheckResponse.overall_status resp = "at_risk") /\
  (exists uptime server sent received,
      fst (status None (inject_Z 105) 50000 200000 st_s1)
      = Ok (StatusConnected "s1" "connected" uptime server sent received)).
Proof.
  destruct (security_check_outcomes (Some "s1") st_s1)
    as (_ & resp & E & Sec & _ & Dns & _).
  destruct (security_check_outcomes None st_s1)
    as (_ & resp' & E' & _ & _ & _ & _ & Risk).
  assert (S : SecurityCheckResponse.overall_status resp = "secure").
  { apply Sec. exists "s1". split; [reflexivity|].
    split; [discriminate | reflexivity]. }
  split; [|split].
  - exists resp. split; [exact E|]. split; [exact S|].
    destruct (Dns S) as ((sid & session & [= <-] & G & D) & _).
    rewrite D. now injection G as <-.
  - exists resp'. split; [exact E'|]. apply Risk. now left.
  - do 4 eexists. reflexivity.
Defined.

(** ** Stealth headers *)

Lemma stealth_table_keys :
  PyDict.keys STEALTH_PROTOCOL_TABLE = STEALTH_PROTOCOLS.
Proof. reflexivity. Qed.

Lemma stealth_known protocol :
  In protocol STEALTH_PROTOCOLS
  <-> protocol = "shadowsocks" \/ protocol = "v2ray" \/ protocol = "obfs4".
Proof. simpl. intuition congruence. Qed.

(** X17.  [wrap_stealth_headers] answers with headers exactly for the
    three keys of [STEALTH_PROTOCOLS] and with an error dict for any
    other name.  In the headers, [overhead_bytes] and [effective_mtu]
    always add up to 1500 and the outer port is 443; the wrapped
    payload is the payload plus the overhead, plus the second random
    draw for obfs4 only, so with draws between 0 and 255 it exceeds
    payload plus overhead by at most 255.  A non-empty stealth mode
    that [connect] accepts always gets headers, never the error. *)
Theorem wrap_stealth_headers_cases :
  forall protocol payload_size r_padding r_extra,
    let out := wrap_stealth_headers protocol payload_size r_padding r_extra in
    (~ In protocol STEALTH_PROTOCOLS ->
     out = StealthError ("Unknown stealth protocol: " ++ protocol)) /\
    (In protocol STEALTH_PROTOCOLS ->
     exists h,
       out = StealthOk h /\
       StealthHeaders.overhead_bytes h + StealthHeaders.effective_mtu h = 1500 /\
       0 < StealthHeaders.overhead_bytes h /\
       StealthHeaders.outer_port h = 443 /\
       StealthHeaders.wrapped_payload_size h
       = Some (payload_size + StealthHeaders.overhead_bytes h
               + if String.eqb protocol "obfs4" then r_extra else 0) /\
       StealthHeaders.packet_padding h
       = (if String.eqb protocol "obfs4" then Some r_padding else None) /\
       In (protocol, StealthHeaders.stealth_protocol h, 443,
           StealthHeaders.overhead_bytes h, StealthHeaders.effective_mtu h)
         obfuscation_protocols) /\
    (0 <= r_extra <= 255 ->
     forall h w,
       out = StealthOk h -> StealthHeaders.wrapped_payload_size h = Some w ->
       payload_size + StealthHeaders.overhead_bytes h <= w
       <= payload_size + StealthHeaders.overhead_bytes h + 255) /\
    (protocol <> "" -> check_stealth_mode (Some protocol) = None ->
     exists h, out = StealthOk h).
Proof.
  intros protocol payload r1 r2 out.
  assert (K : In protocol STEALTH_PROTOCOLS ->
              exists h,
                out = StealthOk h /\
                StealthHeaders.overhead_bytes h
                + StealthHeaders.effective_mtu h = 1500 /\
                0 < StealthHeaders.overhead_bytes h /\
                StealthHeaders.outer_port h = 443 /\
                StealthHeaders.wrapped_payload_size h
                = Some (payload + StealthHeaders.overhead_bytes h
                        + if String.eqb protocol "obfs4" then r2 else 0) /\
                StealthHeaders.packet_padding h
                = (if String.eqb protocol "obfs4" then Some r1 else None) /\
                In (protocol, StealthHeaders.stealth_protocol h, 443,
                    StealthHeaders.overhead_bytes h,
                    StealthHeaders.effective_mtu h)
                  obfuscation_protocols).
  { intros i. apply stealth_known in i. subst out.
    destruct i as [->|[->| ->]]; eexists; (split; [reflexivity|]); simpl;
      repeat split; try lia; try (f_equal; lia); tauto. }
  assert (U : ~ In protocol STEALTH_PROTOCOLS ->
              out = StealthError ("Unknown stealth protocol: " ++ protocol)).
  { intros ni. subst out. unfold wrap_stealth_headers.
    assert (G : PyDict.get protocol STEALTH_PROTOCOL_TABLE = None).
    { apply get_none_keys. now rewrite stealth_table_keys. }
    now rewrite G. }
  split; [exact U|]. split; [exact K|]. split.
  - intros R h w E W.
    destruct (in_dec string_dec protocol STEALTH_PROTOCOLS) as [i|ni].
    + destruct (K i) as (h' & E' & _ & _ & _ & W' & _).
      rewrite E' in E. injection E as <-. rewrite W' in W. injection W as <-.
      destruct (String.eqb protocol "obfs4"); lia.
    + rewrite (U ni) in E. discriminate.
  - intros ne C. apply check_stealth_mode_none in C.
    destruct C as [C|[C|(m & [= <-] & i)]]; try discriminate.
    + now injection C as ->.
    + destruct (K i) as (h & E & _). now exists h.
Qed.

Lemma wrap_stealth_headers_cases_witness :
  (exists h,
      wrap_stealth_headers "obfs4" 1400 17 200 = StealthOk h /\
      StealthHeaders.wrapped_payload_size h = Some 1624 /\
      StealthHeaders.effective_mtu h = 1476) /\
  wrap_stealth_headers "tor" 1400 17 200
  = StealthError "Unknown stealth protocol: tor".
Proof.
  pose proof (wrap_stealth_headers_cases "obfs4" 1400 17 200) as H.
  pose proof (wrap_stealth_headers_cases "tor" 1400 17 200) as H'.
  cbv zeta in H, H'. destruct H as (_ & K & _). destruct H' as (U & _).
  split.
  - destruct K as (h & E & M & _ & _ & W & _); [simpl; tauto|].
    exists h. split; [exact E|]. rewrite W.
    now injection E as <-.
  - apply U. simpl. intuition discriminate.
Defined.

(** ** Residential addresses *)




(* ------------------------------------------------------------------ *)
(** ** Accounts and tokens *)

Lemma find_app_none {A : Type} (f : A -> bool) (l1 l2 : list A) :
  find f l1 = None -> find f (l1 ++ l2) = find f l2.
Proof.
  induction l1 as [|a l1 IH]; simpl; [reflexivity|].
  destruct (f a); [discriminate | exact IH].
Qed.



Lemma find_none_not_in {A : Type} (f : A -> bool) (l : list A) :
  find f l = None -> forall a, In a l -> f a = false.
Proof.
  intros F a I. destruct (f a) eqn:E; [|reflexivity].
  pose proof (find_none f l F a I). congruence.
Qed.

Lemma touch_login_fresh (id : string) (now : datetime) (users : accounts) :
  ~ In id (map Account.id users) -> touch_login id now users = users.
Proof.
  induction users as [|a l IH]; simpl; [reflexivity|].
  intro N. unfold touch_login in *. simpl.
  destruct (String.eqb_spec (Account.id a) id) as [E|E].
  - exfalso. apply N. left. exact E.
  - f_equal. apply IH. intro H. apply N. right. exact H.
Qed.



Lemma find_split {A : Type} (f : A -> bool) (l : list A) (u : A) :
  find f l = Some u ->
  exists pre post,
    l = pre ++ u :: post /\ f u = true /\
    forall a, In a pre -> f a = false.
Proof.
  induction l as [|a l IH]; simpl; [discriminate|].
  destruct (f a) eqn:E.
  - intros [= <-]. exists [], l. split; [reflexivity|].
    split; [exact E|]. intros ? [].
  - intro F. destruct (IH F) as (pre & post & -> & Fu & P).
    exists (a :: pre), post. split; [reflexivity|]. split; [exact Fu|].
    intros b [<-|I]; [exact E | exact (P b I)].
Qed.

Lemma NoDup_map_middle {A B : Type} (f : A -> B) (pre post : list A) (u : A) :
  NoDup (map f (pre ++ u :: post)) ->
  ~ In (f u) (map f pre) /\ ~ In (f u) (map f post).
Proof.
  rewrite map_app. cbn [map]. intro N.
  apply NoDup_remove_2 in N. rewrite in_app_iff in N. tauto.
Qed.

Lemma touch_login_app (id : string) (now : datetime) (l1 l2 : accounts) :
  touch_login id now (l1 ++ l2)
  = touch_login id now l1 ++ touch_login id now l2.
Proof. unfold touch_login. apply map_app. Qed.

Lemma touch_login_middle
    (now : datetime) (pre post : accounts) (u : Account.t) :
  NoDup (map Account.id (pre ++ u :: post)) ->
  touch_login (Account.id u) now (pre ++ u :: post)
  = pre ++ Account.with_last_login now u :: post.
Proof.
  intro N. destruct (NoDup_map_middle Account.id pre post u N) as [P Q].
  rewrite touch_login_app. rewrite (touch_login_fresh _ now pre P).
  f_equal. change (u :: post) with ([u] ++ post).
  rewrite touch_login_app. rewrite (touch_login_fresh _ now post Q).
  unfold touch_login. cbn [map app]. rewrite String.eqb_refl. reflexivity.
Qed.

Lemma find_middle {A : Type} (f : A -> bool) (pre post : list A) (u : A) :
  (forall a, In a pre -> f a = false) -> f u = true ->
  find f (pre ++ u :: post) = Some u.
Proof.
  intros P Fu. induction pre as [|a pre IH]; simpl.
  - rewrite Fu. reflexivity.
  - rewrite (P a (or_introl eq_refl)). apply IH.
    intros b I. apply P. right. exact I.
Qed.

Lemma find_by_id_middle (pre post : accounts) (u v : Account.t) :
  Account.id v = Account.id u ->
  ~ In (Account.id u) (map Account.id pre) ->
  find (fun a => String.eqb (Account.id a) (Account.id u))
    (pre ++ v :: post) = Some v.
Proof.
  intros E P. apply find_middle.
  - intros a I. destruct (String.eqb_spec (Account.id a) (Account.id u))
      as [H|H]; [|reflexivity].
    exfalso. apply P. rewrite <- H. apply in_map. exact I.
  - rewrite E. apply String.eqb_refl.
Qed.

Section AccountProperties.

Variable hashpw : string -> string -> string.
Variable checkpw : string -> string -> bool.
Variable jwt_encode : Payload.t -> string.
Variable jwt_decode : string -> datetime -> jwt_outcome.


(** What a login that answers did, in a table whose primary key
    holds. *)
Lemma login_accepted
    (username password : string) (now n1 n2 n3 n4 : datetime)
    (users users' : accounts) (resp : AuthResponse.t) :
  login checkpw jwt_encode username password now n1 n2 n3 n4 users
    = (Ok resp, users') ->
  exists u pre post,
    users = pre ++ u :: post /\
    users' = touch_login (Account.id u) now users /\
    (forall a, In a pre -> String.eqb (Account.username a) username = false) /\
    Account.username u = username /\
    checkpw password (Account.password_hash u) = true /\
    Account.is_active u = Some true /\
    resp =
      {| AuthResponse.status := "authenticated";
         AuthResponse.user_id := Account.id u;
         AuthResponse.username := Account.username u;
         AuthResponse.access_token :=
           create_access_token jwt_encode (Account.id u)
             (Account.username u) n1 n2;
         AuthResponse.refresh_token :=
           create_refresh_token jwt_encode (Account.id u) n3 n4;
         AuthResponse.expires_in := 3600 |}.
Proof.
  unfold login, first_account, verify_password.
  destruct (find _ users) as [u|] eqn:F; [|discriminate].
  destruct (checkpw password (Account.password_hash u)) eqn:C;
    [|discriminate]. cbn [negb].
  destruct (Account.is_active u) as [[|]|] eqn:A; try discriminate.
  intros [= <- <-].
  destruct (find_split _ _ _ F) as (pre & post & E & Fu & P).
  exists u, pre, post. split; [exact E|]. split; [reflexivity|].
  split; [exact P|]. split; [now apply String.eqb_eq|].
  split; [exact C|]. split; [exact A|]. reflexivity.
Qed.


(** X21.  Registration and login round trip: when the password checks
    against the hash that [register] stored, a login with the
    registered name and password on the table that [register] left
    answers for the new row, and stamps that row alone; a password that
    does not check against that hash is refused with 401 and nothing is
    written. *)
Theorem register_then_login
    (req : RegisterRequest.t) (new_id salt : string)
    (n1 n2 n3 n4 now m1 m2 m3 m4 : datetime)
    (users users' : accounts) (resp : AuthResponse.t) :
  register hashpw jwt_encode req new_id salt n1 n2 n3 n4 users
    = (Ok resp, users') ->
  ~ In new_id (map Account.id users) ->
  checkpw (RegisterRequest.password req)
    (hashpw (RegisterRequest.password req) salt) = true ->
  exists u resp',
    users' = users ++ [u] /\
    login checkpw jwt_encode (RegisterRequest.username req)
      (RegisterRequest.password req) now m1 m2 m3 m4 users'
    = (Ok resp', users ++ [Account.with_last_login now u]) /\
    AuthResponse.user_id resp' = new_id /\
    AuthResponse.user_id resp = new_id /\
    forall p,
      checkpw p (hashpw (RegisterRequest.password req) salt) = false ->
      login checkpw jwt_encode (RegisterRequest.username req) p
        now m1 m2 m3 m4 users'
      = (HTTPException 401 "Invalid username or password", users').
Proof.
  unfold register, first_account.
  destruct (String.length (RegisterRequest.username req) <? 3)%nat;
    [discriminate|].
  destruct (String.length (RegisterRequest.password req) <? 8)%nat;
    [discriminate|].
  destruct (negb (has_char "@" (RegisterRequest.email req)));
    [discriminate|].
  destruct (find _ users) as [existing|] eqn:F.
  { destruct (String.eqb _ _); discriminate. }
  cbv zeta. intros [= <- <-] Fresh Check.
  pose proof (find_none_not_in _ users F) as T. cbv beta in T.
  assert (Fn : find (fun a => String.eqb (Account.username a)
                                (RegisterRequest.username req)) users = None).
  { destruct (find (fun a => String.eqb (Account.username a)
                               (RegisterRequest.username req)) users)
      as [a|] eqn:G; [|reflexivity].
    apply find_some in G. destruct G as [I G].
    specialize (T a I). rewrite G in T. discriminate. }
  eexists _, _. split; [reflexivity|].
  split; [|split; [|split; [reflexivity|]]].
  - unfold login, first_account, verify_password.
    rewrite (find_app_none _ users _ Fn). cbn [find Account.username].
    rewrite String.eqb_refl. cbn [Account.password_hash hash_password].
    unfold hash_password. rewrite Check. cbn [negb Account.is_active].
    cbn [Account.id]. f_equal.
    rewrite touch_login_app, (touch_login_fresh _ _ _ Fresh).
    unfold touch_login. cbn [map Account.id]. rewrite String.eqb_refl.
    reflexivity.
  - reflexivity.
  - intros p Bad. unfold login, first_account, verify_password.
    rewrite (find_app_none _ users _ Fn). cbn [find Account.username].
    rewrite String.eqb_refl. cbn [Account.password_hash].
    unfold hash_password. rewrite Bad. reflexivity.
Qed.



(** X24.  Login and authentication round trip, in a table whose
    primary key holds: when the access token that [login] handed out
    decodes to an access token for the subject it was made for,
    [get_current_user] and [get_optional_user] accept it on the table
    that [login] left, for the row that logged in, which now carries
    the login's reading of the clock; the refresh token of the same
    answer, decoding as a refresh token, is refused as a credential. *)
Theorem login_then_authenticate
    (username password : string) (now n1 n2 n3 n4 now' : datetime)
    (users users' : accounts) (resp : AuthResponse.t) (p : Payload.t) :
  login checkpw jwt_encode username password now n1 n2 n3 n4 users
    = (Ok resp, users') ->
  NoDup (map Account.id users) ->
  jwt_decode (AuthResponse.access_token resp) now' = Decoded p ->
  Payload.sub p = AuthResponse.user_id resp ->
  Payload.type p = Some "access" ->
  exists u,
    get_current_user jwt_decode (Some (AuthResponse.access_token resp))
      now' users' = Ok u /\
    get_optional_user jwt_decode (Some (AuthResponse.access_token resp))
      now' users' = Some u /\
    In u users' /\
    Account.id u = AuthResponse.user_id resp /\
    Account.username u = username /\
    Account.last_login u = Some now /\
    forall q,
      jwt_decode (AuthResponse.refresh_token resp) now' = Decoded q ->
      Payload.type q = Some "refresh" ->
      get_current_user jwt_decode (Some (AuthResponse.refresh_token resp))
        now' users' = HTTPException 401 "Invalid token type".
Proof.
  intros L N D Sub Ty.
  destruct (login_accepted _ _ _ _ _ _ _ _ _ _ L)
    as (u & pre & post & Eu & Eo & P & Un & Cp & A & R).
  assert (Eo' : users' = pre ++ Account.with_last_login now u :: post).
  { rewrite Eo, Eu. apply touch_login_middle. rewrite <- Eu. exact N. }
  assert (Su : Payload.sub p = Account.id u) by (rewrite Sub, R; reflexivity).
  assert (F : first_account
                (fun a => String.eqb (Account.id a) (Payload.sub p)) users'
              = Some (Account.with_last_login now u)).
  { unfold first_account. rewrite Su, Eo'. apply find_by_id_middle.
    - reflexivity.
    - rewrite Eu in N. apply (NoDup_map_middle Account.id pre post u N). }
  exists (Account.with_last_login now u).
  split; [|split; [|split; [|split; [|split; [|split]]]]].
  - unfold get_current_user, decode_token. rewrite D, Ty. cbn [opt_string_eqb].
    cbn [String.eqb Ascii.eqb Bool.eqb negb]. rewrite F. cbn. rewrite A.
    reflexivity.
  - unfold get_optional_user, decode_token. rewrite D, Ty. cbn [opt_string_eqb].
    cbn [String.eqb Ascii.eqb Bool.eqb negb]. rewrite F. cbn. rewrite A.
    reflexivity.
  - rewrite Eo'. apply in_elt.
  - rewrite R. reflexivity.
  - exact Un.
  - reflexivity.
  - intros q Dq Tq. unfold get_current_user, decode_token. rewrite Dq, Tq.
    reflexivity.
Qed.

End AccountProperties.

Lemma sample_accounts_unique : accounts_unique sample_accounts.
Proof.
  unfold accounts_unique, sample_accounts. cbn [map carol dave Account.id
    Account.username Account.email].
  repeat split; repeat constructor; cbn; intuition discriminate.
Qed.



Lemma register_then_login_witness :
  is_ok
    (fst (login sample_checkpw sample_jwt_encode "erin" "longenough"
            sample_time sample_time sample_time sample_time sample_time
            (snd (register sample_hashpw sample_jwt_encode erin_request
                    "u5" "salt" sample_time sample_time sample_time
                    sample_time sample_accounts))))
  = true.
Proof.
  edestruct (register_then_login sample_hashpw sample_checkpw
               sample_jwt_encode erin_request "u5" "salt"
               sample_time sample_time sample_time sample_time sample_time
               sample_time sample_time sample_time sample_time
               sample_accounts) as (u & resp' & E & L & _).
  - reflexivity.
  - cbn. intuition discriminate.
  - reflexivity.
  - match type of L with ?l = _ => change (is_ok (fst l) = true) end.
    rewrite L. reflexivity.
Defined.



Lemma login_then_authenticate_witness :
  exists u,
    get_current_user sample_jwt_decode (Some "Au3") sample_time
      (snd (login sample_checkpw sample_jwt_encode "carol" "correct horse"
              sample_time sample_time sample_time sample_time sample_time
              sample_accounts))
    = Ok u /\
    Account.last_login u = Some sample_time.
Proof.
  edestruct (login_then_authenticate sample_checkpw sample_jwt_encode
               sample_jwt_decode "carol" "correct horse"
               sample_time sample_time sample_time sample_time sample_time
               sample_time sample_accounts)
    as (u & G & _ & _ & _ & _ & T & _).
  - reflexivity.
  - exact (proj1 sample_accounts_unique).
  - reflexivity.
  - reflexivity.
  - reflexivity.
  - exists u. split; [exact G | exact T].
Defined.
